(** * Tap: a typed argument parser on top of an argument-parsing backend

    A shallow embedding of [tap/tap.py] (class [Tap]) and the properties of
    its hierarchy merger, argument synthesizer, parse pipeline and
    serialization bridge.

    Layout: Part I holds the embedding (data, then the methods of [Tap] in
    the order of the source), Part II the lemmas and theorems. *)

From Stdlib Require Import ZArith Ascii.
From stdpp Require Import base option list strings gmap.

Local Open Scope string_scope.
Local Open Scope list_scope.
Set Warnings "-register-all".

(* ===================================================================== *)
(** * Part I: the embedding                                                *)
(* ===================================================================== *)

(** ** Python dictionaries

    A [dict] (and an [OrderedDict]) keeps its keys in insertion order, and
    the source iterates over them, so a dictionary is an association list:
    [set] replaces the value of a key that is present in place and appends
    a key that is not. *)
Module Dict.
Definition t (V : Type) : Type := list (string * V).

Section ops.
Context {V : Type}.

Definition empty : t V := [].

(** [d.get(k)] / [d[k]] *)
Fixpoint get (d : t V) (k : string) : option V :=
  match d with
  | [] => None
  | (k', v) :: d' => if decide (k' = k) then Some v else get d' k
  end.

(** [k in d] *)
Definition contains (d : t V) (k : string) : bool :=
  match get d k with Some _ => true | None => false end.

(** [d[k] = v] *)
Fixpoint set (d : t V) (k : string) (v : V) : t V :=
  match d with
  | [] => [(k, v)]
  | (k', v') :: d' =>
      if decide (k' = k) then (k', v) :: d' else (k', v') :: set d' k v
  end.

(** [d.keys()], [d.items()] *)
Definition keys (d : t V) : list string := map fst d.
Definition items (d : t V) : list (string * V) := d.

(** A dictionary built by the interpreter never repeats a key. *)
Definition wf (d : t V) : Prop := NoDup (keys d).
End ops.
End Dict.

(** ** Python values

    The objects that fields, defaults and parsed results range over. Sets
    are kept as the list of their elements without repetition; equality
    ([py_eq]) ignores the order. Floats are not modelled. [VObject] stands
    for any other object (a function, a bound method, an instance of a user
    class), named by its [repr]. *)
Inductive value : Type :=
| VNone
| VBool (b : bool)
| VInt (z : Z)
| VStr (s : string)
| VList (l : list value)
| VTuple (l : list value)
| VSet (l : list value)
| VDict (d : list (string * value))
| VObject (repr : string).

(** [a == b]; [True == 1] and [False == 0] as in Python. *)
Fixpoint py_eq (a b : value) : bool :=
  match a, b with
  | VNone, VNone => true
  | VBool x, VBool y => Bool.eqb x y
  | VInt x, VInt y => Z.eqb x y
  | VBool x, VInt y => Z.eqb (Z.b2z x) y
  | VInt x, VBool y => Z.eqb x (Z.b2z y)
  | VStr x, VStr y => String.eqb x y
  | VList xs, VList ys =>
      (fix go (xs ys : list value) : bool :=
         match xs, ys with
         | [], [] => true
         | x :: xs', y :: ys' => py_eq x y && go xs' ys'
         | _, _ => false
         end) xs ys
  | VTuple xs, VTuple ys =>
      (fix go (xs ys : list value) : bool :=
         match xs, ys with
         | [], [] => true
         | x :: xs', y :: ys' => py_eq x y && go xs' ys'
         | _, _ => false
         end) xs ys
  | VSet xs, VSet ys =>
      forallb (fun x => existsb (py_eq x) ys) xs
      && forallb (fun y => existsb (fun x => py_eq x y) xs) ys
  | VDict xs, VDict ys =>
      Nat.eqb (length xs) (length ys)
      && forallb (fun p => existsb (fun q => String.eqb (fst p) (fst q) && py_eq (snd p) (snd q)) ys) xs
  | VObject x, VObject y => String.eqb x y
  | _, _ => false
  end.

(** [bool(v)], the truth value used by [not v]. *)
Definition truthy (v : value) : bool :=
  match v with
  | VNone => false
  | VBool b => b
  | VInt z => negb (Z.eqb z 0)
  | VStr s => negb (String.eqb s "")
  | VList l | VTuple l | VSet l => match l with [] => false | _ => true end
  | VDict d => match d with [] => false | _ => true end
  | VObject _ => true
  end.

(** Objects that may be put in a set: lists, sets and dictionaries are
    unhashable, a tuple is hashable when its elements are. *)
Fixpoint hashable (v : value) : bool :=
  match v with
  | VList _ | VSet _ | VDict _ => false
  | VTuple l => forallb hashable l
  | _ => true
  end.

(** The values of the base types: what the converters [str], [int] and
    [boolean_type] and the literals give. *)
Definition atom (v : value) : bool :=
  match v with
  | VNone | VBool _ | VInt _ | VStr _ | VObject _ => true
  | _ => false
  end.

(** The elements of a sequence, each kept once: the first occurrence, up
    to [==]. *)
Fixpoint collapse (l : list value) : list value :=
  match l with
  | [] => []
  | x :: l' => x :: filter (fun y => negb (py_eq x y)) (collapse l')
  end.

(** ** Type annotations

    The objects of [typing] that an annotation can be. The argument lists
    are what [typing_inspect.get_args] returns: a bare [List] or [Set]
    carries the type variable [T], so [List] is [TList [TVar]]; a bare
    [Tuple] is [TTuple []], [Tuple[()]] is [TTuple [TEmptyTuple]] and
    [Tuple[int, ...]] is [TTuple [TInt; TEllipsis]]; [Optional[int]] is
    [TUnion [TInt; TNoneType]]. *)
Inductive ann : Type :=
| TStr | TInt | TFloat | TBool
| TNoneType
| TVar
| TEllipsis
| TEmptyTuple
| TOptional
| TList (args : list ann)
| TSet (args : list ann)
| TTuple (args : list ann)
| TUnion (args : list ann)
| TLiteral (values : list value)
| TClass (name : string).

Inductive origin : Type := OList | OSet | OTuple | OUnion.

(** [typing_inspect.get_origin]; [None] for a class. *)
Definition get_origin (t : ann) : option origin :=
  match t with
  | TList _ => Some OList
  | TSet _ => Some OSet
  | TTuple _ => Some OTuple
  | TUnion _ => Some OUnion
  | _ => None
  end.

(** [typing_inspect.get_args] *)
Definition get_args (t : ann) : list ann :=
  match t with
  | TList args | TSet args | TTuple args | TUnion args => args
  | _ => []
  end.

Definition is_literal_type (t : ann) : bool :=
  match t with TLiteral _ => true | _ => false end.

Definition is_union_type (t : ann) : bool :=
  match t with TUnion _ => true | _ => false end.

(** [EMPTY_TYPE = get_args(List)[0]] *)
Definition EMPTY_TYPE : ann := TVar.

(** [a == b] on annotations: structural, except that a union compares as
    the set of its arguments. *)
Fixpoint ann_eqb (a b : ann) : bool :=
  let fix go (xs ys : list ann) : bool :=
    match xs, ys with
    | [], [] => true
    | x :: xs', y :: ys' => ann_eqb x y && go xs' ys'
    | _, _ => false
    end in
  match a, b with
  | TStr, TStr | TInt, TInt | TFloat, TFloat | TBool, TBool
  | TNoneType, TNoneType | TVar, TVar | TEllipsis, TEllipsis
  | TEmptyTuple, TEmptyTuple | TOptional, TOptional => true
  | TList xs, TList ys | TSet xs, TSet ys | TTuple xs, TTuple ys => go xs ys
  | TUnion xs, TUnion ys =>
      forallb (fun x => existsb (ann_eqb x) ys) xs
      && forallb (fun y => existsb (fun x => ann_eqb x y) xs) ys
  | TLiteral xs, TLiteral ys => py_eq (VTuple xs) (VTuple ys)
  | TClass x, TClass y => String.eqb x y
  | _, _ => false
  end.

(** [t in s] for a set of annotations *)
Definition ann_in (t : ann) (s : list ann) : bool := existsb (ann_eqb t) s.

Definition Optional_ (t : ann) : ann := TUnion [t; TNoneType].

Definition SUPPORTED_DEFAULT_BASE_TYPES : list ann := [TStr; TInt; TFloat; TBool].
Definition SUPPORTED_DEFAULT_OPTIONAL_TYPES : list ann :=
  [TOptional; Optional_ TStr; Optional_ TInt; Optional_ TFloat; Optional_ TBool].
Definition SUPPORTED_DEFAULT_LIST_TYPES : list ann :=
  [TList [TVar]; TList [TStr]; TList [TInt]; TList [TFloat]; TList [TBool]].
Definition SUPPORTED_DEFAULT_SET_TYPES : list ann :=
  [TSet [TVar]; TSet [TStr]; TSet [TInt]; TSet [TFloat]; TSet [TBool]].
Definition SUPPORTED_DEFAULT_COLLECTION_TYPES : list ann :=
  SUPPORTED_DEFAULT_LIST_TYPES ++ SUPPORTED_DEFAULT_SET_TYPES ++ [TTuple []].
Definition SUPPORTED_DEFAULT_BOXED_TYPES : list ann :=
  SUPPORTED_DEFAULT_OPTIONAL_TYPES ++ SUPPORTED_DEFAULT_COLLECTION_TYPES.
Definition SUPPORTED_DEFAULT_TYPES : list ann :=
  SUPPORTED_DEFAULT_BASE_TYPES ++ SUPPORTED_DEFAULT_OPTIONAL_TYPES
  ++ SUPPORTED_DEFAULT_COLLECTION_TYPES.

(** ** Exceptions and results *)

(** The [ValueError]s of the source, one constructor per [raise]; the
    arguments are the objects that the message interpolates. *)
Inductive value_error : Type :=
| (** 'You should call `parse_args` before retrieving arguments.' *)
  not_parsed
| (** 'Input dictionary {args_dict} does not include required arguments
      {required_args}.' *)
  missing_required (args_dict : Dict.t value) (required_args : list string)
| (** 'Variable "{variable}" has type "{var_type}" which is not supported
      by default. Please explicitly add the argument to the parser by
      writing: def add_arguments(self) -> None:
      self.add_argument("--{variable}", type=func, {hint}) where "func"
      maps from str to {var_type}.'; the hint is [required=True] ([None])
      or [default={value}]. *)
  unsupported_type (variable : string) (var_type : ann) (hint : option value)
| (** 'Empty Tuples (i.e. Tuple[()]) are not a valid Tap type because they
      have no arguments.' *)
  empty_tuple
| (** raised by [get_literals] *)
  bad_literal (variable : string)
| (** raised by [boolean_type] *)
  bad_boolean (token : string)
| (** raised by a type used as a converter, e.g. [int('x')] *)
  bad_conversion (t : ann) (token : string).

Inductive exn : Type :=
| ValueError (e : value_error)
| KeyError (key : string)
| AttributeError (name : string)
| TypeError (what : string)
| IndexError
| Exception (what : string)
| (** the backend reports a usage error and exits with status 2 *)
  SystemExit (message : string)
| (** the bound on the iterations of a loop of the model ran out *)
  OutOfFuel.

Inductive result (A : Type) : Type :=
| Ok (a : A)
| Raise (e : exn).
Arguments Ok {A} a.
Arguments Raise {A} e.

#[global] Instance result_ret : MRet result := fun A a => Ok a.
#[global] Instance result_bind : MBind result := fun A B f r =>
  match r with Ok a => f a | Raise e => Raise e end.

#[global] Instance result_fmap : FMap result := fun A B f r =>
  match r with Ok a => Ok (f a) | Raise e => Raise e end.

Definition is_ok {A : Type} (r : result A) : bool :=
  match r with Ok _ => true | Raise _ => false end.

(** [iter(v)]: the elements of an iterable, in order. [None], a number
    and an opaque object are not iterable. *)
Definition iterate (v : value) : result (list value) :=
  match v with
  | VList l | VTuple l | VSet l => Ok l
  | VStr s => Ok (map (fun c => VStr (String c EmptyString)) (String.list_ascii_of_string s))
  | VDict d => Ok (map (fun p => VStr (fst p)) d)
  | VNone => Raise (TypeError "'NoneType' object is not iterable")
  | VBool _ => Raise (TypeError "'bool' object is not iterable")
  | VInt _ => Raise (TypeError "'int' object is not iterable")
  | VObject _ => Raise (TypeError "object is not iterable")
  end.

(** [set(v)]; an unhashable element raises [TypeError]. *)
Definition py_set (v : value) : result value :=
  l ← iterate v;
  if forallb hashable l then Ok (VSet (collapse l))
  else Raise (TypeError "unhashable type").

(** [tuple(v)] *)
Definition py_tuple (v : value) : result value :=
  l ← iterate v; Ok (VTuple l).

(** [deepcopy(v)]: values are immutable here, a copy is the value. *)
Definition deepcopy (v : value) : value := v.

(** The first result that [f] gives along a list. *)
Fixpoint first_some {A B : Type} (f : A -> option B) (l : list A) : option B :=
  match l with
  | [] => None
  | x :: l' => match f x with Some b => Some b | None => first_some f l' end
  end.

(** ** Classes

    A class is named by a string. What the interpreter knows of a class:
    its direct bases, its method resolution order (which starts with the
    class itself), the attributes of its own [__dict__] and its own
    annotations. [source_variables] is what [get_class_variables] (of
    [tap.utils], which reads the source text of the class) returns for it:
    the class variables in the order of the source with their comments, or
    [None] when the source cannot be read and the call raises. *)
Definition class : Type := string.

(** What a class defines under a name: a value, a function, a static
    method, or a property that has a getter and no setter, given by what
    the getter returns. A property with a setter runs code of the user on
    assignment; the class tables here hold none. *)
Inductive class_attr : Type :=
| attr_value (v : value)
| attr_callable (repr : string)
| attr_staticmethod (repr : string)
| attr_property (v : value).

Record class_info : Type := {
  __bases__ : list class;
  __mro__ : list class;
  __dict__ : Dict.t class_attr;
  __annotations__ : Dict.t ann;
  source_variables : option (Dict.t string)
}.

(** The classes of the running program. A class that the table does not
    list (such as [object]) has no bases. *)
Class Classes : Type := class_table : gmap class class_info.

Section classes.
Context `{Classes}.

Definition bases (c : class) : list class :=
  match class_table !! c with Some i => __bases__ i | None => [] end.

Definition mro (c : class) : list class :=
  match class_table !! c with Some i => __mro__ i | None => [c] end.

Definition class_dict (c : class) : Dict.t class_attr :=
  match class_table !! c with Some i => __dict__ i | None => [] end.

Definition class_annotations (c : class) : Dict.t ann :=
  match class_table !! c with Some i => __annotations__ i | None => [] end.

(** [issubclass(c, base)]: [base] is in the resolution order of [c] *)
Definition issubclass (c base : class) : bool := bool_decide (base ∈ mro c).

(** [typing.get_type_hints(c)]: the annotations of the classes of the
    resolution order, from the last to the first, each overriding the
    ones before. *)
Definition get_type_hints (c : class) : Dict.t ann :=
  fold_left
    (fun hints base =>
       fold_left (fun h p => Dict.set h (fst p) (snd p))
                 (Dict.items (class_annotations base)) hints)
    (rev (mro c)) Dict.empty.

(** [get_class_variables(c)] of [tap.utils] *)
Definition get_class_variables (c : class) : result (Dict.t string) :=
  match class_table !! c with
  | Some i =>
      match source_variables i with
      | Some vars => Ok vars
      | None => Raise (Exception "could not get source code")
      end
  | None => Raise (Exception "could not get source code")
  end.

(** The attribute [name] as found on the class [c]: the first class of
    the resolution order that defines it. *)
Definition class_getattr (c : class) (name : string) : option class_attr :=
  first_some (fun base => Dict.get (class_dict base) name) (mro c).
End classes.

(** ** The hierarchy merger: [Tap._get_from_self_and_super] *)

(** The root of the family of parsers. *)
Definition Tap_class : class := "Tap".

(** The variables of the loop. [calls] is not in the source: it records,
    in order, the classes that [extract_func] has been applied to. *)
Record bfs_state (V : Type) : Type := {
  visited : gset class;
  super_classes : list class;
  dictionary : Dict.t V;
  calls : list class
}.
Arguments visited {V} _.
Arguments super_classes {V} _.
Arguments dictionary {V} _.
Arguments calls {V} _.

Section merger.
Context `{Classes} {V : Type}.
Variable extract_func : class -> result (Dict.t V).

(** [for variable, value in super_dictionary.items():
       if variable not in dictionary: dictionary[variable] = value] *)
Definition update_unseen (dictionary super_dictionary : Dict.t V) : Dict.t V :=
  fold_left
    (fun d p => if Dict.contains d (fst p) then d else Dict.set d (fst p) (snd p))
    (Dict.items super_dictionary) dictionary.

(** [for variable in super_dictionary.keys() - dictionary.keys():
       dictionary[variable] = super_dictionary[variable]]
    The difference is taken once, before the loop runs. *)
Definition update_difference (dictionary super_dictionary : Dict.t V) : Dict.t V :=
  fold_left
    (fun d variable =>
       match Dict.get super_dictionary variable with
       | Some value => Dict.set d variable value
       | None => d
       end)
    (filter (fun variable => negb (Dict.contains dictionary variable))
            (Dict.keys super_dictionary))
    dictionary.

(** One iteration of the [while] loop, entered with a non-empty queue:
    the state after it, and the exception that [extract_func] raised, if
    it did. *)
Definition bfs_step (st : bfs_state V) : bfs_state V * option exn :=
  match super_classes st with
  | [] => (st, None)
  | super_class :: rest =>
      if negb (bool_decide (super_class ∈ visited st))
         && issubclass super_class Tap_class
      then
        match extract_func super_class with
        | Ok super_dictionary =>
            let d1 := update_unseen (dictionary st) super_dictionary in
            let d2 := update_difference d1 super_dictionary in
            ({| visited := {[super_class]} ∪ visited st;
                super_classes := rest ++ bases super_class;
                dictionary := d2;
                calls := calls st ++ [super_class] |}, None)
        | Raise e =>
            ({| visited := visited st;
                super_classes := rest;
                dictionary := dictionary st;
                calls := calls st ++ [super_class] |}, Some e)
        end
      else
        ({| visited := visited st;
            super_classes := rest;
            dictionary := dictionary st;
            calls := calls st |}, None)
  end.

(** [while len(super_classes) > 0: ...], at most [fuel] iterations;
    [None] when they do not suffice. The loop ends when the queue is
    empty or when an iteration raises. *)
Fixpoint bfs_loop (fuel : nat) (st : bfs_state V) : option (bfs_state V * option exn) :=
  match super_classes st with
  | [] => Some (st, None)
  | _ :: _ =>
      match fuel with
      | O => None
      | S fuel' =>
          match bfs_step st with
          | (st', None) => bfs_loop fuel' st'
          | (st', Some e) => Some (st', Some e)
          end
      end
  end.

Definition bfs_init (cls : class) : bfs_state V :=
  {| visited := ∅; super_classes := [cls]; dictionary := Dict.empty; calls := [] |}.

(** Every iteration takes one class off the queue, and the bases of a
    class are put on it at most once: one iteration for the starting
    class and one per base of a class of the table suffice. *)
Definition bfs_budget : nat :=
  S (sum_list (map (fun p => length (__bases__ (snd p))) (map_to_list class_table))).

Definition traverse (cls : class) : option (bfs_state V * option exn) :=
  bfs_loop bfs_budget (bfs_init cls).

Definition _get_from_self_and_super (cls : class) : result (Dict.t V) :=
  match traverse cls with
  | Some (st, None) => Ok (dictionary st)
  | Some (_, Some e) => Raise e
  | None => Raise OutOfFuel
  end.

(** The bases that classes not yet visited can still put on the queue,
    and the measure that every iteration decreases. *)
Definition pending (vis : gset class) : nat :=
  sum_list (map (fun p => if bool_decide (fst p ∈ vis) then 0
                          else length (__bases__ (snd p)))
                (map_to_list class_table)).

Definition bfs_measure (st : bfs_state V) : nat :=
  length (super_classes st) + pending (visited st).

(** The declaration of [k] by the class [c], if [extract_func] gives one. *)
Definition declares (k : string) (c : class) : option V :=
  match extract_func c with Ok sd => Dict.get sd k | Raise _ => None end.

(** What holds between two iterations of the loop. *)
Record bfs_inv (st : bfs_state V) : Prop := {
  inv_nodup : NoDup (calls st);
  inv_visited : forall c, c ∈ calls st <-> c ∈ visited st;
  inv_family : forall c, c ∈ calls st -> issubclass c Tap_class = true;
  inv_extracted : forall c, c ∈ calls st -> is_ok (extract_func c) = true;
  inv_dictionary : forall k,
    Dict.get (dictionary st) k = first_some (declares k) (calls st);
  inv_wf : Dict.wf (dictionary st)
}.

(** The classes that the traversal from [cls] is to visit: [cls] itself
    and the bases of a class to visit, as long as they are subclasses of
    [Tap]; the bases of a class outside the family are not looked at. *)
Inductive reachable (cls : class) : class -> Prop :=
| reachable_start :
    issubclass cls Tap_class = true -> reachable cls cls
| reachable_base (c b : class) :
    reachable cls c -> b ∈ bases c -> issubclass b Tap_class = true ->
    reachable cls b.

(** Where the classes on the queue come from, and what is still to do:
    a base of a visited class is visited or waits on the queue. *)
Record bfs_frontier (cls : class) (st : bfs_state V) : Prop := {
  frontier_calls : forall c, c ∈ calls st -> reachable cls c;
  frontier_queue : forall q, q ∈ super_classes st ->
    q = cls \/ exists c, c ∈ calls st /\ q ∈ bases c;
  frontier_start : issubclass cls Tap_class = true ->
    cls ∈ visited st \/ cls ∈ super_classes st;
  frontier_bases : forall c b, c ∈ visited st -> b ∈ bases c ->
    issubclass b Tap_class = true -> b ∈ visited st \/ b ∈ super_classes st
}.
End merger.

Section class_tables.
Context `{Classes}.

(** [var.startswith('_')] *)
Definition is_private (var : string) : bool := String.prefix "_" var.

Definition is_callable (a : class_attr) : bool :=
  match a with attr_callable _ => true | _ => false end.

Definition is_staticmethod (a : class_attr) : bool :=
  match a with attr_staticmethod _ => true | _ => false end.

Definition _get_class_dict (cls : class) : result (Dict.t class_attr) :=
  class_dict ←
    _get_from_self_and_super (fun super_class => Ok (class_dict super_class)) cls;
  Ok (filter
        (fun p => negb (is_private (fst p) || is_callable (snd p)
                        || is_staticmethod (snd p)))
        (Dict.items class_dict)).

Definition _get_annotations (cls : class) : result (Dict.t ann) :=
  _get_from_self_and_super (fun super_class => Ok (get_type_hints super_class)) cls.

(** [try: ... except Exception: ...]; running out of fuel is not a
    Python exception and is not caught. *)
Definition _get_class_variables (cls : class) : result (Dict.t string) :=
  match _get_from_self_and_super get_class_variables cls with
  | Ok class_variables => Ok class_variables
  | Raise OutOfFuel => Raise OutOfFuel
  | Raise _ =>
      class_dict ← _get_class_dict cls;
      Ok (fold_left (fun class_variables variable => Dict.set class_variables variable "")
                    (Dict.keys class_dict) Dict.empty)
  end.
End class_tables.

(** ** Keyword arguments of [add_argument] *)

(** What [type=] can hold, and what [var_type] ranges over in
    [_add_argument]: an annotation used as a converter ([str], [int], ...),
    [boolean_type] and a [TupleTypeEnforcer] of [tap.utils], the function
    that [get_literals] returns for a list of choices, or a function of the
    user. *)
Inductive callable : Type :=
| CType (t : ann)
| Cboolean_type
| CTupleTypeEnforcer (types : list ann) (cycled : bool)
| CLiteral (choices : list value)
| CFunction (name : string).

Inductive nargs : Type :=
| NargsStar
| NargsInt (n : nat)
| NargsOther (s : string).

(** The help text: given by the caller, or put together by [_add_argument]
    as ['(' + type_to_str(annotation) + ', ' + 'required' or
    'default=...' + ')' + ' ' + comment]. The parts are kept apart, since
    [type_to_str] and the rendering of values are not in the sources. *)
Inductive help_text : Type :=
| HelpGiven (s : string)
| HelpSynth (annotation : option ann) (default_or_required : option value)
            (comment : option string).

Record keywords : Type := {
  kw_default : option value;
  kw_required : option bool;
  kw_help : option help_text;
  kw_type : option callable;
  kw_choices : option (list value);
  kw_nargs : option nargs;
  kw_action : option string;
  kw_dest : option string
}.

Definition no_kwargs : keywords :=
  {| kw_default := None; kw_required := None; kw_help := None; kw_type := None;
     kw_choices := None; kw_nargs := None; kw_action := None; kw_dest := None |}.

Definition set_default (k : keywords) (v : value) : keywords :=
  {| kw_default := Some v; kw_required := kw_required k; kw_help := kw_help k;
     kw_type := kw_type k; kw_choices := kw_choices k; kw_nargs := kw_nargs k;
     kw_action := kw_action k; kw_dest := kw_dest k |}.
Definition set_required (k : keywords) (b : bool) : keywords :=
  {| kw_default := kw_default k; kw_required := Some b; kw_help := kw_help k;
     kw_type := kw_type k; kw_choices := kw_choices k; kw_nargs := kw_nargs k;
     kw_action := kw_action k; kw_dest := kw_dest k |}.
Definition set_help (k : keywords) (h : help_text) : keywords :=
  {| kw_default := kw_default k; kw_required := kw_required k; kw_help := Some h;
     kw_type := kw_type k; kw_choices := kw_choices k; kw_nargs := kw_nargs k;
     kw_action := kw_action k; kw_dest := kw_dest k |}.
Definition set_type (k : keywords) (f : callable) : keywords :=
  {| kw_default := kw_default k; kw_required := kw_required k; kw_help := kw_help k;
     kw_type := Some f; kw_choices := kw_choices k; kw_nargs := kw_nargs k;
     kw_action := kw_action k; kw_dest := kw_dest k |}.
Definition set_choices (k : keywords) (c : list value) : keywords :=
  {| kw_default := kw_default k; kw_required := kw_required k; kw_help := kw_help k;
     kw_type := kw_type k; kw_choices := Some c; kw_nargs := kw_nargs k;
     kw_action := kw_action k; kw_dest := kw_dest k |}.
Definition set_nargs (k : keywords) (n : nargs) : keywords :=
  {| kw_default := kw_default k; kw_required := kw_required k; kw_help := kw_help k;
     kw_type := kw_type k; kw_choices := kw_choices k; kw_nargs := Some n;
     kw_action := kw_action k; kw_dest := kw_dest k |}.
Definition set_action (k : keywords) (a : string) : keywords :=
  {| kw_default := kw_default k; kw_required := kw_required k; kw_help := kw_help k;
     kw_type := kw_type k; kw_choices := kw_choices k; kw_nargs := kw_nargs k;
     kw_action := Some a; kw_dest := kw_dest k |}.

(** ** Helpers of [tap.utils] and the backend *)

(** [get_dest] and [is_option_arg] of [tap.utils] are not part of the
    sources; the embedding takes them as given. *)
Class Utils : Type := {
  get_dest : list string -> keywords -> string;
  is_option_arg : list string -> bool
}.

(** The primitive kind of a value of a literal type. *)
Definition literal_kind (v : value) : option ann :=
  match v with
  | VStr _ => Some TStr
  | VInt _ => Some TInt
  | VBool _ => Some TBool
  | _ => None
  end.

Definition same_kind (v w : value) : bool :=
  match literal_kind v, literal_kind w with
  | Some a, Some b => ann_eqb a b
  | _, _ => false
  end.

(** Modelled from the spec: [get_literals] of [tap.utils] is not part of
    the sources. For a literal type it gives the converter and the list of
    choices, the values of the literal; the values must be non-empty and
    all of one primitive kind, or the call fails. *)
Definition get_literals (literal : ann) (variable : string)
  : result (callable * list value) :=
  match literal with
  | TLiteral (v :: vs) =>
      if forallb (same_kind v) (v :: vs) then Ok (CLiteral (v :: vs), v :: vs)
      else Raise (ValueError (bad_literal variable))
  | _ => Raise (ValueError (bad_literal variable))
  end.

(** What the backend binds: [vars(namespace)]. *)
Definition namespace : Type := Dict.t value.

(** The parsing backend, the super class [ArgumentParser]: the state of a
    parser, the attributes that its constructor binds on [self]
    ([description], [prog], ...), in order, the [add_argument] calls that
    its constructor makes on [self] (the help flag), the registration of
    an argument and the two ways of parsing. [None] for the tokens stands
    for [sys.argv]. *)
Class Backend : Type := {
  parser : Type;
  new_parser : parser;
  parser_init_attributes : list (string * value);
  parser_init_arguments : list (list string * keywords);
  parser_add_argument : parser -> list string -> keywords -> result parser;
  parser_parse_args : parser -> option (list string) -> result namespace;
  parser_parse_known_args :
    parser -> option (list string) -> result (namespace * list string)
}.

(** ** Instances of [Tap] *)

(** The attributes that [__init__] sets, as the methods of [Tap] use them,
    the state of the super class, and [attrs], the attributes bound on
    the instance as [getattr] reads them: the ones that the constructors
    bind, then the ones that [setattr] binds. The two attributes that the
    methods of [Tap] assign again after the construction, [_parsed] and
    [extra_args], are followed in the fields of the record and not in
    [attrs]: what is stated about reading attributes after a parse or an
    import leaves these two names out, and the names of the fields of a
    class are taken to differ from them. *)
Record Tap `{Backend} : Type := {
  cls : class;
  _explicit_bool : bool;
  _underscores_to_dashes : bool;
  _parsed : bool;
  extra_args : list string;
  argument_buffer : Dict.t (list string * keywords);
  class_variables : Dict.t string;
  _annotations : Dict.t ann;
  attrs : Dict.t value;
  super : parser
}.

Section tap.
Context `{Classes} `{Utils} `{Backend}.

(** Methods run on an instance, may change it and may raise; what was
    changed before an exception stays changed. *)
Definition M (A : Type) : Type := Tap -> result A * Tap.

Definition ret {A : Type} (a : A) : M A := fun self => (Ok a, self).
Definition raise {A : Type} (e : exn) : M A := fun self => (Raise e, self).
Definition lift {A : Type} (r : result A) : M A := fun self => (r, self).
Definition seq {A B : Type} (m : M A) (f : A -> M B) : M B :=
  fun self =>
    match m self with
    | (Ok a, self') => f a self'
    | (Raise e, self') => (Raise e, self')
    end.

(** [for x in l: body(x)] *)
Fixpoint for_each {A : Type} (l : list A) (body : A -> M unit) : M unit :=
  match l with
  | [] => ret tt
  | x :: l' => seq (body x) (fun _ => for_each l' body)
  end.

(** *** Attribute access *)

Definition attr_to_value (a : class_attr) : value :=
  match a with
  | attr_value v | attr_property v => v
  | attr_callable r | attr_staticmethod r => VObject r
  end.

Definition is_property (a : option class_attr) : bool :=
  match a with Some (attr_property _) => true | _ => false end.

(** [getattr(self, name)]: a property of the class first, then the
    attributes of the instance ([attrs]), then the other attributes of the
    class. *)
Definition getattr (self : Tap) (name : string) : result value :=
  match class_getattr (cls self) name with
  | Some (attr_property v) => Ok v
  | found =>
      match Dict.get (attrs self) name with
      | Some v => Ok v
      | None =>
          match found with
          | Some a => Ok (attr_to_value a)
          | None => Raise (AttributeError name)
          end
      end
  end.

Definition hasattr (self : Tap) (name : string) : bool := is_ok (getattr self name).

Definition with_attrs (self : Tap) (a : Dict.t value) : Tap :=
  {| cls := cls self; _explicit_bool := _explicit_bool self;
     _underscores_to_dashes := _underscores_to_dashes self;
     _parsed := _parsed self; extra_args := extra_args self;
     argument_buffer := argument_buffer self;
     class_variables := class_variables self;
     _annotations := _annotations self; attrs := a; super := super self |}.

Definition with_parsed (self : Tap) (b : bool) : Tap :=
  {| cls := cls self; _explicit_bool := _explicit_bool self;
     _underscores_to_dashes := _underscores_to_dashes self;
     _parsed := b; extra_args := extra_args self;
     argument_buffer := argument_buffer self;
     class_variables := class_variables self;
     _annotations := _annotations self; attrs := attrs self; super := super self |}.

Definition with_extra_args (self : Tap) (l : list string) : Tap :=
  {| cls := cls self; _explicit_bool := _explicit_bool self;
     _underscores_to_dashes := _underscores_to_dashes self;
     _parsed := _parsed self; extra_args := l;
     argument_buffer := argument_buffer self;
     class_variables := class_variables self;
     _annotations := _annotations self; attrs := attrs self; super := super self |}.

Definition with_argument_buffer (self : Tap) (b : Dict.t (list string * keywords)) : Tap :=
  {| cls := cls self; _explicit_bool := _explicit_bool self;
     _underscores_to_dashes := _underscores_to_dashes self;
     _parsed := _parsed self; extra_args := extra_args self;
     argument_buffer := b;
     class_variables := class_variables self;
     _annotations := _annotations self; attrs := attrs self; super := super self |}.

Definition with_super (self : Tap) (p : parser) : Tap :=
  {| cls := cls self; _explicit_bool := _explicit_bool self;
     _underscores_to_dashes := _underscores_to_dashes self;
     _parsed := _parsed self; extra_args := extra_args self;
     argument_buffer := argument_buffer self;
     class_variables := class_variables self;
     _annotations := _annotations self; attrs := attrs self; super := p |}.

(** [setattr(self, name, v)]: a property, which has no setter, cannot be
    set; any other name is bound on the instance. *)
Definition setattr (name : string) (v : value) : M unit :=
  fun self =>
    if is_property (class_getattr (cls self) name)
    then (Raise (AttributeError name), self)
    else (Ok tt, with_attrs self (Dict.set (attrs self) name v)).
End tap.

Section tap_methods.
Context `{Classes} `{Utils} `{Backend}.

(** *** [Tap._add_argument] *)

(** [callable == bool] and [callable in s], for what [var_type] holds *)
Definition callable_is (f : callable) (t : ann) : bool :=
  match f with CType t' => ann_eqb t' t | _ => false end.

Definition callable_in (f : callable) (s : list ann) : bool :=
  match f with CType t => ann_in t s | _ => false end.

(** [l[0]], [l[1]] *)
Definition index {A : Type} (l : list A) (i : nat) : result A :=
  match l !! i with Some x => Ok x | None => Raise IndexError end.

(** [get_origin(var_type) in (List, list, Set, set)
     and is_literal_type(get_args(var_type)[0])] *)
Definition is_boxed_literal (var_type : ann) : result bool :=
  match get_origin var_type with
  | Some OList | Some OSet =>
      arg ← index (get_args var_type) 0; Ok (is_literal_type arg)
  | _ => Ok false
  end.

(** [get_origin(var_type) in (Tuple, tuple) and len(get_args(var_type)) > 0] *)
Definition is_parametrized_tuple (var_type : ann) : bool :=
  match get_origin var_type with
  | Some OTuple => bool_decide (0 < length (get_args var_type))
  | _ => false
  end.

(** [isinstance(None, t)]: only for [NoneType] among the classes; a
    subscripted generic, a union, a literal or a type variable cannot be
    used with [isinstance], a bare [List], [Set] or [Tuple] can. *)
Definition isinstance_None (t : ann) : result bool :=
  match t with
  | TNoneType => Ok true
  | TStr | TInt | TFloat | TBool | TClass _ => Ok false
  | TList [TVar] | TSet [TVar] | TTuple [] => Ok false
  | _ => Raise (TypeError "cannot be used with class and instance checks")
  end.

(** [is_union_type(var_type) and len(get_args(var_type)) == 2
     and isinstance(None, get_args(var_type)[1])
     and is_literal_type(get_args(var_type)[0])] *)
Definition is_optional_literal (var_type : ann) : result bool :=
  if is_union_type var_type && bool_decide (length (get_args var_type) = 2) then
    second ← index (get_args var_type) 1;
    none ← isinstance_None second;
    if none : bool then first ← index (get_args var_type) 0; Ok (is_literal_type first)
    else Ok false
  else Ok false.

(** An annotation to which every test for a shape answers no. *)
Definition matches_no_shape (var_type : ann) : Prop :=
  is_literal_type var_type = false
  /\ is_boxed_literal var_type = Ok false
  /\ is_parametrized_tuple var_type = false
  /\ is_optional_literal var_type = Ok false.

(** The [raise ValueError] of an unsupported type; building its message
    reads [kwargs["required"]] and, for an argument that is not
    required, [getattr(self, variable)]. *)
Definition raise_unsupported {A : Type} (self : Tap) (variable : string)
    (var_type : ann) (kwargs : keywords) : result A :=
  match kw_required kwargs with
  | None => Raise (KeyError "required")
  | Some true => Raise (ValueError (unsupported_type variable var_type None))
  | Some false =>
      d ← getattr self variable;
      Raise (ValueError (unsupported_type variable var_type (Some d)))
  end.

(** The chain [if is_literal_type ... elif ... elif var_type not in
    SUPPORTED_DEFAULT_TYPES: raise] *)
Definition resolve_shape (self : Tap) (variable : string) (var_type : ann)
    (kwargs : keywords) : result (callable * keywords) :=
  if is_literal_type var_type then
    '(f, choices) ← get_literals var_type variable;
    Ok (f, set_choices kwargs choices)
  else
    boxed ← is_boxed_literal var_type;
    if boxed : bool then
      arg ← index (get_args var_type) 0;
      '(f, choices) ← get_literals arg variable;
      let kwargs := set_choices kwargs choices in
      Ok (f, set_nargs kwargs (default NargsStar (kw_nargs kwargs)))
    else if is_parametrized_tuple var_type then
      let types := get_args var_type in
      if bool_decide (length types = 1) && ann_in TEmptyTuple (take 1 types) then
        Raise (ValueError empty_tuple)
      else if bool_decide (length types = 2) && ann_in TEllipsis (drop 1 types) then
        Ok (CTupleTypeEnforcer (take 1 types) true, set_nargs kwargs NargsStar)
      else
        Ok (CTupleTypeEnforcer types false, set_nargs kwargs (NargsInt (length types)))
    else
      optional ← is_optional_literal var_type;
      if optional : bool then
        arg ← index (get_args var_type) 0;
        '(f, choices) ← get_literals arg variable;
        Ok (f, set_choices kwargs choices)
      else if negb (ann_in var_type SUPPORTED_DEFAULT_TYPES) then
        raise_unsupported self variable var_type kwargs
      else Ok (CType var_type, kwargs).

(** [if var_type in SUPPORTED_DEFAULT_BOXED_TYPES: ...] *)
Definition unbox (var_type : callable) (kwargs : keywords) : callable * keywords :=
  if callable_in var_type SUPPORTED_DEFAULT_BOXED_TYPES then
    let kwargs :=
      if callable_in var_type SUPPORTED_DEFAULT_COLLECTION_TYPES
      then set_nargs kwargs (default NargsStar (kw_nargs kwargs))
      else kwargs in
    let arg_types := match var_type with CType t => get_args t | _ => [] end in
    let var_type :=
      match arg_types with
      | [] => TStr
      | first :: _ => if ann_eqb first EMPTY_TYPE then TStr else first
      end in
    if ann_eqb var_type TBool then (Cboolean_type, kwargs)
    else (CType var_type, kwargs)
  else (var_type, kwargs).

(** [f'store_{"true" if kwargs["required"] or not kwargs["default"] else "false"}'] *)
Definition store_action (kwargs : keywords) : result string :=
  match kw_required kwargs with
  | None => Raise (KeyError "required")
  | Some true => Ok "store_true"
  | Some false =>
      match kw_default kwargs with
      | None => Raise (KeyError "default")
      | Some d => Ok (if negb (truthy d) then "store_true" else "store_false")
      end
  end.

(** [if var_type == bool: ... else: kwargs['type'] = var_type]; the
    default of [kwargs.get('action', ...)] is computed whether or not
    the key is there. *)
Definition set_type_or_action (self : Tap) (var_type : callable) (kwargs : keywords)
  : result keywords :=
  if callable_is var_type TBool then
    if _explicit_bool self then
      Ok (set_choices (set_type kwargs Cboolean_type) [VBool true; VBool false])
    else
      action ← store_action kwargs;
      Ok (set_action kwargs (default action (kw_action kwargs)))
  else Ok (set_type kwargs var_type).

(** [# Get default if not specified] *)
Definition default_from_class (self : Tap) (variable : string) (kwargs : keywords)
  : keywords :=
  match getattr self variable with
  | Ok v => set_default kwargs (default v (kw_default kwargs))
  | Raise _ => kwargs
  end.

(** [# Set required if option arg] *)
Definition required_if_option (self : Tap) (name_or_flags : list string)
    (variable : string) (kwargs : keywords) : keywords :=
  if is_option_arg name_or_flags && negb (String.eqb variable "help")
  then set_required kwargs (default (negb (hasattr self variable)) (kw_required kwargs))
  else kwargs.

(** [# Set help if necessary] *)
Definition help_if_missing (self : Tap) (variable : string) (kwargs : keywords)
  : keywords :=
  match kw_help kwargs with
  | Some _ => kwargs
  | None =>
      set_help kwargs
        (HelpSynth (Dict.get (_annotations self) variable)
           (if default false (kw_required kwargs) then None
            else Some (default VNone (kw_default kwargs)))
           (Dict.get (class_variables self) variable))
  end.

(** [# Set other kwargs where not provided] *)
Definition from_annotation (self : Tap) (variable : string) (kwargs : keywords)
  : result keywords :=
  match Dict.get (_annotations self) variable with
  | None => Ok kwargs
  | Some var_type =>
      match kw_type kwargs with
      | Some _ => Ok kwargs
      | None =>
          '(var_type, kwargs) ← resolve_shape self variable var_type kwargs;
          let '(var_type, kwargs) := unbox var_type kwargs in
          set_type_or_action self var_type kwargs
      end
  end.

(** The keyword arguments that [_add_argument] hands to the super class. *)
Definition _add_argument_kwargs (self : Tap) (name_or_flags : list string)
    (kwargs : keywords) : result keywords :=
  let variable := get_dest name_or_flags kwargs in
  let kwargs := default_from_class self variable kwargs in
  let kwargs := required_if_option self name_or_flags variable kwargs in
  let kwargs := help_if_missing self variable kwargs in
  from_annotation self variable kwargs.

Definition _add_argument (name_or_flags : list string) (kwargs : keywords) : M unit :=
  fun self =>
    match _add_argument_kwargs self name_or_flags kwargs with
    | Raise e => (Raise e, self)
    | Ok kwargs =>
        match parser_add_argument (super self) name_or_flags kwargs with
        | Raise e => (Raise e, self)
        | Ok p => (Ok tt, with_super self p)
        end
    end.

(** *** [Tap.add_argument] *)
Definition add_argument (name_or_flags : list string) (kwargs : keywords) : M unit :=
  fun self =>
    let variable := get_dest name_or_flags kwargs in
    (Ok tt,
     with_argument_buffer self
       (Dict.set (argument_buffer self) variable (name_or_flags, kwargs))).

(** *** [Tap._add_arguments] *)

(** [s.replace("_", "-")] *)
Fixpoint underscores_to_dashes (s : string) : string :=
  match s with
  | EmptyString => EmptyString
  | String c s' =>
      String (if Ascii.eqb c "_"%char then "-"%char else c) (underscores_to_dashes s')
  end.

(** The call of [_add_argument] for a class variable: the one that the
    user put in the buffer, or else the flag made of the name. *)
Definition registration (self : Tap) (variable : string) : list string * keywords :=
  match Dict.get (argument_buffer self) variable with
  | Some (name_or_flags, kwargs) => (name_or_flags, kwargs)
  | None =>
      let flag_name :=
        if _underscores_to_dashes self then underscores_to_dashes variable
        else variable in
      ([String.append "--" flag_name], no_kwargs)
  end.

Definition _add_arguments : M unit :=
  fun self : Tap =>
    seq
      (* Add class variables (in order) *)
      (for_each (Dict.keys (class_variables self)) (fun variable (self : Tap) =>
         _add_argument (fst (registration self variable))
           (snd (registration self variable)) self))
      (* Add any arguments that were added manually in add_arguments but
         aren't class variables (in order) *)
      (fun _ (self : Tap) =>
         for_each (Dict.items (argument_buffer self)) (fun entry (self : Tap) =>
           if Dict.contains (class_variables self) (fst entry) then (Ok tt, self)
           else _add_argument (fst (snd entry)) (snd (snd entry)) self) self)
      self.

(** *** [Tap.__init__]

    The attributes that the constructor has bound on the instance when it
    comes to register the arguments: its own (lines 57 to 75), then the
    ones of the constructor of the super class (line 78). The buffer and
    the two tables are objects that are read through the record; here
    they are named, not copied. *)
Definition own_attributes (underscores_to_dashes explicit_bool : bool)
  : list (string * value) :=
  [("_explicit_bool", VBool explicit_bool);
   ("_underscores_to_dashes", VBool underscores_to_dashes);
   ("_parsed", VBool false);
   ("extra_args", VList []);
   ("argument_buffer", VObject "self.argument_buffer");
   ("class_variables", VObject "self.class_variables");
   ("_annotations", VObject "self._annotations")].

Definition constructor_attributes (underscores_to_dashes explicit_bool : bool)
  : Dict.t value :=
  fold_left (fun attrs binding => Dict.set attrs (fst binding) (snd binding))
            (own_attributes underscores_to_dashes explicit_bool
             ++ parser_init_attributes)
            Dict.empty.

(** *** [Tap.__init__], continued

    The arguments that go to the super class alone are left out. The
    hook [add_arguments] is a method that a subclass overrides.
    [before_registration] is the constructor up to the call of the hook,
    [__init__] the whole of it. *)
Definition before_registration (cls : class)
    (underscores_to_dashes explicit_bool : bool) (add_arguments : M unit)
  : result Tap :=
  class_variables ← _get_class_variables cls;
  annotations ← _get_annotations cls;
  let self :=
    {| cls := cls; _explicit_bool := explicit_bool;
       _underscores_to_dashes := underscores_to_dashes;
       _parsed := false; extra_args := [];
       argument_buffer := Dict.empty;
       class_variables := class_variables;
       _annotations := annotations;
       attrs := constructor_attributes underscores_to_dashes explicit_bool;
       super := new_parser |} in
  (* super().__init__(...), then self.add_arguments() *)
  match
    seq (for_each parser_init_arguments (fun c => add_argument (fst c) (snd c)))
        (fun _ => add_arguments) self
  with
  | (Ok _, self) => Ok self
  | (Raise e, _) => Raise e
  end.

Definition __init__ (cls : class) (underscores_to_dashes explicit_bool : bool)
    (add_arguments : M unit) : result Tap :=
  self ← before_registration cls underscores_to_dashes explicit_bool add_arguments;
  (* self._add_arguments() *)
  match _add_arguments self with
  | (Ok _, self) => Ok self
  | (Raise e, _) => Raise e
  end.

(** A hook that leaves alone what the class declares and what is bound on
    the instance, as a hook that only registers arguments does. *)
Definition keeps_fields (m : M unit) : Prop :=
  forall self r self',
    m self = (r, self') ->
    cls self' = cls self /\ _parsed self' = _parsed self
    /\ attrs self' = attrs self /\ _annotations self' = _annotations self
    /\ class_variables self' = class_variables self.

(** [def add_arguments(self): pass], [def process_args(self): pass] *)
Definition add_arguments : M unit := ret tt.
Definition process_args : M unit := ret tt.
End tap_methods.

(** ** The registrations that [_add_arguments] makes *)
Section registrations.
Context `{Classes} `{Utils} `{Backend}.

(** The calls of [self._add_argument] in the two
    loops of [_add_arguments], in the order in which the loops make them:
    one per class variable, then the entries of the buffer whose key is
    not a class variable. *)
Definition planned (self : Tap) : list (list string * keywords) :=
  map (registration self) (Dict.keys (class_variables self))
  ++ map snd
       (filter (fun entry => negb (Dict.contains (class_variables self) (fst entry)))
               (Dict.items (argument_buffer self))).

(** A list of such calls made one after the other, from the state [p] of
    the super class: the body of [_add_argument] for each. *)
Fixpoint register_all (self : Tap) (calls : list (list string * keywords))
    (p : parser) : result parser :=
  match calls with
  | [] => Ok p
  | call :: calls' =>
      kwargs ← _add_argument_kwargs self (fst call) (snd call);
      p' ← parser_add_argument p (fst call) kwargs;
      register_all self calls' p'
  end.
End registrations.

(** ** Provenance: [Tap.get_reproducibility_info]

    What the call reads from outside: the command line, the clock, and the
    state of the git repository when git is there ([has_git],
    [get_git_root], [get_git_url], [has_uncommitted_changes] of
    [tap.utils]). *)
Record environment : Type := {
  sys_argv : list string;
  time_strftime : string;
  has_git : bool;
  get_git_root : result string;
  get_git_url : result string;
  has_uncommitted_changes : result bool
}.

(** The three helpers about git run a command each and are called
    unguarded: when one raises, so does the call. *)
Definition get_reproducibility_info (env : environment) : result (Dict.t value) :=
  let reproducibility :=
    [("command_line", VStr (String.append "python " (String.concat " " (sys_argv env))));
     ("time", VStr (time_strftime env))] in
  if has_git env then
    root ← get_git_root env;
    let reproducibility := Dict.set reproducibility "git_root" (VStr root) in
    url ← get_git_url env;
    let reproducibility := Dict.set reproducibility "git_url" (VStr url) in
    uncommitted ← has_uncommitted_changes env;
    Ok (Dict.set reproducibility "git_has_uncommitted_changes" (VBool uncommitted))
  else Ok reproducibility.

Section tap_state.
Context `{Classes} `{Utils} `{Backend}.

(** *** [Tap.parse_args] *)

(** [# Conversion from list to set or tuple] *)
Definition convert (self : Tap) (variable : string) (raw : value) : result value :=
  match Dict.get (_annotations self) variable with
  | Some annotation =>
      match get_origin annotation with
      | Some OSet => py_set raw
      | Some OTuple => py_tuple raw
      | _ => Ok raw
      end
  | None => Ok raw
  end.

(** [# Copy parsed arguments to self] *)
Definition bind_namespace (default_namespace : namespace) : M unit :=
  for_each (Dict.items default_namespace) (fun item (self : Tap) =>
    match convert self (fst item) (snd item) with
    | Ok value => setattr (fst item) (deepcopy value) self
    | Raise e => (Raise e, self)
    end).

(** [# Parse args using super class ArgumentParser's parse_args or
    parse_known_args function]: the namespace, and the instance with
    [extra_args] set when only the known arguments are parsed. *)
Definition backend_parse (self : Tap) (args : option (list string))
    (known_only : bool) : result (namespace * Tap) :=
  if known_only then
    '(default_namespace, extra) ← parser_parse_known_args (super self) args;
    Ok (default_namespace, with_extra_args self extra)
  else
    default_namespace ← parser_parse_args (super self) args;
    Ok (default_namespace, self).

(** [process_args] is the hook that a subclass overrides. *)
Definition parse_args (process_args : M unit) (args : option (list string))
    (known_only : bool) : M unit :=
  fun self : Tap =>
    match backend_parse self args known_only with
    | Raise e => (Raise e, self)
    | Ok (default_namespace, self) =>
        seq (bind_namespace default_namespace)
            (fun _ => seq process_args
               (fun _ (self : Tap) => (Ok tt, with_parsed self true)))
            self
    end.

(** *** [Tap._get_argument_names], [Tap.as_dict], [Tap._log_all] *)

(** [set(class_dict.keys()) | set(annotations.keys())]; the order in
    which a Python set is iterated is not fixed, here the class
    variables come first. *)
Definition _get_argument_names (self : Tap) : result (list string) :=
  class_dict ← _get_class_dict (cls self);
  Ok (remove_dups (Dict.keys class_dict ++ Dict.keys (_annotations self))).

Definition as_dict (self : Tap) : result (Dict.t value) :=
  if negb (_parsed self) then Raise (ValueError not_parsed)
  else
    names ← _get_argument_names self;
    mapM (fun var => v ← getattr self var; Ok (var, v)) names.

Definition _log_all (env : environment) (self : Tap) : result (Dict.t value) :=
  arg_log ← as_dict self;
  reproducibility ← get_reproducibility_info env;
  Ok (Dict.set arg_log "reproducibility" (VDict reproducibility)).

(** *** [Tap.from_dict] *)

(** [[a for a in self._annotations if not hasattr(self, a)]] *)
Definition required_args (self : Tap) : list string :=
  filter (fun a => negb (hasattr self a)) (Dict.keys (_annotations self)).

(** [len(set(required_args) & set(args_dict.keys()))] *)
Definition provided (required : list string) (args_dict : Dict.t value) : nat :=
  length (remove_dups
            (filter (fun a => bool_decide (a ∈ Dict.keys args_dict)) required)).

(** [for key, value in args_dict.items(): try: setattr(...) except
    AttributeError as e: warnings.warn(e)]; gives the warnings. *)
Fixpoint set_attributes (items : list (string * value)) (warned : list exn)
  : M (list exn) :=
  match items with
  | [] => ret warned
  | item :: items' =>
      fun self =>
        match setattr (fst item) (snd item) self with
        | (Ok _, self') => set_attributes items' warned self'
        | (Raise (AttributeError name), self') =>
            set_attributes items' (warned ++ [AttributeError name]) self'
        | (Raise e, self') => (Raise e, self')
        end
  end.

(** The attributes of the instance after the loop: every key that is not
    a property of the class is bound, in order. *)
Definition bind_all (c : class) (items : list (string * value)) (a : Dict.t value)
  : Dict.t value :=
  fold_left
    (fun a item =>
       if is_property (class_getattr c (fst item)) then a
       else Dict.set a (fst item) (snd item))
    items a.

(** Returns the warnings that were emitted. *)
Definition from_dict (args_dict : Dict.t value) : M (list exn) :=
  fun self : Tap =>
    let required_args := required_args self in
    if negb (Nat.eqb (length required_args) (provided required_args args_dict))
    then (Raise (ValueError (missing_required args_dict required_args)), self)
    else
      seq (set_attributes (Dict.items args_dict) [])
          (fun warned (self : Tap) => (Ok warned, with_parsed self true))
          self.
End tap_state.

(** ** Converters *)

Definition is_digit (c : ascii) : bool :=
  (48 <=? nat_of_ascii c)%nat && (nat_of_ascii c <=? 57)%nat.

Fixpoint digits (s : string) (acc : N) : option N :=
  match s with
  | EmptyString => Some acc
  | String c s' =>
      if is_digit c then digits s' (10 * acc + N.of_nat (nat_of_ascii c - 48))%N
      else None
  end.

(** [int(token)] for a decimal literal with an optional sign; any other
    token is rejected (the blanks and underscores that Python also accepts
    are not modelled). *)
Definition py_int (token : string) : option Z :=
  match token with
  | EmptyString => None
  | String "-" (String c s) => (fun n => Z.opp (Z.of_N n)) <$> digits (String c s) 0
  | String "+" (String c s) => Z.of_N <$> digits (String c s) 0
  | _ => Z.of_N <$> digits token 0
  end.

Definition lower_char (c : ascii) : ascii :=
  let n := nat_of_ascii c in
  if (65 <=? n)%nat && (n <=? 90)%nat then ascii_of_nat (n + 32) else c.

(** [s.lower()] *)
Fixpoint lower (s : string) : string :=
  match s with
  | EmptyString => EmptyString
  | String c s' => String (lower_char c) (lower s')
  end.


(** Modelled from the spec: [boolean_type] of [tap.utils] is not part of
    the sources. It accepts only the canonical textual forms of true and
    false, in any case, and fails on anything else. *)
Definition boolean_type (flag_value : string) : result value :=
  if String.eqb (lower flag_value) "true" then Ok (VBool true)
  else if String.eqb (lower flag_value) "false" then Ok (VBool false)
  else Raise (ValueError (bad_boolean flag_value)).

(** [str(z)] for an integer *)
Definition digit_char (n : nat) : ascii := ascii_of_nat (48 + n).

Fixpoint render_pos (fuel : nat) (n : N) (acc : string) : string :=
  match fuel with
  | O => acc
  | S fuel' =>
      let acc := String (digit_char (N.to_nat (n mod 10))) acc in
      if (n / 10 =? 0)%N then acc else render_pos fuel' (n / 10)%N acc
  end.

Definition render_int (z : Z) : string :=
  let n := Z.to_N (Z.abs z) in
  let s := render_pos (S (N.to_nat (N.log2 n))) n EmptyString in
  if (z <? 0)%Z then String "-" s else s.

(** [str(v)] for the values of a literal *)
Definition render (v : value) : string :=
  match v with
  | VStr s => s
  | VInt z => render_int z
  | VBool true => "True"
  | VBool false => "False"
  | VNone => "None"
  | _ => "<object>"
  end.

(** A type or a function applied to one token. [str] keeps the token,
    [int] reads a decimal literal, [bool] is the truth value of the string.
    The function that [get_literals] returns maps the rendering of a choice
    to the choice and any other token to itself. The result of [float], of
    another class or of a function of the user is an opaque object. *)
Definition call (f : callable) (token : string) : result value :=
  match f with
  | CType TStr => Ok (VStr token)
  | CType TInt =>
      match py_int token with
      | Some z => Ok (VInt z)
      | None => Raise (ValueError (bad_conversion TInt token))
      end
  | CType TBool => Ok (VBool (truthy (VStr token)))
  | CType TFloat => Ok (VObject (String.append "float " token))
  | CType (TClass name) => Ok (VObject (String.append name (String.append " " token)))
  | CType _ => Raise (TypeError "object is not callable")
  | Cboolean_type => boolean_type token
  | CLiteral choices =>
      match List.find (fun c => String.eqb (render c) token) choices with
      | Some c => Ok c
      | None => Ok (VStr token)
      end
  | CFunction name => Ok (VObject (String.append name (String.append " " token)))
  | CTupleTypeEnforcer _ _ => Raise (TypeError "positional converter")
  end.

(** Modelled from the spec: [TupleTypeEnforcer] of [tap.utils] is not part
    of the sources. The token at position [i] is coerced through the
    element type [i]; after an ellipsis the single element type is cycled
    over all the positions. *)
Fixpoint enforce (types : list ann) (tokens : list string) : result (list value) :=
  match tokens, types with
  | [], _ => Ok []
  | token :: tokens', t :: types' =>
      v ← call (CType t) token; vs ← enforce types' tokens'; Ok (v :: vs)
  | _ :: _, [] => Raise IndexError
  end.

(** The converter of an argument applied to the tokens of one occurrence
    of its flag, one after the other. *)
Definition call_all (f : callable) (tokens : list string) : result (list value) :=
  match f with
  | CTupleTypeEnforcer types true =>
      match types with
      | t :: _ => mapM (call (CType t)) tokens
      | [] => Raise IndexError
      end
  | CTupleTypeEnforcer types false => enforce types tokens
  | _ => mapM (call f) tokens
  end.

(** ** A model of the backend

    The parsing backend is [argparse.ArgumentParser], which is not part of
    the sources. This model covers what [Tap] registers: options (flags)
    with the actions [store], [store_true], [store_false] and [help], the
    arities absent, ['*'] and a number, a converter, choices, a default
    and [required]. Positional arguments and abbreviated flags are left
    out. *)
Module Argparse.
Definition SUPPRESS : value := VStr "==SUPPRESS==".

Definition registered : Type := list (list string * keywords).

(** A token that starts with a dash and is not a negative number is a
    flag. *)
Definition is_flag (token : string) : bool :=
  String.prefix "-" token && negb (bool_decide (is_Some (py_int token))).

Fixpoint strip_dashes (s : string) : string :=
  match s with
  | String "-" s' => strip_dashes s'
  | _ => s
  end.

Fixpoint dashes_to_underscores (s : string) : string :=
  match s with
  | EmptyString => EmptyString
  | String c s' =>
      String (if Ascii.eqb c "-"%char then "_"%char else c) (dashes_to_underscores s')
  end.

(** The destination of an argument: [dest=] when given, or the first long
    flag, or else the first flag, without the leading dashes and with the
    other dashes turned into underscores. *)
Definition dest (name_or_flags : list string) (kwargs : keywords) : string :=
  match kw_dest kwargs with
  | Some d => d
  | None =>
      match List.find (String.prefix "--") name_or_flags, name_or_flags with
      | Some long, _ => dashes_to_underscores (strip_dashes long)
      | None, first :: _ =>
          if String.prefix "-" first then dashes_to_underscores (strip_dashes first)
          else first
      | None, [] => ""
      end
  end.

Definition action_of (kwargs : keywords) : string := default "store" (kw_action kwargs).

(** [add_argument]: a flag cannot be registered twice. *)
Definition add_argument (p : registered) (name_or_flags : list string)
    (kwargs : keywords) : result registered :=
  if existsb (fun a => existsb (fun f => bool_decide (f ∈ fst a)) name_or_flags) p
  then Raise (Exception "conflicting option string")
  else Ok (p ++ [(name_or_flags, kwargs)]).

(** What an argument is bound to before any token is read; nothing for
    the help flag and for a suppressed default. *)
Definition initial (kwargs : keywords) : option value :=
  let d :=
    if String.eqb (action_of kwargs) "store_true"
    then default (VBool false) (kw_default kwargs)
    else if String.eqb (action_of kwargs) "store_false"
    then default (VBool true) (kw_default kwargs)
    else default VNone (kw_default kwargs) in
  if String.eqb (action_of kwargs) "help" || py_eq d SUPPRESS then None else Some d.

(** A converter that raises makes the parser report a usage error. *)
Definition usage {A : Type} (r : result A) : result A :=
  match r with
  | Ok a => Ok a
  | Raise (ValueError _) | Raise (TypeError _) => Raise (SystemExit "invalid value")
  | Raise e => Raise e
  end.

Definition check_choices (kwargs : keywords) (v : value) : result value :=
  match kw_choices kwargs with
  | Some choices =>
      if existsb (py_eq v) choices then Ok v
      else Raise (SystemExit "invalid choice")
  | None => Ok v
  end.

Definition convert_all (kwargs : keywords) (tokens : list string)
  : result (list value) :=
  vs ← usage (call_all (default (CType TStr) (kw_type kwargs)) tokens);
  mapM (check_choices kwargs) vs.

(** The flag of an argument met on the command line, followed by
    [values]: what the argument is bound to, and the tokens that the
    argument does not take. *)
Definition present (kwargs : keywords) (values : list string)
  : result (value * list string) :=
  if String.eqb (action_of kwargs) "store_true" then Ok (VBool true, values)
  else if String.eqb (action_of kwargs) "store_false" then Ok (VBool false, values)
  else if String.eqb (action_of kwargs) "help" then Raise (SystemExit "help")
  else if String.eqb (action_of kwargs) "store" then
    match kw_nargs kwargs with
    | None =>
        match values with
        | token :: rest =>
            vs ← convert_all kwargs [token];
            match vs with
            | [v] => Ok (v, rest)
            | _ => Raise (SystemExit "expected one argument")
            end
        | [] => Raise (SystemExit "expected one argument")
        end
    | Some NargsStar => vs ← convert_all kwargs values; Ok (VList vs, [])
    | Some (NargsInt n) =>
        if bool_decide (length values < n)
        then Raise (SystemExit "expected more arguments")
        else vs ← convert_all kwargs (take n values); Ok (VList vs, drop n values)
    | Some (NargsOther _) => Raise (Exception "arity outside the model")
    end
  else Raise (Exception "action outside the model").

(** The tokens before the first flag, and every flag with the tokens
    that follow it. *)
Fixpoint groups (tokens : list string) : list string * list (string * list string) :=
  match tokens with
  | [] => ([], [])
  | token :: tokens' =>
      let '(values, gs) := groups tokens' in
      if is_flag token then ([], (token, values) :: gs) else (token :: values, gs)
  end.

Definition find_action (p : registered) (flag : string)
  : option (list string * keywords) :=
  List.find (fun a => bool_decide (flag ∈ fst a)) p.

Fixpoint consume (p : registered) (gs : list (string * list string))
    (ns : namespace) (seen extras : list string)
  : result (namespace * list string * list string) :=
  match gs with
  | [] => Ok (ns, seen, extras)
  | (flag, values) :: gs' =>
      match find_action p flag with
      | None => consume p gs' ns seen (extras ++ flag :: values)
      | Some (name_or_flags, kwargs) =>
          '(v, rest) ← present kwargs values;
          let d := dest name_or_flags kwargs in
          consume p gs' (Dict.set ns d v) (d :: seen) (extras ++ rest)
      end
  end.

Definition defaults (p : registered) : namespace :=
  fold_left
    (fun ns a =>
       match initial (snd a) with
       | Some d => Dict.set ns (dest (fst a) (snd a)) d
       | None => ns
       end) p Dict.empty.

Definition missing (p : registered) (seen : list string) : list string :=
  omap (fun a =>
          let d := dest (fst a) (snd a) in
          if default false (kw_required (snd a)) && negb (bool_decide (d ∈ seen))
          then Some d else None) p.

Definition parse_known_args (p : registered) (tokens : list string)
  : result (namespace * list string) :=
  let '(leading, gs) := groups tokens in
  '(ns, seen, extras) ← consume p gs (defaults p) [] leading;
  match missing p seen with
  | [] => Ok (ns, extras)
  | _ :: _ => Raise (SystemExit "the following arguments are required")
  end.

Definition parse_args (p : registered) (tokens : list string) : result namespace :=
  '(ns, extras) ← parse_known_args p tokens;
  match extras with
  | [] => Ok ns
  | _ :: _ => Raise (SystemExit "unrecognized arguments")
  end.

(** The attributes that the constructor of [ArgumentParser] binds on the
    instance, in its order, with the values of a call without arguments;
    the tables that the parser keeps for itself are named, not copied,
    and the program is taken to be [main.py]. *)
Definition init_attributes : list (string * value) :=
  [("description", VNone); ("argument_default", VNone);
   ("prefix_chars", VStr "-"); ("conflict_handler", VStr "error");
   ("_registries", VObject "self._registries");
   ("_actions", VObject "self._actions");
   ("_option_string_actions", VObject "self._option_string_actions");
   ("_action_groups", VObject "self._action_groups");
   ("_mutually_exclusive_groups", VObject "self._mutually_exclusive_groups");
   ("_defaults", VObject "self._defaults");
   ("_negative_number_matcher", VObject "self._negative_number_matcher");
   ("_has_negative_number_optionals",
    VObject "self._has_negative_number_optionals");
   ("prog", VStr "main.py"); ("usage", VNone); ("epilog", VNone);
   ("formatter_class", VObject "argparse.HelpFormatter");
   ("fromfile_prefix_chars", VNone); ("add_help", VBool true);
   ("allow_abbrev", VBool true);
   ("_positionals", VObject "self._positionals");
   ("_optionals", VObject "self._optionals");
   ("_subparsers", VNone)].

Definition help_argument : list string * keywords :=
  (["-h"; "--help"],
   {| kw_default := Some SUPPRESS; kw_required := None;
      kw_help := Some (HelpGiven "show this help message and exit");
      kw_type := None; kw_choices := None; kw_nargs := None;
      kw_action := Some "help"; kw_dest := None |}).
End Argparse.

(** The backend over a command line [argv], which stands for [sys.argv[1:]]. *)
Definition argparse (argv : list string) : Backend :=
  {| parser := Argparse.registered;
     new_parser := [];
     parser_init_attributes := Argparse.init_attributes;
     parser_init_arguments := [Argparse.help_argument];
     parser_add_argument := Argparse.add_argument;
     parser_parse_args := fun p args => Argparse.parse_args p (default argv args);
     parser_parse_known_args := fun p args =>
       Argparse.parse_known_args p (default argv args) |}.

(** The helpers [get_dest], which asks the backend for the destination,
    and [is_option_arg], which looks for a leading dash. *)
Definition tap_utils : Utils :=
  {| get_dest := Argparse.dest;
     is_option_arg := fun name_or_flags => existsb (String.prefix "-") name_or_flags |}.

(** ** Example programs *)
Module Examples.
Definition class_ (bases mro : list class) (dict : Dict.t class_attr)
    (annotations : Dict.t ann) : class_info :=
  {| __bases__ := bases; __mro__ := mro; __dict__ := dict;
     __annotations__ := annotations;
     source_variables := Some (map (fun p => (fst p, "")) annotations) |}.

Definition Tap_methods : Dict.t class_attr :=
  [("add_arguments", attr_callable "Tap.add_arguments");
   ("process_args", attr_callable "Tap.process_args");
   ("get_reproducibility_info", attr_staticmethod "Tap.get_reproducibility_info")].

(** The library classes under every example. *)
Definition library : list (class * class_info) :=
  [("ArgumentParser", class_ ["object"] ["ArgumentParser"; "object"] [] []);
   ("Tap", class_ ["ArgumentParser"] ["Tap"; "ArgumentParser"; "object"] Tap_methods [])].

Definition tail : list class := ["Tap"; "ArgumentParser"; "object"].

Definition program (classes : list (class * class_info)) : Classes :=
  list_to_map (M := gmap class class_info) (library ++ classes).

(** [class Base(Tap): x: int = 0; y: str = 'base'],
    [class Left(Base): x: int = 1], [class Right(Base): x: int = 2],
    [class Leaf(Left, Right): x: int = 3], and the same with the bases
    of the leaf the other way round. *)
Definition diamond (leaf_bases : list class) : Classes :=
  program
    ([("Base", class_ ["Tap"] ("Base" :: tail)
                 [("x", attr_value (VInt 0)); ("y", attr_value (VStr "base"))]
                 [("x", TInt); ("y", TStr)]);
      ("Left", class_ ["Base"] ("Left" :: "Base" :: tail)
                 [("x", attr_value (VInt 1))] [("x", TInt)]);
      ("Right", class_ ["Base"] ("Right" :: "Base" :: tail)
                  [("x", attr_value (VInt 2))] [("x", TInt)]);
      ("Leaf", class_ leaf_bases ("Leaf" :: leaf_bases ++ "Base" :: tail)
                 [("x", attr_value (VInt 3))] [("x", TInt)])]).

(** The declarations of a class itself, as [_get_class_dict] extracts them. *)
Definition own_dict `{Classes} (c : class) : result (Dict.t class_attr) :=
  Ok (class_dict c).

(** [class C(Tap): x = 'C'], [class E(C): x = 'E'], [class B(E): pass],
    [class D(B, C): pass]: the resolution order of [D] is D, B, E, C, but
    the traversal meets C (a base of D) before E (a base of B). *)
Definition uneven : Classes :=
  program
    ([("C", class_ ["Tap"] ("C" :: tail) [("x", attr_value (VStr "C"))] []);
      ("E", class_ ["C"] ("E" :: "C" :: tail) [("x", attr_value (VStr "E"))] []);
      ("B", class_ ["E"] ("B" :: "E" :: "C" :: tail) [] []);
      ("D", class_ ["B"; "C"] ("D" :: "B" :: "E" :: "C" :: tail) [] [])]).

(** The same shape with the class [Args] at the bottom and comments in
    the source: [class C(Tap): x: str = 'C'  # the x of C],
    [class E(C): x: str = 'E'  # the x of E], [class B(E): pass],
    [class Args(B, C): pass]. *)
Definition uneven_commented : Classes :=
  program
    ([("C", {| __bases__ := ["Tap"]; __mro__ := "C" :: tail;
               __dict__ := [("x", attr_value (VStr "C"))];
               __annotations__ := [("x", TStr)];
               source_variables := Some [("x", "the x of C")] |});
      ("E", {| __bases__ := ["C"]; __mro__ := "E" :: "C" :: tail;
               __dict__ := [("x", attr_value (VStr "E"))];
               __annotations__ := [("x", TStr)];
               source_variables := Some [("x", "the x of E")] |});
      ("B", class_ ["E"] ("B" :: "E" :: "C" :: tail) [] []);
      ("Args", class_ ["B"; "C"] ("Args" :: "B" :: "E" :: "C" :: tail) [] [])]).

(** A class with the single field [name], annotated [annotation], with
    the default [default] if any. *)
Definition single (name : string) (annotation : ann) (default : option value)
  : Classes :=
  program
    ([("Args", class_ ["Tap"] ("Args" :: tail)
                 (match default with
                  | Some v => [(name, attr_value v)]
                  | None => []
                  end)
                 [(name, annotation)])]).

(** [class Args(Tap): a: int; b: str; c: int] *)
Definition three : Classes :=
  program
    ([("Args", class_ ["Tap"] ("Args" :: tail) []
                 [("a", TInt); ("b", TStr); ("c", TInt)])]).

(** The instance [Args(explicit_bool=explicit_bool)] of a program. *)
Definition construct (classes : Classes) (explicit_bool : bool)
  : result (@Tap (argparse [])) :=
  @__init__ classes tap_utils (argparse []) "Args" false explicit_bool
    (@add_arguments (argparse [])).

(** An instance with nothing declared, and the instance that [construct]
    gives, taken to be that one when the construction raises. *)
Definition blank : @Tap (argparse []) :=
  {| cls := "Tap"; _explicit_bool := false; _underscores_to_dashes := false;
     _parsed := false; extra_args := []; argument_buffer := Dict.empty;
     class_variables := Dict.empty; _annotations := Dict.empty;
     attrs := Dict.empty; super := @new_parser (argparse []) |}.

Definition constructed (classes : Classes) (explicit_bool : bool)
  : @Tap (argparse []) :=
  match construct classes explicit_bool with
  | Ok self => self
  | Raise _ => blank
  end.

(** The instance of [Args] when the constructor reaches
    [self._add_arguments()]. *)
Definition declared (classes : Classes) (explicit_bool : bool)
  : @Tap (argparse []) :=
  match @before_registration classes tap_utils (argparse []) "Args" false
          explicit_bool (@add_arguments (argparse [])) with
  | Ok self => self
  | Raise _ => blank
  end.

(** [Args(explicit_bool=explicit_bool).parse_args(tokens)] *)
Definition run (classes : Classes) (explicit_bool : bool) (tokens : list string)
  : result (@Tap (argparse [])) :=
  self ← construct classes explicit_bool;
  match @parse_args classes (argparse []) (@process_args (argparse []))
          (Some tokens) false self with
  | (Ok _, self) => Ok self
  | (Raise e, _) => Raise e
  end.

(** The instance after a run, taken to be the blank one when the run
    raises, and the namespace that the backend returns in it. *)
Definition parsed (classes : Classes) (explicit_bool : bool) (tokens : list string)
  : @Tap (argparse []) :=
  match run classes explicit_bool tokens with
  | Ok self => self
  | Raise _ => blank
  end.

Definition raw (classes : Classes) (explicit_bool : bool) (tokens : list string)
  : namespace :=
  match Argparse.parse_args (super (constructed classes explicit_bool)) tokens with
  | Ok ns => ns
  | Raise _ => []
  end.

(** [self.parse_args(tokens)] on the instance that [construct] gives: the
    outcome and the instance afterwards. *)
Definition parse (classes : Classes) (explicit_bool : bool) (tokens : list string)
  : result unit * @Tap (argparse []) :=
  @parse_args classes (argparse []) (@process_args (argparse []))
    (Some tokens) false (constructed classes explicit_bool).

(** The value of a field after a run. *)
Definition field (classes : Classes) (explicit_bool : bool) (tokens : list string)
    (name : string) : result value :=
  self ← run classes explicit_bool tokens;
  @getattr classes (argparse []) self name.

(** [self.as_dict()], [self._log_all()], [self.from_dict(record)] and
    [getattr(self, name)] in a program. *)
Definition export (classes : Classes) (self : @Tap (argparse []))
  : result (Dict.t value) :=
  @as_dict classes (argparse []) self.

Definition log_all (classes : Classes) (env : environment) (self : @Tap (argparse []))
  : result (Dict.t value) :=
  @_log_all classes (argparse []) env self.

Definition import (classes : Classes) (record : Dict.t value)
    (self : @Tap (argparse [])) : result (list exn) * @Tap (argparse []) :=
  @from_dict classes (argparse []) record self.

Definition read (classes : Classes) (self : @Tap (argparse [])) (name : string)
  : result value :=
  @getattr classes (argparse []) self name.

Definition required (classes : Classes) (self : @Tap (argparse [])) : list string :=
  @required_args classes (argparse []) self.

Definition somewhere : environment :=
  {| sys_argv := ["main.py"]; time_strftime := "Wed Nov  4 12:00:00 2026";
     has_git := false;
     get_git_root := Raise (Exception "CalledProcessError");
     get_git_url := Raise (Exception "CalledProcessError");
     has_uncommitted_changes := Raise (Exception "CalledProcessError") |}.

(** A place where [has_git] answers yes and the command that asks for
    the root of the repository fails. *)
Definition broken_git : environment :=
  {| sys_argv := ["main.py"]; time_strftime := "Wed Nov  4 12:00:00 2026";
     has_git := true;
     get_git_root := Raise (Exception "CalledProcessError");
     get_git_url := Ok "https://example.org/repo/tree/0123abc";
     has_uncommitted_changes := Ok false |}.

(** [class Args(Tap): x: int = 1; _hidden = 0; def run(self): ...], in a
    program whose source text cannot be read. *)
Definition unreadable : Classes :=
  program
    ([("Args", {| __bases__ := ["Tap"]; __mro__ := "Args" :: tail;
                  __dict__ := [("x", attr_value (VInt 1));
                               ("_hidden", attr_value (VInt 0));
                               ("run", attr_callable "Args.run")];
                  __annotations__ := [("x", TInt)];
                  source_variables := None |})]).

(** [class Args(Tap): x: int = 5; @property def total(self): return 0] *)
Definition propertied : Classes :=
  program
    ([("Args", class_ ["Tap"] ("Args" :: tail)
                 [("x", attr_value (VInt 5)); ("total", attr_property (VInt 0))]
                 [("x", TInt)])]).

(** [self.parse_args(tokens, known_only=True)] on the instance that
    [construct] gives. *)
Definition parse_known (classes : Classes) (explicit_bool : bool)
    (tokens : list string) : result unit * @Tap (argparse []) :=
  @parse_args classes (argparse []) (@process_args (argparse []))
    (Some tokens) true (constructed classes explicit_bool).
End Examples.

(* ===================================================================== *)
(** * Part II: properties                                                  *)
(* ===================================================================== *)

(** ** Dictionaries *)
Module DictFacts.
Section facts.
Context {V : Type}.
Implicit Types (d : Dict.t V) (k : string) (v : V).

Lemma get_set_eq d k v : Dict.get (Dict.set d k v) k = Some v.
Proof.
  induction d as [|[k' v'] d IH]; simpl.
  - by rewrite decide_True.
  - destruct (decide (k' = k)) as [->|Hne]; simpl.
    + by rewrite decide_True.
    + by rewrite decide_False.
Qed.

Lemma get_set_ne d k k' v : k ≠ k' -> Dict.get (Dict.set d k v) k' = Dict.get d k'.
Proof.
  intros Hne. induction d as [|[k0 v0] d IH]; simpl.
  - by rewrite decide_False.
  - destruct (decide (k0 = k)) as [->|Hk]; simpl.
    + by rewrite !decide_False.
    + destruct (decide (k0 = k')); auto.
Qed.

Lemma contains_true d k : Dict.contains d k = true <-> is_Some (Dict.get d k).
Proof.
  unfold Dict.contains. destruct (Dict.get d k); split; intros Hx; eauto.
  - discriminate.
  - by destruct Hx.
Qed.

Lemma contains_false d k : Dict.contains d k = false <-> Dict.get d k = None.
Proof. unfold Dict.contains. destruct (Dict.get d k); split; congruence. Qed.

Lemma get_Some_key d k v : Dict.get d k = Some v -> k ∈ Dict.keys d.
Proof.
  induction d as [|[k' v'] d IH]; simpl; [done|].
  destruct (decide (k' = k)) as [->|]; intros Hg.
  - apply list_elem_of_here.
  - apply list_elem_of_further. auto.
Qed.

Lemma get_None_key d k : Dict.get d k = None -> k ∉ Dict.keys d.
Proof.
  induction d as [|[k' v'] d IH]; simpl; intros Hg.
  - apply not_elem_of_nil.
  - destruct (decide (k' = k)); [done|].
    apply not_elem_of_cons. split; [congruence|auto].
Qed.

Lemma key_get_Some d k : k ∈ Dict.keys d -> is_Some (Dict.get d k).
Proof.
  intros Hin. destruct (Dict.get d k) eqn:E; [eauto|].
  by apply get_None_key in E.
Qed.

Lemma keys_set d k v :
  Dict.keys (Dict.set d k v)
  = if Dict.contains d k then Dict.keys d else Dict.keys d ++ [k].
Proof.
  unfold Dict.contains. induction d as [|[k' v'] d IH]; simpl.
  - done.
  - destruct (decide (k' = k)) as [->|Hne]; simpl; [done|].
    rewrite IH. by destruct (Dict.get d k).
Qed.

Lemma wf_set d k v : Dict.wf d -> Dict.wf (Dict.set d k v).
Proof.
  unfold Dict.wf. intros Hwf. rewrite keys_set.
  destruct (Dict.contains d k) eqn:Hc; [done|].
  apply NoDup_app. split; [done|]. split; [|apply NoDup_singleton].
  intros x Hx ->%list_elem_of_singleton.
  apply key_get_Some in Hx. apply contains_true in Hx. congruence.
Qed.

Lemma get_Some_item d k v : Dict.get d k = Some v -> (k, v) ∈ Dict.items d.
Proof.
  induction d as [|[k' v'] d IH]; simpl; [done|].
  destruct (decide (k' = k)) as [->|]; intros Hg.
  - injection Hg as ->. apply list_elem_of_here.
  - apply list_elem_of_further. auto.
Qed.
End facts.
End DictFacts.

Lemma first_some_app {A B : Type} (f : A -> option B) (l1 l2 : list A) :
  first_some f (l1 ++ l2) =
  match first_some f l1 with Some b => Some b | None => first_some f l2 end.
Proof.
  induction l1 as [|x l1 IH]; simpl; [done|]. by destruct (f x).
Qed.

Lemma first_some_Some {A B : Type} (f : A -> option B) (l : list A) (b : B) :
  first_some f l = Some b -> exists x, x ∈ l /\ f x = Some b.
Proof.
  induction l as [|x l IH]; simpl; [done|].
  destruct (f x) eqn:E.
  - intros [= ->]. exists x. split; [apply list_elem_of_here|done].
  - intros Hl. destruct (IH Hl) as (y & Hy & Hf).
    exists y. split; [by apply list_elem_of_further|done].
Qed.

Lemma filter_none {A : Type} (P : A -> Prop) `{forall x, Decision (P x)} (l : list A) :
  (forall x, x ∈ l -> ~ P x) -> filter P l = [].
Proof.
  induction l as [|x l IH]; intros Hall; [done|].
  rewrite filter_cons_False by (apply Hall, list_elem_of_here).
  apply IH. intros y Hy. by apply Hall, list_elem_of_further.
Qed.

(** ** The hierarchy merger *)
Section merger_facts.
Context `{Classes} {V : Type}.
Variable extract_func : class -> result (Dict.t V).
Implicit Types (d sd : Dict.t V) (st : bfs_state V).

(** The first loop over the items is a left-biased merge. *)
Lemma get_update_unseen d sd k :
  Dict.get (update_unseen d sd) k =
  match Dict.get d k with Some v => Some v | None => Dict.get sd k end.
Proof.
  unfold update_unseen, Dict.items.
  revert d. induction sd as [|[k0 v0] sd IH]; intros d; simpl.
  - by destruct (Dict.get d k).
  - rewrite IH. destruct (Dict.contains d k0) eqn:Hc.
    + apply DictFacts.contains_true in Hc as [w Hw].
      destruct (Dict.get d k) eqn:Hk; [done|].
      destruct (decide (k0 = k)) as [->|]; [congruence|done].
    + apply DictFacts.contains_false in Hc.
      destruct (decide (k0 = k)) as [->|Hne].
      * by rewrite DictFacts.get_set_eq, Hc.
      * by rewrite DictFacts.get_set_ne.
Qed.

Lemma wf_update_unseen d sd : Dict.wf d -> Dict.wf (update_unseen d sd).
Proof.
  unfold update_unseen, Dict.items. revert d.
  induction sd as [|[k0 v0] sd IH]; intros d Hwf; simpl; [done|].
  apply IH. destruct (Dict.contains d k0); [done|]. by apply DictFacts.wf_set.
Qed.

(** After it, no key of the class is missing, so the second loop over
    the difference of the key sets has nothing to do. *)
Lemma update_difference_unseen d sd :
  update_difference (update_unseen d sd) sd = update_unseen d sd.
Proof.
  unfold update_difference.
  replace (filter _ (Dict.keys sd)) with (@nil string); [done|].
  symmetry. apply filter_none.
  intros k Hk Hneg. apply DictFacts.key_get_Some in Hk as [v Hv].
  apply negb_prop_elim in Hneg. apply Hneg, Is_true_true.
  apply DictFacts.contains_true. rewrite get_update_unseen, Hv.
  destruct (Dict.get d k); eauto.
Qed.

Lemma bfs_inv_init cls : bfs_inv extract_func (bfs_init cls).
Proof.
  split; simpl; try (intros c Hc; by apply elem_of_nil in Hc); try done.
  - constructor.
  - intros c. split; intros Hc; [by apply elem_of_nil in Hc|set_solver].
  - constructor.
Qed.

Lemma bfs_step_inv st st' :
  bfs_inv extract_func st -> bfs_step extract_func st = (st', None) ->
  bfs_inv extract_func st'.
Proof.
  intros [Hnd Hvis Hfam Hext Hdict Hwf]. unfold bfs_step.
  destruct (super_classes st) as [|c rest]; [by intros [= <-]|].
  destruct (negb (bool_decide (c ∈ visited st)) && issubclass c Tap_class) eqn:Hguard.
  - apply andb_true_iff in Hguard as [Hnew Hsub].
    apply negb_true_iff, bool_decide_eq_false in Hnew.
    destruct (extract_func c) as [sd|e] eqn:Hsd; [|done].
    intros [= <-]. split; simpl.
    + apply NoDup_app. split; [done|]. split; [|apply NoDup_singleton].
      intros x Hx Hx'. apply list_elem_of_singleton in Hx' as ->.
      by apply Hnew, Hvis.
    + intros x.
      rewrite elem_of_app, list_elem_of_singleton, elem_of_union, elem_of_singleton, Hvis.
      tauto.
    + intros x [Hx| ->%list_elem_of_singleton]%elem_of_app; auto.
    + intros x [Hx| ->%list_elem_of_singleton]%elem_of_app; auto.
      by rewrite Hsd.
    + intros k. rewrite update_difference_unseen, get_update_unseen, Hdict.
      rewrite first_some_app. simpl. unfold declares at 3. rewrite Hsd.
      by destruct (Dict.get sd k).
    + rewrite update_difference_unseen. by apply wf_update_unseen.
  - intros [= <-]. by split.
Qed.

Lemma bfs_step_raise st st' e :
  bfs_inv extract_func st -> bfs_step extract_func st = (st', Some e) ->
  NoDup (calls st') /\
  exists c, c ∈ calls st' /\ issubclass c Tap_class = true /\ extract_func c = Raise e.
Proof.
  intros [Hnd Hvis Hfam Hext Hdict Hwf]. unfold bfs_step.
  destruct (super_classes st) as [|c rest]; [done|].
  destruct (negb (bool_decide (c ∈ visited st)) && issubclass c Tap_class) eqn:Hguard;
    [|done].
  apply andb_true_iff in Hguard as [Hnew Hsub].
  apply negb_true_iff, bool_decide_eq_false in Hnew.
  destruct (extract_func c) as [sd|e'] eqn:Hsd; [done|].
  intros [= <- <-]. simpl. split.
  - apply NoDup_app. split; [done|]. split; [|apply NoDup_singleton].
    intros x Hx Hx'. apply list_elem_of_singleton in Hx' as ->.
    by apply Hnew, Hvis.
  - exists c. split; [|done]. apply elem_of_app. right. apply list_elem_of_here.
Qed.

Lemma bfs_loop_inv fuel st st' :
  bfs_inv extract_func st -> bfs_loop extract_func fuel st = Some (st', None) ->
  bfs_inv extract_func st' /\ super_classes st' = [].
Proof.
  revert st. induction fuel as [|fuel IH]; intros st Hinv; simpl.
  - destruct (super_classes st) eqn:Hq; [|done]. by intros [= <-].
  - destruct (super_classes st) eqn:Hq; [by intros [= <-]|].
    destruct (bfs_step extract_func st) as [st1 [e|]] eqn:Hstep; [done|].
    intros Hloop. eapply IH; [|done]. by eapply bfs_step_inv.
Qed.

Lemma bfs_loop_raise fuel st st' e :
  bfs_inv extract_func st -> bfs_loop extract_func fuel st = Some (st', Some e) ->
  NoDup (calls st') /\
  exists c, c ∈ calls st' /\ issubclass c Tap_class = true /\ extract_func c = Raise e.
Proof.
  revert st. induction fuel as [|fuel IH]; intros st Hinv; simpl.
  - by destruct (super_classes st).
  - destruct (super_classes st) eqn:Hq; [done|].
    destruct (bfs_step extract_func st) as [st1 [e'|]] eqn:Hstep.
    + intros [= <- <-]. by eapply bfs_step_raise.
    + intros Hloop. eapply IH; [|done]. by eapply bfs_step_inv.
Qed.

(** *** Termination *)

Lemma sum_list_map_le {A : Type} (f g : A -> nat) (l : list A) :
  (forall x, x ∈ l -> f x <= g x) -> sum_list (map f l) <= sum_list (map g l).
Proof.
  induction l as [|x l IH]; intros Hle; simpl; [lia|].
  pose proof (Hle x (list_elem_of_here _ _)).
  assert (sum_list (map f l) <= sum_list (map g l)).
  { apply IH. intros y Hy. by apply Hle, list_elem_of_further. }
  lia.
Qed.

Lemma sum_list_map_drop {A : Type} (f g : A -> nat) (l : list A) (x : A) (n : nat) :
  (forall y, y ∈ l -> f y <= g y) -> x ∈ l -> f x + n <= g x ->
  sum_list (map f l) + n <= sum_list (map g l).
Proof.
  induction l as [|y l IH]; intros Hle Hx Hn; [by apply elem_of_nil in Hx|].
  simpl. apply elem_of_cons in Hx as [<-|Hx].
  - assert (sum_list (map f l) <= sum_list (map g l)).
    { apply sum_list_map_le. intros z Hz. by apply Hle, list_elem_of_further. }
    lia.
  - pose proof (Hle y (list_elem_of_here _ _)).
    assert (sum_list (map f l) + n <= sum_list (map g l)).
    { apply IH; [|done..]. intros z Hz. by apply Hle, list_elem_of_further. }
    lia.
Qed.

Lemma pending_visit (c : class) (vis : gset class) :
  c ∉ vis -> pending ({[c]} ∪ vis) + length (bases c) <= pending vis.
Proof.
  intros Hc. unfold pending, bases.
  assert (Hmono : forall p : class * class_info,
    (if bool_decide (p.1 ∈ {[c]} ∪ vis) then 0 else length (__bases__ p.2))
    <= (if bool_decide (p.1 ∈ vis) then 0 else length (__bases__ p.2))).
  { intros p. repeat case_bool_decide; try lia. set_solver. }
  destruct (class_table !! c) as [i|] eqn:Hi.
  - apply (sum_list_map_drop _ _ _ (c, i)); [auto| |].
    + by apply elem_of_map_to_list.
    + simpl. rewrite bool_decide_eq_true_2 by set_solver.
      by rewrite bool_decide_eq_false_2.
  - simpl. rewrite Nat.add_0_r. apply sum_list_map_le. auto.
Qed.

Lemma bfs_step_measure st st' e :
  super_classes st <> [] -> bfs_step extract_func st = (st', e) ->
  bfs_measure st' < bfs_measure st.
Proof.
  unfold bfs_step, bfs_measure.
  destruct (super_classes st) as [|c rest]; [done|]. intros _.
  destruct (negb (bool_decide (c ∈ visited st)) && issubclass c Tap_class) eqn:Hguard.
  - apply andb_true_iff in Hguard as [Hnew _].
    apply negb_true_iff, bool_decide_eq_false in Hnew.
    pose proof (pending_visit c (visited st) Hnew).
    destruct (extract_func c); intros [= <- <-]; simpl.
    + rewrite length_app. lia.
    + lia.
  - intros [= <- <-]. simpl. lia.
Qed.

Lemma bfs_loop_total fuel st :
  bfs_measure st <= fuel -> is_Some (bfs_loop extract_func fuel st).
Proof.
  revert st. induction fuel as [|fuel IH]; intros st Hm; simpl.
  - unfold bfs_measure in Hm. destruct (super_classes st); [eauto|simpl in Hm; lia].
  - destruct (super_classes st) as [|c rest] eqn:Hq; [eauto|].
    destruct (bfs_step extract_func st) as [st1 [e|]] eqn:Hstep; [eauto|].
    apply IH. apply bfs_step_measure in Hstep; [lia|]. by rewrite Hq.
Qed.

Lemma bfs_measure_init (cls : class) :
  bfs_measure (V:=V) (bfs_init cls) = bfs_budget.
Proof.
  unfold bfs_measure, bfs_budget, pending. simpl. f_equal.
Qed.

Lemma traverse_total (cls : class) : is_Some (traverse extract_func cls).
Proof. apply bfs_loop_total. by rewrite bfs_measure_init. Qed.

(** *** The classes visited, in order *)

Lemma bfs_step_calls st st' e :
  bfs_step extract_func st = (st', e) -> exists l, calls st' = calls st ++ l.
Proof.
  unfold bfs_step. destruct (super_classes st) as [|c rest].
  - intros [= <- <-]. exists []. by rewrite app_nil_r.
  - destruct (negb _ && _); [destruct (extract_func c)|];
      intros [= <- <-]; simpl; eauto.
    exists []. by rewrite app_nil_r.
Qed.

Lemma bfs_loop_calls fuel st st' e :
  bfs_loop extract_func fuel st = Some (st', e) -> exists l, calls st' = calls st ++ l.
Proof.
  revert st. induction fuel as [|fuel IH]; intros st; simpl.
  - destruct (super_classes st); [|done]. intros [= <- <-].
    exists []. by rewrite app_nil_r.
  - destruct (super_classes st) eqn:Hq.
    { intros [= <- <-]. exists []. by rewrite app_nil_r. }
    destruct (bfs_step extract_func st) as [st1 [e1|]] eqn:Hstep.
    + intros [= <- <-]. by eapply bfs_step_calls.
    + intros Hloop. apply IH in Hloop as [l2 ->].
      apply bfs_step_calls in Hstep as [l1 ->].
      exists (l1 ++ l2). by rewrite app_assoc.
Qed.

(** The traversal visits the starting class first. *)
Lemma traverse_calls_head cls st e :
  issubclass cls Tap_class = true ->
  traverse extract_func cls = Some (st, e) -> exists l, calls st = cls :: l.
Proof.
  intros Hsub. unfold traverse, bfs_budget.
  cbn [bfs_loop bfs_init super_classes].
  destruct (bfs_step extract_func _) as [st1 o] eqn:Hstep.
  assert (Hhead : calls st1 = [cls]).
  { unfold bfs_step, bfs_init in Hstep.
    cbn [super_classes visited dictionary calls] in Hstep.
    rewrite Hsub, bool_decide_eq_false_2 in Hstep by set_solver.
    cbn [negb andb] in Hstep.
    destruct (extract_func cls); by injection Hstep as <- <-. }
  destruct o as [e1|].
  - intros [= <- <-]. eauto.
  - intros [l Hl]%bfs_loop_calls. rewrite Hhead in Hl. eauto.
Qed.

Lemma traverse_inv cls st :
  traverse extract_func cls = Some (st, None) ->
  bfs_inv extract_func st /\ super_classes st = [].
Proof. apply bfs_loop_inv, bfs_inv_init. Qed.

Lemma traverse_raise cls st e :
  traverse extract_func cls = Some (st, Some e) ->
  NoDup (calls st) /\
  exists c, c ∈ calls st /\ issubclass c Tap_class = true /\ extract_func c = Raise e.
Proof. apply bfs_loop_raise, bfs_inv_init. Qed.

(** *** The classes visited are the ones to visit *)

Lemma bfs_frontier_init cls : bfs_frontier cls (bfs_init (V:=V) cls).
Proof.
  split; simpl.
  - by intros c ?%elem_of_nil.
  - intros q ->%list_elem_of_singleton. by left.
  - intros _. right. apply list_elem_of_here.
  - intros c b Hc. set_solver.
Qed.

(** Whatever an iteration does, it calls [extract_func] on classes to
    visit only. *)
Lemma bfs_step_sound cls st st' o :
  bfs_frontier cls st -> bfs_step extract_func st = (st', o) ->
  forall c, c ∈ calls st' -> reachable cls c.
Proof.
  intros [Hcalls Hqueue _ _]. unfold bfs_step.
  destruct (super_classes st) as [|q rest]; [by intros [= <- <-]|].
  assert (Hq : issubclass q Tap_class = true -> reachable cls q).
  { intros Hsub. destruct (Hqueue q (list_elem_of_here _ _)) as [->|(c & Hc & Hb)].
    - by apply reachable_start.
    - apply (reachable_base cls c q); auto. }
  destruct (negb (bool_decide (q ∈ visited st)) && issubclass q Tap_class) eqn:Hguard.
  - apply andb_true_iff in Hguard as [_ Hsub].
    destruct (extract_func q); intros [= <- <-]; simpl;
      intros c [Hc| ->%list_elem_of_singleton]%elem_of_app; auto.
  - intros [= <- <-]. simpl. auto.
Qed.

Lemma bfs_step_frontier cls st st' :
  bfs_frontier cls st -> bfs_step extract_func st = (st', None) ->
  bfs_frontier cls st'.
Proof.
  intros Hfr Hstep. pose proof (bfs_step_sound _ _ _ _ Hfr Hstep) as Hsound.
  destruct Hfr as [Hcalls Hqueue Hstart Hbases]. revert Hstep Hsound.
  unfold bfs_step. destruct (super_classes st) as [|q rest] eqn:Hsc.
  { intros [= <-] _. split; rewrite ?Hsc; auto. }
  destruct (negb (bool_decide (q ∈ visited st)) && issubclass q Tap_class) eqn:Hguard.
  - destruct (extract_func q) as [sd|]; [|done].
    intros [= <-] Hsound. split; simpl; [done| | |].
    + intros x [Hx|Hx]%elem_of_app.
      * destruct (Hqueue x (list_elem_of_further _ _ _ Hx)) as [->|(c & Hc & Hb)];
          [by left|].
        right. exists c. split; [|done]. apply elem_of_app. by left.
      * right. exists q. split; [|done]. apply elem_of_app. right.
        apply list_elem_of_here.
    + intros Hsub. destruct (Hstart Hsub) as [Hv|[->|Hr]%elem_of_cons].
      * left. apply elem_of_union. by right.
      * left. apply elem_of_union. left. by apply elem_of_singleton.
      * right. apply elem_of_app. by left.
    + intros c b [->%elem_of_singleton|Hc]%elem_of_union Hb Hsub.
      * right. apply elem_of_app. by right.
      * destruct (Hbases c b Hc Hb Hsub) as [Hv|[->|Hr]%elem_of_cons].
        -- left. apply elem_of_union. by right.
        -- left. apply elem_of_union. left. by apply elem_of_singleton.
        -- right. apply elem_of_app. by left.
  - intros [= <-] Hsound. apply andb_false_iff in Hguard.
    assert (Hgone : issubclass q Tap_class = true -> q ∈ visited st).
    { intros Hsub. destruct Hguard as [Hv|Hn]; [|congruence].
      by apply negb_false_iff, bool_decide_eq_true in Hv. }
    split; simpl; [done| | |].
    + intros x Hx. apply Hqueue. by apply list_elem_of_further.
    + intros Hsub. destruct (Hstart Hsub) as [Hv|[->|Hr]%elem_of_cons]; auto.
    + intros c b Hc Hb Hsub.
      destruct (Hbases c b Hc Hb Hsub) as [Hv|[->|Hr]%elem_of_cons]; auto.
Qed.

Lemma bfs_loop_frontier cls fuel st st' :
  bfs_frontier cls st -> bfs_loop extract_func fuel st = Some (st', None) ->
  bfs_frontier cls st'.
Proof.
  revert st. induction fuel as [|fuel IH]; intros st Hfr; simpl.
  - destruct (super_classes st) eqn:Hq; [|done]. by intros [= <-].
  - destruct (super_classes st) eqn:Hq; [by intros [= <-]|].
    destruct (bfs_step extract_func st) as [st1 [e|]] eqn:Hstep; [done|].
    intros Hloop. eapply IH; [|done]. by eapply bfs_step_frontier.
Qed.

Lemma bfs_loop_sound cls fuel st st' o :
  bfs_frontier cls st -> bfs_loop extract_func fuel st = Some (st', o) ->
  forall c, c ∈ calls st' -> reachable cls c.
Proof.
  revert st. induction fuel as [|fuel IH]; intros st Hfr; simpl.
  - destruct (super_classes st) eqn:Hq; [|done]. intros [= <- <-].
    by destruct Hfr.
  - destruct (super_classes st) eqn:Hq; [intros [= <- <-]; by destruct Hfr|].
    destruct (bfs_step extract_func st) as [st1 [e|]] eqn:Hstep.
    + intros [= <- <-]. by eapply bfs_step_sound.
    + intros Hloop. eapply IH; [|done]. by eapply bfs_step_frontier.
Qed.

(** When the queue is empty, every class to visit has been visited. *)
Lemma frontier_complete cls st :
  bfs_frontier cls st -> super_classes st = [] ->
  forall c, reachable cls c -> c ∈ visited st.
Proof.
  intros [_ _ Hstart Hbases] Hq c Hreach. rewrite Hq in *.
  induction Hreach as [Hsub|c b _ IH Hb Hsub].
  - destruct (Hstart Hsub) as [|?%elem_of_nil]; done.
  - destruct (Hbases c b IH Hb Hsub) as [|?%elem_of_nil]; done.
Qed.
End merger_facts.

(** C10: the traversal of the hierarchy ends for every table of classes and
    every starting class, whatever the shape of the inheritance graph, and
    [extract_func] is applied to no class twice: the classes it was applied
    to ([calls]) are without repetition, and all of them are classes to
    visit (the starting class and, from class to base, the subclasses of
    [Tap] above it). When no call raises, the queue is exhausted and
    [extract_func] has been applied to every class to visit, so to each of
    them exactly once; these classes are the visited ones, and the merged
    dictionary holds for each key the declaration of the first of them,
    in the order of the calls, that has one. When a call raises, the
    traversal ends there with that exception. *)
Theorem C10_traversal_terminates_extracting_once
    `{Classes} {V : Type} (extract_func : class -> result (Dict.t V)) (cls : class) :
  exists st e,
    traverse extract_func cls = Some (st, e)
    /\ NoDup (calls st)
    /\ (forall c, c ∈ calls st -> reachable cls c)
    /\ match e with
       | None =>
           super_classes st = []
           /\ (forall c, reachable cls c <-> c ∈ calls st)
           /\ (forall c, c ∈ calls st <-> c ∈ visited st)
           /\ (forall k, Dict.get (dictionary st) k
                         = first_some (declares extract_func k) (calls st))
       | Some err => exists c, c ∈ calls st /\ extract_func c = Raise err
       end.
Proof.
  destruct (traverse_total extract_func cls) as [[st e] Hrun].
  exists st, e. split; [done|].
  pose proof (bfs_loop_sound extract_func cls _ _ _ _ (bfs_frontier_init cls) Hrun)
    as Hsound.
  destruct e as [err|].
  - apply traverse_raise in Hrun as (Hnd & c & Hc & _ & Hraise). eauto.
  - pose proof (bfs_loop_frontier extract_func cls _ _ _ (bfs_frontier_init cls) Hrun)
      as Hfr.
    apply traverse_inv in Hrun as [[Hnd Hvis _ _ Hdict _] Hq].
    split; [done|]. split; [done|]. split; [done|]. split; [|done].
    intros c. split; [|by apply Hsound].
    intros Hreach. apply Hvis. by apply (frontier_complete cls st).
Qed.

(** What the merge does ensure: in the table merged for a class of the
    parser family, every name that the class itself declares is mapped to
    the declaration of the class, whatever its ancestors declare under
    that name and in whatever order the bases of any class are listed;
    and every entry of the table is the declaration of a class of the
    family (a subclass of [Tap]). Between two ancestors of the class it
    ensures no such thing: see [merge_uneven]. *)
Lemma starting_class_declaration_wins
    `{Classes} {V : Type} (extract_func : class -> result (Dict.t V))
    (cls : class) (own : Dict.t V) :
  issubclass cls Tap_class = true ->
  extract_func cls = Ok own ->
  match _get_from_self_and_super extract_func cls with
  | Ok merged =>
      (forall k v, Dict.get own k = Some v -> Dict.get merged k = Some v)
      /\ (forall k v, Dict.get merged k = Some v ->
            exists c declared,
              issubclass c Tap_class = true
              /\ extract_func c = Ok declared /\ Dict.get declared k = Some v)
  | Raise e =>
      exists c, issubclass c Tap_class = true /\ extract_func c = Raise e
  end.
Proof.
  intros Hsub Hown. unfold _get_from_self_and_super.
  destruct (traverse_total extract_func cls) as [[st e] Hrun]. rewrite Hrun.
  destruct e as [err|].
  - apply traverse_raise in Hrun as (_ & c & _ & Hc & Hraise). eauto.
  - destruct (traverse_calls_head _ _ _ _ Hsub Hrun) as [l Hl].
    apply traverse_inv in Hrun as [[_ _ Hfam _ Hdict _] _]. split.
    + intros k v Hk. rewrite Hdict, Hl. simpl.
      unfold declares at 1. by rewrite Hown, Hk.
    + intros k v Hk. rewrite Hdict in Hk.
      apply first_some_Some in Hk as (c & Hc & Hdecl).
      unfold declares in Hdecl.
      destruct (extract_func c) as [declared|] eqn:Hext; [|done].
      exists c, declared. auto.
Qed.


(** ** Results *)

Lemma mapM_cons {A B : Type} (f : A -> result B) (x : A) (l : list A) :
  mapM f (x :: l) =
  match f x with
  | Ok y => match mapM f l with Ok k => Ok (y :: k) | Raise e => Raise e end
  | Raise e => Raise e
  end.
Proof. done. Qed.

Lemma mapM_Ok {A B : Type} (f : A -> result B) (l : list A) (k : list B) :
  mapM f l = Ok k -> Forall2 (fun x y => f x = Ok y) l k.
Proof.
  revert k. induction l as [|x l IH]; intros k.
  - intros [= <-]. constructor.
  - rewrite mapM_cons.
    destruct (f x) as [y|] eqn:Hy; [|done].
    destruct (mapM f l) as [k'|] eqn:Hk; [|done].
    intros [= <-]. constructor; auto.
Qed.

Lemma Forall2_mapM_Ok {A B : Type} (f : A -> result B) (l : list A) (k : list B) :
  Forall2 (fun x y => f x = Ok y) l k -> mapM f l = Ok k.
Proof.
  induction 1 as [|x y l k Hxy _ IH]; [done|].
  by rewrite mapM_cons, Hxy, IH.
Qed.


(** ** Instances: attributes, export and import *)
Section state_facts.
Context `{Classes} `{Utils} `{Backend}.
Implicit Types (self : Tap) (args_dict : Dict.t value).

Lemma with_attrs_id self : with_attrs self (attrs self) = self.
Proof. by destruct self. Qed.

(** Reading an attribute does not look at the parsed mark. *)
Lemma getattr_with_parsed self b name :
  getattr (with_parsed self b) name = getattr self name.
Proof. done. Qed.


(** The instance has an attribute when the class defines the name or
    when an attribute of that name is bound on the instance. *)
Lemma hasattr_false self name :
  hasattr self name = false
  <-> class_getattr (cls self) name = None /\ Dict.get (attrs self) name = None.
Proof.
  unfold hasattr, getattr.
  destruct (class_getattr (cls self) name) as [[]|];
    destruct (Dict.get (attrs self) name); simpl; split; try done; by intros [].
Qed.

Lemma as_dict_unparsed self :
  _parsed self = false -> as_dict self = Raise (ValueError not_parsed).
Proof. intros Hp. unfold as_dict. by rewrite Hp. Qed.



(** The loop of [from_dict] never raises. *)
Lemma set_attributes_spec items warned self :
  exists warned',
    set_attributes items warned self
    = (Ok warned', with_attrs self (bind_all (cls self) items (attrs self))).
Proof.
  revert warned self. induction items as [|[k v] items IH]; intros warned self.
  - exists warned. simpl. unfold ret. by rewrite with_attrs_id.
  - simpl. unfold setattr. destruct (is_property _) eqn:Hp.
    + apply IH.
    + destruct (IH warned (with_attrs self (Dict.set (attrs self) k v))) as [w Hw].
      exists w. by rewrite Hw.
Qed.

Lemma required_args_NoDup self :
  Dict.wf (_annotations self) -> NoDup (required_args self).
Proof. intros Hwf. by apply NoDup_filter. Qed.

Lemma remove_dups_NoDup_length {A : Type} `{EqDecision A} (l : list A) :
  NoDup l -> length (remove_dups l) = length l.
Proof.
  induction 1 as [|x l Hx _ IH]; simpl; [done|].
  destruct (decide_rel _ _ _); [done|]. simpl. by rewrite IH.
Qed.

Lemma remove_dups_length_le {A : Type} `{EqDecision A} (l : list A) :
  length (remove_dups l) <= length l.
Proof.
  induction l as [|x l IH]; simpl; [done|].
  destruct (decide_rel _ _ _); simpl; lia.
Qed.

Lemma filter_all {A : Type} (P : A -> Prop) `{forall x, Decision (P x)} (l : list A) :
  Forall P l -> filter P l = l.
Proof.
  induction 1 as [|x l Hx _ IH]; [done|].
  rewrite filter_cons_True by done. by rewrite IH.
Qed.

Lemma provided_covered (required : list string) args_dict :
  NoDup required ->
  Forall (fun a => a ∈ Dict.keys args_dict) required ->
  provided required args_dict = length required.
Proof.
  intros Hnd Hall. unfold provided.
  rewrite filter_all.
  - by apply remove_dups_NoDup_length.
  - eapply Forall_impl; [done|]. intros a Ha. simpl.
    by apply Is_true_true, bool_decide_eq_true.
Qed.

Lemma provided_not_covered (required : list string) args_dict :
  ~ Forall (fun a => a ∈ Dict.keys args_dict) required ->
  provided required args_dict < length required.
Proof.
  intros Hnot. apply not_Forall_Exists in Hnot; [|apply _].
  apply Exists_exists in Hnot as (a & Ha & Hmiss). unfold provided.
  eapply Nat.le_lt_trans; [apply remove_dups_length_le|].
  apply (length_filter_lt _ _ a); [done|].
  simpl. intros Hin. by apply Is_true_true, bool_decide_eq_true in Hin.
Qed.

Lemma from_dict_missing self args_dict :
  ~ Forall (fun a => a ∈ Dict.keys args_dict) (required_args self) ->
  from_dict args_dict self
  = (Raise (ValueError (missing_required args_dict (required_args self))), self).
Proof.
  intros Hnot. apply provided_not_covered in Hnot. unfold from_dict.
  destruct (Nat.eqb_spec (length (required_args self))
              (provided (required_args self) args_dict)) as [Heq|Hne]; [lia|done].
Qed.

Lemma from_dict_covered self args_dict :
  Dict.wf (_annotations self) ->
  Forall (fun a => a ∈ Dict.keys args_dict) (required_args self) ->
  exists warned,
    from_dict args_dict self
    = (Ok warned,
       with_parsed
         (with_attrs self (bind_all (cls self) (Dict.items args_dict) (attrs self)))
         true).
Proof.
  intros Hwf Hall. unfold from_dict.
  rewrite (provided_covered _ _ (required_args_NoDup _ Hwf) Hall).
  rewrite Nat.eqb_refl. simpl. unfold seq.
  destruct (set_attributes_spec (Dict.items args_dict) [] self) as [w ->].
  by exists w.
Qed.
End state_facts.

(** C9: when the keys of the record do not cover the fields that are
    required and still unset, [from_dict] raises and the instance is what it
    was before the call: no attribute is bound and the parsed mark is not
    set, so [as_dict] gives after the call what it gave before (the error
    of an unparsed instance, if the instance was unparsed). *)
Theorem C9_from_dict_failure_leaves_instance
    `{Classes} `{Utils} `{Backend} (self : Tap) (args_dict : Dict.t value) :
  ~ Forall (fun a => a ∈ Dict.keys args_dict) (required_args self) ->
  exists e,
    from_dict args_dict self = (Raise e, self)
    /\ attrs (snd (from_dict args_dict self)) = attrs self
    /\ _parsed (snd (from_dict args_dict self)) = _parsed self
    /\ as_dict (snd (from_dict args_dict self)) = as_dict self.
Proof.
  intros Hnot. rewrite (from_dict_missing _ _ Hnot). eauto.
Qed.

(** C4, as the spec states it, fails: with the three required fields [a],
    [b] and [c] and a record that lacks [c] alone, the error of [from_dict]
    lists [a], [b] and [c], the required fields of the instance, and not
    the missing field alone. *)
Lemma C4_counterexample_message_lists_all_required :
  match Examples.construct Examples.three false with
  | Ok self =>
      Examples.required Examples.three self = ["a"; "b"; "c"]
      /\ fst (Examples.import Examples.three [("a", VInt 1); ("b", VStr "x")] self)
         = Raise (ValueError (missing_required [("a", VInt 1); ("b", VStr "x")]
                                               ["a"; "b"; "c"]))
      /\ ["a"; "b"; "c"] <> ["c"]
  | Raise _ => False
  end.
Proof. vm_compute. repeat split; congruence. Qed.

(** C4, amended: when the keys of the record do not cover the fields that
    are required and still unset on the instance, [from_dict] raises the
    [ValueError] whose message shows the record and lists all these
    required fields (not only the missing ones), and the instance is left
    as it was; when the keys cover them, the import succeeds and marks the
    instance as parsed. *)
Theorem C4_from_dict_checks_required_fields
    `{Classes} `{Utils} `{Backend} (self : Tap) (args_dict : Dict.t value) :
  Dict.wf (_annotations self) ->
  (~ Forall (fun a => a ∈ Dict.keys args_dict) (required_args self) ->
   from_dict args_dict self
   = (Raise (ValueError (missing_required args_dict (required_args self))), self))
  /\ (Forall (fun a => a ∈ Dict.keys args_dict) (required_args self) ->
      exists warned self',
        from_dict args_dict self = (Ok warned, self') /\ _parsed self' = true).
Proof.
  intros Hwf. split.
  - apply from_dict_missing.
  - intros Hall. destruct (from_dict_covered _ _ Hwf Hall) as [w ->]. eauto.
Qed.



(** ** The argument synthesizer *)
Section synthesizer_facts.
Context `{Classes} `{Utils} `{Backend}.
Implicit Types (self : Tap) (kwargs : keywords) (variable : string).

Lemma resolve_shape_keeps self variable var_type kwargs f kwargs' :
  resolve_shape self variable var_type kwargs = Ok (f, kwargs') ->
  kw_required kwargs' = kw_required kwargs
  /\ kw_default kwargs' = kw_default kwargs
  /\ kw_action kwargs' = kw_action kwargs.
Proof.
  unfold resolve_shape, raise_unsupported, mbind, result_bind.
  intros Hr. repeat case_match; simplify_eq; done.
Qed.

Lemma unbox_keeps f kwargs f' kwargs' :
  unbox f kwargs = (f', kwargs') ->
  kw_required kwargs' = kw_required kwargs
  /\ kw_default kwargs' = kw_default kwargs
  /\ kw_action kwargs' = kw_action kwargs.
Proof. unfold unbox. intros Hu. repeat case_match; simplify_eq; done. Qed.

Lemma set_type_or_action_keeps self f kwargs kwargs' :
  set_type_or_action self f kwargs = Ok kwargs' ->
  kw_required kwargs' = kw_required kwargs
  /\ kw_default kwargs' = kw_default kwargs.
Proof.
  unfold set_type_or_action, mbind, result_bind.
  intros Hs. repeat case_match; simplify_eq; done.
Qed.

Lemma from_annotation_keeps self variable kwargs kwargs' :
  from_annotation self variable kwargs = Ok kwargs' ->
  kw_required kwargs' = kw_required kwargs
  /\ kw_default kwargs' = kw_default kwargs.
Proof.
  unfold from_annotation, mbind, result_bind.
  destruct (Dict.get (_annotations self) variable) as [var_type|]; [|by intros [= <-]].
  destruct (kw_type kwargs); [by intros [= <-]|].
  destruct (resolve_shape self variable var_type kwargs) as [[f k1]|] eqn:Hr; [|done].
  destruct (unbox f k1) as [f2 k2] eqn:Hu. intros Hs.
  apply resolve_shape_keeps in Hr as (? & ? & _).
  apply unbox_keeps in Hu as (? & ? & _).
  apply set_type_or_action_keeps in Hs as (? & ?). split; congruence.
Qed.

Lemma default_from_class_required self variable kwargs :
  kw_required (default_from_class self variable kwargs) = kw_required kwargs.
Proof. unfold default_from_class. by destruct (getattr self variable). Qed.

Lemma default_from_class_type self variable kwargs :
  kw_type (default_from_class self variable kwargs) = kw_type kwargs.
Proof. unfold default_from_class. by destruct (getattr self variable). Qed.

Lemma help_if_missing_keeps self variable kwargs :
  kw_required (help_if_missing self variable kwargs) = kw_required kwargs
  /\ kw_default (help_if_missing self variable kwargs) = kw_default kwargs
  /\ kw_type (help_if_missing self variable kwargs) = kw_type kwargs
  /\ kw_action (help_if_missing self variable kwargs) = kw_action kwargs
  /\ kw_nargs (help_if_missing self variable kwargs) = kw_nargs kwargs
  /\ kw_choices (help_if_missing self variable kwargs) = kw_choices kwargs.
Proof. unfold help_if_missing. by destruct (kw_help kwargs). Qed.

Lemma required_if_option_type self name_or_flags variable kwargs :
  kw_type (required_if_option self name_or_flags variable kwargs) = kw_type kwargs.
Proof. unfold required_if_option. by destruct (_ && _). Qed.

(** What [required] is set to for a flag that is not the help flag. *)
Lemma required_if_option_flag self name_or_flags variable kwargs :
  is_option_arg name_or_flags = true -> variable <> "help" ->
  kw_required (required_if_option self name_or_flags variable kwargs)
  = Some (default (negb (hasattr self variable)) (kw_required kwargs)).
Proof.
  intros Hopt Hne. unfold required_if_option. rewrite Hopt.
  apply String.eqb_neq in Hne. by rewrite Hne.
Qed.

(** On an annotation that no shape matches and that is not supported by
    default, the chain of tests ends in the [raise]. *)
Lemma resolve_shape_unsupported self variable var_type kwargs :
  matches_no_shape var_type ->
  ann_in var_type SUPPORTED_DEFAULT_TYPES = false ->
  resolve_shape self variable var_type kwargs
  = raise_unsupported self variable var_type kwargs.
Proof.
  intros (Hlit & Hbox & Htup & Hopt) Hsup. unfold resolve_shape.
  unfold mbind, result_bind.
  by rewrite Hlit, Hbox, Htup, Hopt, Hsup.
Qed.

Lemma raise_unsupported_raises {A : Type} self variable var_type kwargs :
  exists e, raise_unsupported (A:=A) self variable var_type kwargs = Raise e.
Proof.
  unfold raise_unsupported, mbind, result_bind.
  destruct (kw_required kwargs) as [[]|]; eauto.
  destruct (getattr self variable); eauto.
Qed.

Lemma raise_unsupported_bind {A B : Type} self variable var_type kwargs
    (f : A -> result B) :
  raise_unsupported self variable var_type kwargs ≫= f
  = raise_unsupported self variable var_type kwargs.
Proof.
  unfold raise_unsupported, mbind, result_bind.
  destruct (kw_required kwargs) as [[]|]; try done.
  by destruct (getattr self variable).
Qed.
(** What decides the failure of a registration on an unsupported
    annotation: the registration raises whatever was registered before. *)
Lemma add_argument_unsupported self name_or_flags kwargs var_type :
  Dict.get (_annotations self) (get_dest name_or_flags kwargs) = Some var_type ->
  matches_no_shape var_type ->
  ann_in var_type SUPPORTED_DEFAULT_TYPES = false ->
  kw_type kwargs = None ->
  _add_argument_kwargs self name_or_flags kwargs
  = raise_unsupported self (get_dest name_or_flags kwargs) var_type
      (help_if_missing self (get_dest name_or_flags kwargs)
         (required_if_option self name_or_flags (get_dest name_or_flags kwargs)
            (default_from_class self (get_dest name_or_flags kwargs) kwargs))).
Proof.
  intros Hann Hshape Hsup Htype.
  unfold _add_argument_kwargs, from_annotation. rewrite Hann.
  destruct (help_if_missing_keeps self (get_dest name_or_flags kwargs)
    (required_if_option self name_or_flags (get_dest name_or_flags kwargs)
       (default_from_class self (get_dest name_or_flags kwargs) kwargs)))
    as (_ & _ & -> & _).
  rewrite required_if_option_type, default_from_class_type, Htype.
  rewrite resolve_shape_unsupported by done.
  apply raise_unsupported_bind.
Qed.

End synthesizer_facts.

(** ** Boolean fields *)



(** ** Equality of values and sets *)

Lemma b2z_inj (a b : bool) : Z.b2z a = Z.b2z b -> a = b.
Proof. by destruct a, b. Qed.

Ltac eqb_true :=
  repeat match goal with
    | E : Z.eqb _ _ = true |- _ => apply Z.eqb_eq in E
    | E : String.eqb _ _ = true |- _ => apply String.eqb_eq in E
    | E : Bool.eqb _ _ = true |- _ => apply Bool.eqb_prop in E
    | E : Z.b2z _ = Z.b2z _ |- _ => apply b2z_inj in E
    end;
  subst;
  repeat match goal with
    | E : Z.b2z _ = Z.b2z _ |- _ => apply b2z_inj in E; subst
    end;
  first [ apply Z.eqb_refl | apply String.eqb_refl | apply Bool.eqb_reflx | done ].

Lemma py_eq_atom_refl (x : value) : atom x -> py_eq x x = true.
Proof. destruct x; simpl; try done; intros _; eqb_true. Qed.

Lemma py_eq_atom_trans (x y z : value) :
  atom x -> atom y -> atom z ->
  py_eq x y = true -> py_eq y z = true -> py_eq x z = true.
Proof.
  destruct x, y, z; simpl; try done; intros _ _ _ Hxy Hyz; eqb_true.
Qed.

Lemma atom_hashable (l : list value) : Forall atom l -> forallb hashable l = true.
Proof.
  induction 1 as [|x l Hx _ IH]; simpl; [done|].
  rewrite IH. by destruct x.
Qed.

Lemma collapse_subset (l : list value) (x : value) : x ∈ collapse l -> x ∈ l.
Proof.
  revert x. induction l as [|y l IH]; intros x; simpl; [done|].
  intros [->|Hx]%elem_of_cons; [apply list_elem_of_here|].
  apply list_elem_of_further, IH.
  by apply list_elem_of_filter in Hx as [_ Hx].
Qed.

(** Every element of the sequence has an equal element in the set. *)
Lemma collapse_represents (l : list value) (y : value) :
  Forall atom l -> y ∈ l -> exists x, x ∈ collapse l /\ py_eq x y = true.
Proof.
  induction 1 as [|x0 l Hx0 Hl IH]; [by intros ?%elem_of_nil|].
  simpl. intros [->|Hy]%elem_of_cons.
  - exists x0. split; [apply list_elem_of_here|by apply py_eq_atom_refl].
  - destruct (IH Hy) as (x & Hx & Hxy).
    destruct (py_eq x0 x) eqn:Hx0x.
    + exists x0. split; [apply list_elem_of_here|].
      eapply (py_eq_atom_trans x0 x y); try done.
      * apply (proj1 (Forall_forall _ _) Hl). by apply collapse_subset.
      * by apply (proj1 (Forall_forall _ _) Hl).
    + exists x. split; [|done]. apply list_elem_of_further.
      apply list_elem_of_filter. split; [|done]. by rewrite Hx0x.
Qed.

(** No value is twice in the set. *)
Lemma collapse_NoDup (l : list value) : Forall atom l -> NoDup (collapse l).
Proof.
  induction 1 as [|x l Hx _ IH]; simpl; constructor.
  - intros [Hneq _]%list_elem_of_filter. by rewrite py_eq_atom_refl in Hneq.
  - by apply NoDup_filter.
Qed.

Lemma existsb_elem (f : value -> bool) (l : list value) (x : value) :
  x ∈ l -> f x = true -> existsb f l = true.
Proof.
  intros Hx Hf. apply existsb_exists. exists x. split; [|done].
  by apply list_elem_of_In.
Qed.

(** The set made of a sequence is equal, as Python compares sets, to the
    set of any sequence with the same elements, in any order and with any
    repetition. *)
Lemma py_eq_set_same_elements (l l' : list value) :
  Forall atom l -> (forall x, x ∈ l' <-> x ∈ l) ->
  py_eq (VSet (collapse l)) (VSet l') = true.
Proof.
  intros Hl Hsame. simpl. apply andb_true_iff. split.
  - apply forallb_forall. intros x Hx%list_elem_of_In.
    apply collapse_subset in Hx as Hxl.
    apply (existsb_elem _ _ x); [by apply Hsame|].
    apply py_eq_atom_refl. by apply (proj1 (Forall_forall _ _) Hl).
  - apply forallb_forall. intros y Hy%list_elem_of_In.
    apply Hsame in Hy. destruct (collapse_represents _ _ Hl Hy) as (x & Hx & Hxy).
    by apply (existsb_elem _ _ x).
Qed.

(** ** Binding the parsed values *)
Section binding_facts.
Context `{Classes} `{Utils} `{Backend}.
Implicit Types (self : Tap).

Lemma setattr_Ok name v self self' :
  setattr name v self = (Ok tt, self') ->
  is_property (class_getattr (cls self) name) = false
  /\ self' = with_attrs self (Dict.set (attrs self) name v).
Proof.
  unfold setattr. destruct (is_property _); [done|]. by intros [= <-].
Qed.

Lemma getattr_bound self name v :
  is_property (class_getattr (cls self) name) = false ->
  Dict.get (attrs self) name = Some v -> getattr self name = Ok v.
Proof.
  unfold getattr. intros Hp Hv. rewrite Hv.
  by destruct (class_getattr (cls self) name) as [[]|].
Qed.

Lemma convert_same_annotations self self' variable raw :
  _annotations self' = _annotations self ->
  convert self' variable raw = convert self variable raw.
Proof. unfold convert. by intros ->. Qed.

Lemma bind_namespace_spec (ns : namespace) self self' :
  NoDup (map fst ns) ->
  bind_namespace ns self = (Ok tt, self') ->
  cls self' = cls self
  /\ _annotations self' = _annotations self
  /\ (forall k, k ∉ map fst ns ->
        Dict.get (attrs self') k = Dict.get (attrs self) k)
  /\ (forall k raw, (k, raw) ∈ ns ->
        is_property (class_getattr (cls self) k) = false
        /\ exists v, convert self k raw = Ok v
                     /\ Dict.get (attrs self') k = Some v).
Proof.
  unfold bind_namespace, Dict.items.
  revert self. induction ns as [|[k0 raw0] ns IH]; intros self Hnd.
  - simpl. unfold ret. intros [= <-].
    split; [done|]. split; [done|]. split; [done|].
    by intros k raw ?%elem_of_nil.
  - simpl in Hnd. apply NoDup_cons in Hnd as [Hk0 Hnd].
    cbn [for_each]. unfold seq at 1. cbn [fst snd].
    destruct (convert self k0 raw0) as [v0|] eqn:Hc; [|done].
    destruct (setattr k0 (deepcopy v0) self) as [[[]|] s1] eqn:Hs; [|done].
    apply setattr_Ok in Hs as [Hp ->]. intros Hrest.
    apply IH in Hrest as (Hcls & Hann & Hout & Hin); [|done].
    simpl in Hcls, Hann. split; [done|]. split; [done|]. split.
    + intros k Hk. apply not_elem_of_cons in Hk as [Hne Hk].
      rewrite (Hout k Hk). simpl. by apply DictFacts.get_set_ne.
    + intros k raw [Heq|Hkr]%elem_of_cons.
      * injection Heq as -> ->. split; [done|]. exists v0. split; [done|].
        rewrite (Hout k0 Hk0). simpl. apply DictFacts.get_set_eq.
      * destruct (Hin k raw Hkr) as (Hpk & v & Hv & Hget).
        split; [done|]. exists v. split; [|done].
        by rewrite <- Hv.
Qed.
End binding_facts.

Section parse_facts.
Context `{Classes} `{Utils} `{Backend}.
Implicit Types (self : Tap).

Lemma backend_parse_same self args known_only ns s0 :
  backend_parse self args known_only = Ok (ns, s0) ->
  cls s0 = cls self /\ _annotations s0 = _annotations self
  /\ attrs s0 = attrs self.
Proof.
  unfold backend_parse, mbind, result_bind.
  destruct known_only.
  - destruct (parser_parse_known_args _ _) as [[ns' extra]|]; [|done].
    by intros [= <- <-].
  - destruct (parser_parse_args _ _); [|done]. by intros [= <- <-].
Qed.

(** A parse with the hook of [Tap] itself, which does nothing. *)
Lemma parse_args_default_hook args known_only self self' ns s0 :
  backend_parse self args known_only = Ok (ns, s0) ->
  parse_args process_args args known_only self = (Ok tt, self') ->
  exists s1, bind_namespace ns s0 = (Ok tt, s1) /\ self' = with_parsed s1 true.
Proof.
  intros Hb. unfold parse_args, seq, process_args, ret. rewrite Hb.
  destruct (bind_namespace ns s0) as [[[]|e] s1]; [|done].
  intros [= <-]. eauto.
Qed.
End parse_facts.

(** C5: in a parse where the backend returns the sequence [l] as the raw
    value of a field, a field whose annotation has the origin [Set] is
    bound to the set of [l], which is equal to the set of any sequence with
    the same elements, whatever the order and the repetitions, and holds no
    element twice; a field whose annotation has the origin [Tuple] is bound
    to the tuple of [l], in order; a field of any other annotation, a list
    among them, keeps the sequence [l]. *)
Theorem C5_sequence_to_declared_container
    `{Classes} `{Utils} `{Backend} (self self' : Tap)
    (args : option (list string)) (known_only : bool)
    (default_namespace : namespace)
    (variable : string) (annotation : ann) (l : list value) :
  fst <$> backend_parse self args known_only = Ok default_namespace ->
  Dict.wf default_namespace ->
  Dict.get default_namespace variable = Some (VList l) ->
  Dict.get (_annotations self) variable = Some annotation ->
  Forall atom l ->
  parse_args process_args args known_only self = (Ok tt, self') ->
  match get_origin annotation with
  | Some OSet =>
      getattr self' variable = Ok (VSet (collapse l))
      /\ NoDup (collapse l)
      /\ (forall l', (forall x, x ∈ l' <-> x ∈ l) ->
                     py_eq (VSet (collapse l)) (VSet l') = true)
  | Some OTuple => getattr self' variable = Ok (VTuple l)
  | _ => getattr self' variable = Ok (VList l)
  end.
Proof.
  intros Hback Hwf Hraw Hann Hatoms Hparse.
  destruct (backend_parse self args known_only) as [[ns s0]|] eqn:Hb; [|done].
  injection Hback as ->.
  destruct (parse_args_default_hook _ _ _ _ _ _ Hb Hparse) as (s1 & Hbind & ->).
  apply backend_parse_same in Hb as (Hcls0 & Hann0 & _).
  apply bind_namespace_spec in Hbind as (Hcls & _ & _ & Hin); [|done].
  apply DictFacts.get_Some_item in Hraw.
  destruct (Hin _ _ Hraw) as (Hp & v & Hv & Hget).
  rewrite <- Hcls in Hp. pose proof (getattr_bound _ _ _ Hp Hget) as Hread.
  rewrite getattr_with_parsed.
  unfold convert in Hv. rewrite Hann0, Hann in Hv.
  destruct (get_origin annotation) as [[]|]; simpl in Hv.
  - by injection Hv as <-.
  - unfold py_set in Hv. simpl in Hv. rewrite atom_hashable in Hv by done.
    injection Hv as <-. split; [done|]. split; [by apply collapse_NoDup|].
    intros l' Hsame. by apply py_eq_set_same_elements.
  - by injection Hv as <-.
  - by injection Hv as <-.
  - by injection Hv as <-.
Qed.

(** ** Export followed by import *)
Section round_trip_facts.
Context `{Classes} `{Utils} `{Backend}.
Implicit Types (self fresh : Tap) (d record : Dict.t value).

Lemma set_absent {V : Type} (d : Dict.t V) (k : string) (v : V) :
  k ∉ Dict.keys d -> Dict.set d k v = d ++ [(k, v)].
Proof.
  induction d as [|[k' v'] d IH]; simpl; [done|].
  intros [Hne Hk]%not_elem_of_cons.
  rewrite decide_False by done. by rewrite IH.
Qed.

Lemma bind_all_other (c : class) (items : list (string * value))
    (a : Dict.t value) (k : string) :
  k ∉ map fst items -> Dict.get (bind_all c items a) k = Dict.get a k.
Proof.
  unfold bind_all. revert a.
  induction items as [|[k0 v0] items IH]; intros a; simpl; [done|].
  intros [Hne Hk]%not_elem_of_cons. rewrite IH by done.
  destruct (is_property _); [done|]. by apply DictFacts.get_set_ne.
Qed.

Lemma bind_all_get (c : class) (items : list (string * value))
    (a : Dict.t value) (k : string) (v : value) :
  NoDup (map fst items) -> (k, v) ∈ items ->
  is_property (class_getattr c k) = false ->
  Dict.get (bind_all c items a) k = Some v.
Proof.
  revert a. induction items as [|[k0 v0] items IH]; intros a Hnd Hin Hp.
  - by apply elem_of_nil in Hin.
  - simpl in Hnd. apply NoDup_cons in Hnd as [Hk0 Hnd].
    apply elem_of_cons in Hin as [Heq|Hin].
    + injection Heq as -> ->.
      change (bind_all c ((k0, v0) :: items) a)
        with (bind_all c items
                (if is_property (class_getattr c k0) then a else Dict.set a k0 v0)).
      rewrite bind_all_other by done. rewrite Hp. apply DictFacts.get_set_eq.
    + change (bind_all c ((k0, v0) :: items) a)
        with (bind_all c items
                (if is_property (class_getattr c k0) then a else Dict.set a k0 v0)).
      by apply IH.
Qed.

(** What [as_dict] returns: the names of the arguments, each with the
    value that [getattr] reads. *)
Lemma as_dict_Ok self d :
  as_dict self = Ok d ->
  _parsed self = true
  /\ exists names,
       _get_argument_names self = Ok names
       /\ Dict.keys d = names
       /\ NoDup names
       /\ Forall (fun item => getattr self (fst item) = Ok (snd item)) d.
Proof.
  unfold as_dict. destruct (_parsed self); [|done]. simpl.
  unfold mbind at 1, result_bind at 1.
  destruct (_get_argument_names self) as [names|] eqn:Hnames; [|done].
  intros Hm. split; [done|]. exists names. split; [done|].
  apply mapM_Ok in Hm.
  assert (Hnd : NoDup names).
  { unfold _get_argument_names, mbind, result_bind in Hnames.
    destruct (_get_class_dict (cls self)); [|done].
    injection Hnames as <-. apply NoDup_remove_dups. }
  split; [|split; [done|]].
  - clear Hnd Hnames. induction Hm as [|n [k v] names d Hn _ IH]; [done|].
    simpl. unfold mbind, result_bind in Hn.
    destruct (getattr self n); [|done]. injection Hn as <- _.
    by rewrite <- IH.
  - clear Hnd Hnames. induction Hm as [|n [k v] names d Hn _ IH]; constructor; [|done].
    unfold mbind, result_bind in Hn. simpl.
    destruct (getattr self n) eqn:Hg; [|done]. by injection Hn as <- <-.
Qed.

Lemma as_dict_of_reads self names d :
  _parsed self = true ->
  _get_argument_names self = Ok names ->
  Dict.keys d = names ->
  Forall (fun item => getattr self (fst item) = Ok (snd item)) d ->
  as_dict self = Ok d.
Proof.
  intros Hp Hnames Hkeys Hreads. unfold as_dict. rewrite Hp. simpl.
  unfold mbind at 1, result_bind at 1. rewrite Hnames.
  apply Forall2_mapM_Ok. subst names. clear Hnames.
  induction Hreads as [|[k v] d Hkv _ IH]; simpl; constructor; [|done].
  simpl in Hkv. unfold mbind, result_bind. by rewrite Hkv.
Qed.

Lemma annotations_are_arguments self names a :
  _get_argument_names self = Ok names ->
  a ∈ Dict.keys (_annotations self) -> a ∈ names.
Proof.
  unfold _get_argument_names, mbind, result_bind.
  destruct (_get_class_dict (cls self)); [|done].
  intros [= <-] Ha. apply elem_of_remove_dups, elem_of_app. by right.
Qed.

Lemma argument_names_same self fresh :
  cls fresh = cls self -> _annotations fresh = _annotations self ->
  _get_argument_names fresh = _get_argument_names self.
Proof. unfold _get_argument_names. by intros -> ->. Qed.

(** Reading an attribute that the import has bound, or that is a
    property of the class, on the instance that was imported into. *)
Lemma getattr_after_import self fresh record k v :
  cls fresh = cls self ->
  NoDup (map fst record) -> (k, v) ∈ record ->
  getattr self k = Ok v ->
  getattr (with_parsed
             (with_attrs fresh (bind_all (cls fresh) (Dict.items record) (attrs fresh)))
             true) k = Ok v.
Proof.
  intros Hcls Hnd Hin Hread. rewrite getattr_with_parsed.
  destruct (is_property (class_getattr (cls self) k)) eqn:Hp.
  - unfold getattr in *. simpl. rewrite Hcls.
    by destruct (class_getattr (cls self) k) as [[]|].
  - apply getattr_bound; simpl; [by rewrite Hcls|].
    apply bind_all_get; [done..|by rewrite Hcls].
Qed.
End round_trip_facts.

(** C8, as the spec states it, fails: for
    [class Args(Tap): reproducibility: str = 'a'], parsed with no token,
    the exported record holds the provenance block under the key
    [reproducibility], in place of the value of the field; imported into a
    new instance of the class, the field reads as the provenance block and
    not as ['a']. *)
Lemma C8_counterexample_field_named_reproducibility :
  match Examples.run (Examples.single "reproducibility" TStr (Some (VStr "a"))) false [] with
  | Ok self =>
      Examples.read (Examples.single "reproducibility" TStr (Some (VStr "a")))
        self "reproducibility" = Ok (VStr "a")
      /\ match Examples.log_all (Examples.single "reproducibility" TStr (Some (VStr "a")))
                 Examples.somewhere self with
         | Ok record =>
             match get_reproducibility_info Examples.somewhere with
             | Ok block =>
                 Examples.read (Examples.single "reproducibility" TStr (Some (VStr "a")))
                   (snd (Examples.import
                           (Examples.single "reproducibility" TStr (Some (VStr "a")))
                           record
                           (Examples.constructed
                              (Examples.single "reproducibility" TStr (Some (VStr "a")))
                              false)))
                   "reproducibility"
                 = Ok (VDict block)
                 /\ VDict block <> VStr "a"
             | Raise _ => False
             end
         | Raise _ => False
         end
  | Raise _ => False
  end.
Proof. vm_compute. repeat split. discriminate. Qed.

(** C8, amended: for an instance whose export succeeds ([as_dict] returns
    a record, which takes a parsed instance every argument name of which
    reads a value, and [_log_all] returns the record with the provenance
    block) and none of whose argument names is [reproducibility], the key
    under which [_log_all] stores the provenance block, the record of
    [_log_all] imported by [from_dict] into an instance of the same class
    (a new, unparsed one among them) is accepted, and afterwards every
    field reads as the value that was exported: the export of the second
    instance is the export of the first. The provenance block is not
    compared. *)
Theorem C8_export_import_round_trip
    `{Classes} `{Utils} `{Backend} (env : environment) (self fresh : Tap)
    (d record : Dict.t value) :
  as_dict self = Ok d ->
  _log_all env self = Ok record ->
  "reproducibility" ∉ Dict.keys d ->
  Dict.wf (_annotations self) ->
  cls fresh = cls self ->
  _annotations fresh = _annotations self ->
  exists warned fresh',
    from_dict record fresh = (Ok warned, fresh')
    /\ (forall var v, Dict.get d var = Some v -> getattr fresh' var = Ok v)
    /\ as_dict fresh' = Ok d.
Proof.
  intros Hd Hlog Hfree Hwf Hcls Hann.
  destruct (as_dict_Ok _ _ Hd) as (Hp & names & Hnames & Hkeys & Hnd & Hreads).
  unfold _log_all, mbind, result_bind in Hlog. rewrite Hd in Hlog.
  destruct (get_reproducibility_info env) as [info|]; [|done].
  rewrite set_absent in Hlog by done. injection Hlog as <-.
  set (block := VDict info).
  assert (Hcovered : Forall (fun a => a ∈ Dict.keys (d ++ [("reproducibility", block)]))
                            (required_args fresh)).
  { apply Forall_forall. intros a Ha.
    apply list_elem_of_filter in Ha as [_ Ha]. rewrite Hann in Ha.
    unfold Dict.keys. rewrite map_app. apply elem_of_app. left.
    fold (Dict.keys d). rewrite Hkeys.
    by eapply annotations_are_arguments. }
  assert (Hwf' : Dict.wf (_annotations fresh)) by (by rewrite Hann).
  destruct (from_dict_covered _ _ Hwf' Hcovered) as [warned Himport].
  assert (Hnodup : NoDup (map fst (d ++ [("reproducibility", block)]))).
  { rewrite map_app. simpl. apply NoDup_app. fold (Dict.keys d).
    split; [by rewrite Hkeys|]. split; [|apply NoDup_singleton].
    intros x Hx ->%list_elem_of_singleton. done. }
  assert (Hread : forall k v, (k, v) ∈ d ->
    getattr (with_parsed
               (with_attrs fresh
                  (bind_all (cls fresh)
                     (Dict.items (d ++ [("reproducibility", block)])) (attrs fresh)))
               true) k = Ok v).
  { intros k v Hin. apply (getattr_after_import self); [done|done| |].
    - apply elem_of_app. by left.
    - by apply (proj1 (Forall_forall _ _) Hreads (k, v)). }
  eexists warned, _. split; [done|]. split.
  - intros var v Hv. apply Hread. by apply DictFacts.get_Some_item.
  - apply (as_dict_of_reads _ names); [done| |done|].
    + rewrite <- Hnames. by apply argument_names_same.
    + apply Forall_forall. intros [k v] Hin. by apply Hread.
Qed.

(** ** Construction *)
Section construction_facts.
Context `{Classes} `{Utils} `{Backend}.
Implicit Types (self : Tap).

(** The merged table repeats no key. *)
Lemma merged_wf {V : Type} (extract_func : class -> result (Dict.t V)) (c : class)
    (d : Dict.t V) :
  _get_from_self_and_super extract_func c = Ok d -> Dict.wf d.
Proof.
  unfold _get_from_self_and_super.
  destruct (traverse extract_func c) as [[st [e|]]|] eqn:Hrun; try done.
  intros [= <-]. by apply traverse_inv in Hrun as [[] _].
Qed.

Lemma seq_keeps (m : M unit) (f : unit -> M unit) :
  keeps_fields m -> (forall u, keeps_fields (f u)) -> keeps_fields (seq m f).
Proof.
  intros Hm Hf self r self'. unfold seq.
  destruct (m self) as [[u|e] s1] eqn:Hfirst.
  - intros Hnext. apply Hm in Hfirst as (<- & <- & <- & <- & <-).
    by apply Hf in Hnext.
  - intros [= <- <-]. by apply Hm in Hfirst.
Qed.

Lemma for_each_keeps {A : Type} (l : list A) (body : A -> M unit) :
  (forall x, keeps_fields (body x)) -> keeps_fields (for_each l body).
Proof.
  intros Hbody. induction l as [|x l IH]; simpl.
  - intros self r self'. unfold ret. by intros [= <- <-].
  - apply seq_keeps; [apply Hbody|]. by intros _.
Qed.

Lemma add_argument_keeps name_or_flags kwargs :
  keeps_fields (add_argument name_or_flags kwargs).
Proof. intros self r self'. unfold add_argument. by intros [= <- <-]. Qed.

Lemma _add_argument_keeps name_or_flags kwargs :
  keeps_fields (_add_argument name_or_flags kwargs).
Proof.
  intros self r self'. unfold _add_argument.
  destruct (_add_argument_kwargs self name_or_flags kwargs) as [k|];
    [destruct (parser_add_argument (super self) name_or_flags k)|];
    by intros [= <- <-].
Qed.

Lemma _add_arguments_keeps : keeps_fields _add_arguments.
Proof.
  intros self r self'. unfold _add_arguments.
  apply seq_keeps.
  - apply for_each_keeps. intros variable s r1 s1. apply _add_argument_keeps.
  - intros _ s r1 s1. apply for_each_keeps. intros entry s2 r2 s3.
    destruct (Dict.contains (class_variables s2) entry.1).
    + by intros [= <- <-].
    + apply _add_argument_keeps.
Qed.

(** The instance on which the constructor registers the arguments is
    unparsed, has the attributes that the constructors bind and no other,
    and holds the merged annotations of its class, without repetition;
    so has the instance that the constructor returns. *)
Lemma before_registration_fresh (c : class) (dashes explicit : bool) (hook : M unit)
    self :
  keeps_fields hook ->
  before_registration c dashes explicit hook = Ok self ->
  cls self = c /\ _parsed self = false
  /\ attrs self = constructor_attributes dashes explicit
  /\ _get_annotations c = Ok (_annotations self)
  /\ Dict.wf (_annotations self).
Proof.
  intros Hhook. unfold before_registration, mbind, result_bind.
  destruct (_get_class_variables c) as [vars|]; [|done].
  destruct (_get_annotations c) as [annotations|] eqn:Hann; [|done].
  match goal with
  | |- context [seq ?m ?f ?s] =>
      destruct (seq m f s) as [[u|e] s1] eqn:Hsetup; [|done];
      assert (Hk1 : keeps_fields (seq m f))
  end.
  { apply seq_keeps; [|by intros _].
    apply for_each_keeps. intros x. apply add_argument_keeps. }
  apply Hk1 in Hsetup as (Hc1 & Hp1 & Ha1 & Hn1 & _).
  cbn [cls _parsed attrs _annotations] in *.
  intros [= <-]. rewrite Hc1, Hp1, Ha1, Hn1. repeat split; try done.
  by apply merged_wf in Hann.
Qed.

Lemma init_fresh (c : class) (dashes explicit : bool) (hook : M unit) self :
  keeps_fields hook ->
  __init__ c dashes explicit hook = Ok self ->
  cls self = c /\ _parsed self = false
  /\ attrs self = constructor_attributes dashes explicit
  /\ _get_annotations c = Ok (_annotations self)
  /\ Dict.wf (_annotations self).
Proof.
  intros Hhook. unfold __init__, mbind, result_bind.
  destruct (before_registration c dashes explicit hook) as [s1|] eqn:Hbefore; [|done].
  apply (before_registration_fresh _ _ _ _ _ Hhook) in Hbefore
    as (Hc1 & Hp1 & Ha1 & Hn1 & Hwf).
  destruct (_add_arguments s1) as [[u2|e] s2] eqn:Hreg; [|done].
  intros [= <-].
  apply _add_arguments_keeps in Hreg as (-> & -> & -> & -> & _). done.
Qed.

(** A loop raises when one of its iterations cannot but raise. *)
Lemma for_each_raises {A : Type} (l : list A) (body : A -> M unit)
    (P : Tap -> Prop) (x : A) self :
  x ∈ l -> P self ->
  (forall y s r s', body y s = (r, s') -> P s -> P s') ->
  (forall s, P s -> exists e s', body x s = (Raise e, s')) ->
  exists e self', for_each l body self = (Raise e, self').
Proof.
  intros Hx HP Hkeep Hraise. revert self HP.
  induction l as [|y l IH]; intros self HP; [by apply elem_of_nil in Hx|].
  simpl. unfold seq. apply elem_of_cons in Hx as [<-|Hx].
  - destruct (Hraise self HP) as (e & s' & ->). eauto.
  - destruct (body y self) as [[u|e] s1] eqn:Hy; [|eauto].
    apply (IH Hx). by eapply Hkeep.
Qed.

(** The constructor fails when the registration of a class variable cannot
    but raise. *)
Lemma construction_fails_on_unsupported_field (c : class) (dashes explicit : bool)
    (hook : M unit) self (variable : string) (var_type : ann) :
  before_registration c dashes explicit hook = Ok self ->
  variable ∈ Dict.keys (class_variables self) ->
  get_dest (registration self variable).1 (registration self variable).2 = variable ->
  kw_type (registration self variable).2 = None ->
  Dict.get (_annotations self) variable = Some var_type ->
  matches_no_shape var_type ->
  ann_in var_type SUPPORTED_DEFAULT_TYPES = false ->
  exists e, __init__ c dashes explicit hook = Raise e.
Proof.
  intros Hbefore Hvar Hdest Htype Hann Hshape Hsup.
  unfold __init__, mbind, result_bind. rewrite Hbefore.
  assert (exists e s', _add_arguments self = (Raise e, s')) as (e & s' & ->);
    [|eauto].
  unfold _add_arguments, seq.
  match goal with
  | |- context [for_each ?l ?body self] =>
      destruct (for_each_raises l body
                  (fun s => exists p, s = with_super self p) variable self)
        as (e & s' & ->); [done| | | |eauto]
  end.
  - exists (super self). by destruct self.
  - intros y s r s1 Hy [p ->].
    unfold _add_argument in Hy.
    match type of Hy with
    | context [_add_argument_kwargs ?s ?nf ?kw] =>
        destruct (_add_argument_kwargs s nf kw) as [k|];
        [destruct (parser_add_argument _ nf k)|]
    end; injection Hy as <- <-; eauto.
  - intros s [p ->].
    change (registration (with_super self p) variable)
      with (registration self variable).
    unfold _add_argument.
    rewrite (add_argument_unsupported _ _ _ var_type); simpl; try done.
    + match goal with
      | |- context [raise_unsupported ?s ?v ?t ?k] =>
          destruct (raise_unsupported_raises (A:=keywords) s v t k) as [e ->]
      end. eauto.
    + by rewrite Hdest.
Qed.
End construction_facts.

(** C1, as the spec states it, fails: for [class Args(Tap): x: Optional[int]]
    the field has an optional shape and no default, and the argument is
    registered with [required=True]; parsing no token fails with the usage
    error of the backend instead of binding [None]. *)
Lemma C1_counterexample_optional_is_required :
  match Examples.construct (Examples.single "x" (Optional_ TInt) None) false with
  | Ok self =>
      Dict.get (_annotations self) "x" = Some (TUnion [TInt; TNoneType])
      /\ ann_in (TUnion [TInt; TNoneType]) SUPPORTED_DEFAULT_OPTIONAL_TYPES = true
      /\ @hasattr (Examples.single "x" (Optional_ TInt) None) (argparse []) self "x"
         = false
      /\ (kw_required ∘ snd <$> super self) = [Some true; None]
      /\ Examples.field (Examples.single "x" (Optional_ TInt) None) false [] "x"
         = Raise (SystemExit "the following arguments are required")
  | Raise _ => False
  end.
Proof. vm_compute. repeat split. Qed.

(** A field whose name is that of an attribute that a constructor binds
    is not required, although the class gives it no default: for
    [class Args(Tap): description: str] the argument is registered with
    [required=False] and the default [None], the description of the
    parser. *)
Example field_named_as_constructor_attribute :
  match Examples.construct (Examples.single "description" TStr None) false with
  | Ok self =>
      (kw_required ∘ snd <$> super self) = [Some false; None]
      /\ (kw_default ∘ snd <$> super self) = [Some VNone; Some Argparse.SUPPRESS]
  | Raise _ => False
  end.
Proof. vm_compute. repeat split. Qed.

(** C1, amended: for a field registered under its flag (an option other
    than the help flag, with no [required=] given by the user), the
    synthesized argument is required if and only if [hasattr(self, name)]
    is false when the argument is registered, whatever the shape of the
    annotation: an optional or boolean field can be required too. The
    instance has the attribute when the class defines the name (a
    default) or when an attribute of that name is bound on the instance.
    On the instance on which the constructor registers the arguments the
    attributes bound are the ones that the constructors bind ([_parsed],
    [extra_args], [description], ...): there a field is required if and
    only if the class gives it no default and its name is none of these. *)
Theorem C1_required_iff_no_attribute
    `{Classes} `{Utils} `{Backend} (self : Tap) (name_or_flags : list string)
    (kwargs kwargs' : keywords) :
  is_option_arg name_or_flags = true ->
  get_dest name_or_flags kwargs <> "help" ->
  kw_required kwargs = None ->
  _add_argument_kwargs self name_or_flags kwargs = Ok kwargs' ->
  kw_required kwargs' = Some (negb (hasattr self (get_dest name_or_flags kwargs)))
  /\ (hasattr self (get_dest name_or_flags kwargs) = false
      <-> class_getattr (cls self) (get_dest name_or_flags kwargs) = None
          /\ Dict.get (attrs self) (get_dest name_or_flags kwargs) = None)
  /\ (forall c dashes explicit hook,
        keeps_fields hook ->
        before_registration c dashes explicit hook = Ok self ->
        kw_required kwargs' = Some true
        <-> class_getattr c (get_dest name_or_flags kwargs) = None
            /\ Dict.get (constructor_attributes dashes explicit)
                  (get_dest name_or_flags kwargs) = None).
Proof.
  intros Hopt Hne Hreq. unfold _add_argument_kwargs. intros Hk.
  assert (Hrequired : kw_required kwargs'
                      = Some (negb (hasattr self (get_dest name_or_flags kwargs)))).
  { apply from_annotation_keeps in Hk as [-> _].
    destruct (help_if_missing_keeps self (get_dest name_or_flags kwargs)
      (required_if_option self name_or_flags (get_dest name_or_flags kwargs)
         (default_from_class self (get_dest name_or_flags kwargs) kwargs))) as [-> _].
    rewrite required_if_option_flag by done.
    by rewrite default_from_class_required, Hreq. }
  pose proof (hasattr_false self (get_dest name_or_flags kwargs)) as Hhas.
  split; [done|]. split; [done|].
  intros c dashes explicit hook Hhook Hbefore.
  apply (before_registration_fresh _ _ _ _ _ Hhook) in Hbefore as (<- & _ & <- & _).
  rewrite <- Hhas, Hrequired.
  destruct (hasattr self (get_dest name_or_flags kwargs)); simpl; split; congruence.
Qed.


(** X25: for a destination whose annotation every test of the chain of
    shapes answers no to and that is not among the types supported by
    default, and for which no [type=] was given, the registration of the
    argument raises and nothing is registered with the backend, so there
    is no fall back to a default coercion. For an argument registered
    under a flag other than the help flag with no [required=], the
    exception is the [ValueError] that tells the caller to add the argument
    with an explicit [type=func], naming the variable, its type, and
    [required=True] or the default that reading the attribute gives. A
    constructor that comes to register such a class variable fails. *)
Theorem X25_unsupported_annotation_raises
    `{Classes} `{Utils} `{Backend} (self : Tap) (name_or_flags : list string)
    (kwargs : keywords) (var_type : ann) :
  Dict.get (_annotations self) (get_dest name_or_flags kwargs) = Some var_type ->
  matches_no_shape var_type ->
  ann_in var_type SUPPORTED_DEFAULT_TYPES = false ->
  kw_type kwargs = None ->
  (exists e, _add_argument name_or_flags kwargs self = (Raise e, self))
  /\ (is_option_arg name_or_flags = true ->
      get_dest name_or_flags kwargs <> "help" ->
      kw_required kwargs = None ->
      _add_argument name_or_flags kwargs self
      = (Raise (ValueError
                  (unsupported_type (get_dest name_or_flags kwargs) var_type
                     (match getattr self (get_dest name_or_flags kwargs) with
                      | Ok d => Some d
                      | Raise _ => None
                      end))), self))
  /\ (forall c dashes explicit hook,
        before_registration c dashes explicit hook = Ok self ->
        get_dest name_or_flags kwargs ∈ Dict.keys (class_variables self) ->
        registration self (get_dest name_or_flags kwargs) = (name_or_flags, kwargs) ->
        exists e, __init__ c dashes explicit hook = Raise e).
Proof.
  intros Hann Hshape Hsup Htype.
  set (variable := get_dest name_or_flags kwargs) in *.
  set (k3 := help_if_missing self variable
               (required_if_option self name_or_flags variable
                  (default_from_class self variable kwargs))).
  assert (Hk : _add_argument_kwargs self name_or_flags kwargs
               = raise_unsupported self variable var_type k3)
    by (by apply add_argument_unsupported).
  split; [|split].
  - unfold _add_argument. rewrite Hk.
    destruct (raise_unsupported_raises (A:=keywords) self variable var_type k3)
      as [e ->]. eauto.
  - intros Hopt Hne Hreq. unfold _add_argument. rewrite Hk.
    unfold raise_unsupported.
    assert (kw_required k3 = Some (negb (hasattr self variable))) as ->.
    { unfold k3.
      destruct (help_if_missing_keeps self variable
        (required_if_option self name_or_flags variable
           (default_from_class self variable kwargs))) as (-> & _).
      rewrite required_if_option_flag by done.
      by rewrite default_from_class_required, Hreq. }
    unfold hasattr. by destruct (getattr self variable).
  - intros c dashes explicit hook Hbefore Hvar Hreg.
    apply (construction_fails_on_unsupported_field c dashes explicit hook self
             variable var_type); try done; by rewrite Hreg.
Qed.


(** ** The example programs, evaluated *)

(** In the diamond the leaf wins over both parents and their common base,
    whichever parent comes first; [y] comes from the base. *)
Example merge_diamond :
  @_get_from_self_and_super (Examples.diamond ["Left"; "Right"]) _
    (@Examples.own_dict (Examples.diamond ["Left"; "Right"])) "Leaf"
  = Ok ([("x", attr_value (VInt 3)); ("y", attr_value (VStr "base"))]
        ++ Examples.Tap_methods)
  /\ @_get_from_self_and_super (Examples.diamond ["Right"; "Left"]) _
       (@Examples.own_dict (Examples.diamond ["Right"; "Left"])) "Leaf"
     = Ok ([("x", attr_value (VInt 3)); ("y", attr_value (VStr "base"))]
           ++ Examples.Tap_methods)
  /\ (calls ∘ fst <$> @traverse (Examples.diamond ["Left"; "Right"]) _
                        (@Examples.own_dict (Examples.diamond ["Left"; "Right"])) "Leaf")
     = Some ["Leaf"; "Left"; "Right"; "Base"; "Tap"].
Proof. vm_compute. repeat split. Qed.

(** Between two ancestors the one met first breadth-first wins, also when
    the resolution order of the class lists the other one first: for
    [class D(B, C)] with [B(E)] and [E(C)], the table of [D] takes [x] from
    [C], which the traversal meets before [E]. *)
Example merge_uneven :
  (calls ∘ fst <$> @traverse Examples.uneven _ (@Examples.own_dict Examples.uneven) "D")
  = Some ["D"; "B"; "C"; "E"; "Tap"]
  /\ @mro Examples.uneven "D" = ["D"; "B"; "E"; "C"; "Tap"; "ArgumentParser"; "object"]
  /\ (fun d => Dict.get d "x")
       <$> @_get_from_self_and_super Examples.uneven _
             (@Examples.own_dict Examples.uneven) "D"
     = Ok (Some (attr_value (VStr "C"))).
Proof. vm_compute. repeat split. Qed.

(** C2: the code does not do what the claim, and the docstring of
    [_get_from_self_and_super] (if super class and sub class have the
    same key, the sub class value is used), say. For [class C(Tap): x =
    'C'], [class E(C): x = 'E'], [class B(E): pass] and [class D(B, C):
    pass], the name [x] is declared by [E] and by its ancestor [C], both
    ancestors of [D]; the traversal from [D] meets [C], a direct base of
    [D], before [E], a base of [B], and the table merged for [D], as
    [_get_class_dict] gives it at construction, maps [x] to the
    declaration of the ancestor [C] and not to the one of the subclass
    [E]. *)
Theorem C2_ancestor_met_first_overrides_subclass :
  @issubclass Examples.uneven "E" "C" = true
  /\ @issubclass Examples.uneven "D" "E" = true
  /\ @issubclass Examples.uneven "D" "C" = true
  /\ Dict.get (@class_dict Examples.uneven "E") "x" = Some (attr_value (VStr "E"))
  /\ Dict.get (@class_dict Examples.uneven "C") "x" = Some (attr_value (VStr "C"))
  /\ (calls ∘ fst
        <$> @traverse Examples.uneven _ (@Examples.own_dict Examples.uneven) "D")
     = Some ["D"; "B"; "C"; "E"; "Tap"]
  /\ (fun d => Dict.get d "x") <$> @_get_class_dict Examples.uneven "D"
     = Ok (Some (attr_value (VStr "C")))
  /\ attr_value (VStr "C") <> attr_value (VStr "E")
  /\ match Examples.construct Examples.uneven_commented false with
     | Ok self =>
         class_variables self = [("x", "the x of C")]
         /\ Examples.read Examples.uneven_commented self "x" = Ok (VStr "E")
         /\ (kw_help ∘ snd <$> super self)
            = [Some (HelpSynth (Some TStr) (Some (VStr "E")) (Some "the x of C"));
               Some (HelpGiven "show this help message and exit")]
     | Raise _ => False
     end.
Proof. vm_compute. repeat split. discriminate. Qed.

(** [List[int]] keeps the order of the tokens, [Set[int]] gives a set that
    is equal to [{3, 2, 1}], [Tuple[int, str]] gives a pair and rejects a
    single token. *)
Example C5_examples_list_and_set :
  Examples.field (Examples.single "x" (TList [TInt]) None) false
    ["--x"; "1"; "2"; "3"] "x" = Ok (VList [VInt 1; VInt 2; VInt 3])
  /\ Examples.field (Examples.single "x" (TSet [TInt]) None) false
       ["--x"; "1"; "2"; "3"] "x" = Ok (VSet [VInt 1; VInt 2; VInt 3])
  /\ py_eq (VSet [VInt 1; VInt 2; VInt 3]) (VSet [VInt 3; VInt 2; VInt 1]) = true
  /\ Examples.field (Examples.single "x" (TTuple [TInt; TStr]) None) false
       ["--x"; "5"; "x"] "x" = Ok (VTuple [VInt 5; VStr "x"])
  /\ Examples.field (Examples.single "x" (TTuple [TInt; TStr]) None) false
       ["--x"; "5"] "x" = Raise (SystemExit "expected more arguments").
Proof. vm_compute. repeat split. Qed.

(** [class Args(Tap): flag: bool = True], with and without
    [explicit_bool]. *)
Example boolean_flag_runs :
  Examples.field (Examples.single "flag" TBool (Some (VBool true))) false
    ["--flag"] "flag" = Ok (VBool false)
  /\ Examples.field (Examples.single "flag" TBool (Some (VBool true))) false
       [] "flag" = Ok (VBool true)
  /\ Examples.field (Examples.single "flag" TBool (Some (VBool true))) true
       ["--flag"; "false"] "flag" = Ok (VBool false)
  /\ Examples.field (Examples.single "flag" TBool (Some (VBool true))) true
       ["--flag"; "False"] "flag" = Ok (VBool false)
  /\ Examples.field (Examples.single "flag" TBool (Some (VBool true))) true
       ["--flag"; "no"] "flag" = Raise (SystemExit "invalid value")
  /\ Examples.field (Examples.single "flag" TBool (Some (VBool true))) true
       [] "flag" = Ok (VBool true)
  /\ Examples.field (Examples.single "flag" TBool (Some (VBool false))) false
       ["--flag"] "flag" = Ok (VBool true).
Proof. vm_compute. repeat split. Qed.

(** C7: the code does not do what the claim says for every annotation
    that matches none of the supported shapes. For
    [class Args(Tap): x: Union[int, List[str]]], with no [type=] given,
    the annotation is not among the types supported by default, and the
    test for an optional literal evaluates [isinstance(None, List[str])],
    which raises [TypeError]: the construction fails with this
    [TypeError], which carries no instruction, and never reaches the
    [ValueError] of the unsupported type that tells the caller to pass
    [type=func]. *)
Theorem C7_union_with_generic_raises_TypeError :
  ann_in (TUnion [TInt; TList [TStr]]) SUPPORTED_DEFAULT_TYPES = false
  /\ is_literal_type (TUnion [TInt; TList [TStr]]) = false
  /\ is_boxed_literal (TUnion [TInt; TList [TStr]]) = Ok false
  /\ is_parametrized_tuple (TUnion [TInt; TList [TStr]]) = false
  /\ is_optional_literal (TUnion [TInt; TList [TStr]])
     = Raise (TypeError "cannot be used with class and instance checks")
  /\ (fun _ => tt)
       <$> Examples.construct (Examples.single "x" (TUnion [TInt; TList [TStr]]) None)
             false
     = Raise (TypeError "cannot be used with class and instance checks")
  /\ (forall hint,
        TypeError "cannot be used with class and instance checks"
        <> ValueError (unsupported_type "x" (TUnion [TInt; TList [TStr]]) hint)).
Proof. vm_compute. repeat split. discriminate. Qed.

(** The export of a parsed instance fails when a helper about git does:
    [has_git] answers yes and asking for the root of the repository
    raises. *)
Example export_fails_with_git :
  Examples.log_all (Examples.single "x" TInt (Some (VInt 5))) Examples.broken_git
    (Examples.parsed (Examples.single "x" TInt (Some (VInt 5))) false ["--x"; "7"])
  = Raise (Exception "CalledProcessError")
  /\ Examples.export (Examples.single "x" TInt (Some (VInt 5)))
       (Examples.parsed (Examples.single "x" TInt (Some (VInt 5))) false ["--x"; "7"])
     = Ok [("x", VInt 7)].
Proof. vm_compute. repeat split. Qed.

(** [class Args(Tap): x: Path] cannot be constructed, and neither can
    [class Args(Tap): x: Tuple[()]]. *)
Example unsupported_construction :
  is_ok (Examples.construct (Examples.single "x" (TClass "Path") None) false) = false
  /\ (fun _ => tt) <$> Examples.construct (Examples.single "x" (TClass "Path") None) false
     = Raise (ValueError (unsupported_type "x" (TClass "Path") None))
  /\ (fun _ => tt)
       <$> Examples.construct (Examples.single "x" (TClass "Path") (Some (VObject "Path('.')")))
             false
     = Raise (ValueError (unsupported_type "x" (TClass "Path") (Some (VObject "Path('.')"))))
  /\ (fun _ => tt)
       <$> Examples.construct (Examples.single "x" (TTuple [TEmptyTuple]) None) false
     = Raise (ValueError empty_tuple).
Proof. vm_compute. repeat split. Qed.

(** ** The theorems at work on the example programs *)

(** C1 on [class Args(Tap): x: Optional[int]]. *)
Lemma C1_witness_optional_int :
  kw_required
    {| kw_default := None; kw_required := Some true;
       kw_help := Some (HelpSynth (Some (TUnion [TInt; TNoneType])) None (Some ""));
       kw_type := Some (CType TInt); kw_choices := None; kw_nargs := None;
       kw_action := None; kw_dest := None |}
  = Some (negb (@hasattr (Examples.single "x" (Optional_ TInt) None) (argparse [])
                  (Examples.declared (Examples.single "x" (Optional_ TInt) None) false)
                  (@get_dest tap_utils ["--x"] no_kwargs)))
  /\ (kw_required
        {| kw_default := None; kw_required := Some true;
           kw_help := Some (HelpSynth (Some (TUnion [TInt; TNoneType])) None (Some ""));
           kw_type := Some (CType TInt); kw_choices := None; kw_nargs := None;
           kw_action := None; kw_dest := None |}
      = Some true
      <-> @class_getattr (Examples.single "x" (Optional_ TInt) None) "Args"
            (@get_dest tap_utils ["--x"] no_kwargs) = None
          /\ Dict.get (@constructor_attributes (argparse []) false false)
                (@get_dest tap_utils ["--x"] no_kwargs) = None).
Proof.
  destruct (@C1_required_iff_no_attribute (Examples.single "x" (Optional_ TInt) None)
              tap_utils (argparse [])
              (Examples.declared (Examples.single "x" (Optional_ TInt) None) false)
              ["--x"] no_kwargs
              {| kw_default := None; kw_required := Some true;
                 kw_help := Some (HelpSynth (Some (TUnion [TInt; TNoneType])) None
                                    (Some ""));
                 kw_type := Some (CType TInt); kw_choices := None; kw_nargs := None;
                 kw_action := None; kw_dest := None |})
    as (Hrequired & _ & Hconstructor).
  - reflexivity.
  - vm_compute. discriminate.
  - reflexivity.
  - vm_compute. reflexivity.
  - split; [exact Hrequired|].
    apply (Hconstructor "Args" false false (@add_arguments (argparse []))).
    + intros s r s'. unfold add_arguments, ret. intros [= <- <-]. repeat split.
    + assert (Hok : is_ok (@before_registration
                             (Examples.single "x" (Optional_ TInt) None) tap_utils
                             (argparse []) "Args" false false
                             (@add_arguments (argparse []))) = true)
        by (vm_compute; reflexivity).
      unfold Examples.declared.
      by destruct (before_registration _ _ _ _).
Defined.

(** C4 on three required fields and a record that lacks the third. *)
Lemma C4_witness_three_required :
  (~ Forall (fun a => a ∈ Dict.keys [("a", VInt 1); ("b", VStr "x")])
       (Examples.required Examples.three (Examples.constructed Examples.three false)) ->
   Examples.import Examples.three [("a", VInt 1); ("b", VStr "x")]
     (Examples.constructed Examples.three false)
   = (Raise (ValueError
               (missing_required [("a", VInt 1); ("b", VStr "x")]
                  (Examples.required Examples.three
                     (Examples.constructed Examples.three false)))),
      Examples.constructed Examples.three false))
  /\ (Forall (fun a => a ∈ Dict.keys [("a", VInt 1); ("b", VStr "x")])
        (Examples.required Examples.three (Examples.constructed Examples.three false)) ->
      exists warned self',
        Examples.import Examples.three [("a", VInt 1); ("b", VStr "x")]
          (Examples.constructed Examples.three false) = (Ok warned, self')
        /\ _parsed self' = true).
Proof.
  apply (@C4_from_dict_checks_required_fields Examples.three tap_utils (argparse [])
           (Examples.constructed Examples.three false)
           [("a", VInt 1); ("b", VStr "x")]).
  apply (bool_decide_unpack _). vm_compute. exact I.
Defined.

(** C9 on the same instance and record. *)
Lemma C9_witness_missing_field :
  exists e,
    Examples.import Examples.three [("a", VInt 1); ("b", VStr "x")]
      (Examples.constructed Examples.three false)
    = (Raise e, Examples.constructed Examples.three false)
    /\ attrs (snd (Examples.import Examples.three [("a", VInt 1); ("b", VStr "x")]
                     (Examples.constructed Examples.three false)))
       = attrs (Examples.constructed Examples.three false)
    /\ _parsed (snd (Examples.import Examples.three [("a", VInt 1); ("b", VStr "x")]
                       (Examples.constructed Examples.three false)))
       = _parsed (Examples.constructed Examples.three false)
    /\ Examples.export Examples.three
         (snd (Examples.import Examples.three [("a", VInt 1); ("b", VStr "x")]
                 (Examples.constructed Examples.three false)))
       = Examples.export Examples.three (Examples.constructed Examples.three false).
Proof.
  apply (@C9_from_dict_failure_leaves_instance Examples.three tap_utils (argparse [])
           (Examples.constructed Examples.three false)
           [("a", VInt 1); ("b", VStr "x")]).
  apply (bool_decide_unpack _). vm_compute. exact I.
Defined.

(** X25 on [class Args(Tap): x: Path]. *)
Lemma X25_witness_path_field :
  (exists e,
     @_add_argument (Examples.single "x" (TClass "Path") None) tap_utils (argparse [])
       ["--x"] no_kwargs (Examples.declared (Examples.single "x" (TClass "Path") None) false)
     = (Raise e, Examples.declared (Examples.single "x" (TClass "Path") None) false))
  /\ @_add_argument (Examples.single "x" (TClass "Path") None) tap_utils (argparse [])
       ["--x"] no_kwargs (Examples.declared (Examples.single "x" (TClass "Path") None) false)
     = (Raise (ValueError (unsupported_type "x" (TClass "Path") None)),
        Examples.declared (Examples.single "x" (TClass "Path") None) false)
  /\ exists e,
       @__init__ (Examples.single "x" (TClass "Path") None) tap_utils (argparse [])
         "Args" false false (@add_arguments (argparse [])) = Raise e.
Proof.
  destruct (@X25_unsupported_annotation_raises (Examples.single "x" (TClass "Path") None)
              tap_utils (argparse [])
              (Examples.declared (Examples.single "x" (TClass "Path") None) false)
              ["--x"] no_kwargs (TClass "Path")) as (Hraises & Hmessage & Hinit).
  - vm_compute. reflexivity.
  - repeat split.
  - reflexivity.
  - reflexivity.
  - split; [exact Hraises|]. split.
    + apply Hmessage; [reflexivity|vm_compute; discriminate|reflexivity].
    + apply (Hinit "Args" false false (@add_arguments (argparse []))).
      * assert (Hok : is_ok (@before_registration
                               (Examples.single "x" (TClass "Path") None) tap_utils
                               (argparse []) "Args" false false
                               (@add_arguments (argparse []))) = true)
          by (vm_compute; reflexivity).
        unfold Examples.declared.
        by destruct (before_registration _ _ _ _).
      * apply (bool_decide_unpack _). vm_compute. exact I.
      * vm_compute. reflexivity.
Defined.


(** C5 on [class Args(Tap): x: Set[int]] and the tokens [--x 1 2 3 1]. *)
Lemma C5_witness_set_of_int :
  @getattr (Examples.single "x" (TSet [TInt]) None) (argparse [])
    (snd (Examples.parse (Examples.single "x" (TSet [TInt]) None) false
            ["--x"; "1"; "2"; "3"; "1"])) "x"
  = Ok (VSet (collapse [VInt 1; VInt 2; VInt 3; VInt 1]))
  /\ NoDup (collapse [VInt 1; VInt 2; VInt 3; VInt 1])
  /\ (forall l',
        (forall x, x ∈ l' <-> x ∈ [VInt 1; VInt 2; VInt 3; VInt 1]) ->
        py_eq (VSet (collapse [VInt 1; VInt 2; VInt 3; VInt 1])) (VSet l') = true).
Proof.
  apply (@C5_sequence_to_declared_container
           (Examples.single "x" (TSet [TInt]) None) tap_utils (argparse [])
           (Examples.constructed (Examples.single "x" (TSet [TInt]) None) false)
           (snd (Examples.parse (Examples.single "x" (TSet [TInt]) None) false
                   ["--x"; "1"; "2"; "3"; "1"]))
           (Some ["--x"; "1"; "2"; "3"; "1"]) false
           [("x", VList [VInt 1; VInt 2; VInt 3; VInt 1])]
           "x" (TSet [TInt]) [VInt 1; VInt 2; VInt 3; VInt 1]).
  - vm_compute. reflexivity.
  - apply (bool_decide_unpack _). vm_compute. exact I.
  - reflexivity.
  - vm_compute. reflexivity.
  - repeat constructor.
  - assert (Hfst : fst (Examples.parse (Examples.single "x" (TSet [TInt]) None) false
                          ["--x"; "1"; "2"; "3"; "1"]) = Ok tt)
      by (vm_compute; reflexivity).
    unfold Examples.parse in *.
    destruct (parse_args _ _ _ _) as [r s]. simpl in Hfst. by rewrite Hfst.
Defined.

(** C8 on [class Args(Tap): x: int = 5], parsed with [--x 7]. *)
Lemma C8_witness_int_field :
  exists warned fresh',
    Examples.import (Examples.single "x" TInt (Some (VInt 5)))
      [("x", VInt 7);
       ("reproducibility",
        VDict [("command_line", VStr "python main.py");
               ("time", VStr "Wed Nov  4 12:00:00 2026")])]
      (Examples.constructed (Examples.single "x" TInt (Some (VInt 5))) false)
    = (Ok warned, fresh')
    /\ (forall var v,
          Dict.get [("x", VInt 7)] var = Some v ->
          Examples.read (Examples.single "x" TInt (Some (VInt 5))) fresh' var = Ok v)
    /\ Examples.export (Examples.single "x" TInt (Some (VInt 5))) fresh'
       = Ok [("x", VInt 7)].
Proof.
  apply (@C8_export_import_round_trip
           (Examples.single "x" TInt (Some (VInt 5))) tap_utils (argparse [])
           Examples.somewhere
           (Examples.parsed (Examples.single "x" TInt (Some (VInt 5))) false ["--x"; "7"])
           (Examples.constructed (Examples.single "x" TInt (Some (VInt 5))) false)
           [("x", VInt 7)]).
  - vm_compute. reflexivity.
  - vm_compute. reflexivity.
  - apply (bool_decide_unpack _). vm_compute. exact I.
  - apply (bool_decide_unpack _). vm_compute. exact I.
  - reflexivity.
  - vm_compute. reflexivity.
Defined.

(** ** More on the argument synthesizer *)
Section synthesizer_more.
Context `{Classes} `{Utils} `{Backend}.
Implicit Types (self : Tap) (kwargs : keywords) (variable : string).

(** The steps before the annotation is looked at leave the type, the
    choices, the arity, the action and the destination alone. *)
Lemma prepare_keeps self name_or_flags variable kwargs :
  let k := help_if_missing self variable
             (required_if_option self name_or_flags variable
                (default_from_class self variable kwargs)) in
  kw_type k = kw_type kwargs /\ kw_choices k = kw_choices kwargs
  /\ kw_nargs k = kw_nargs kwargs /\ kw_action k = kw_action kwargs
  /\ kw_dest k = kw_dest kwargs.
Proof.
  unfold help_if_missing, required_if_option, default_from_class.
  repeat case_match; done.
Qed.

Lemma prepare_default self name_or_flags variable kwargs d :
  kw_default kwargs = Some d ->
  kw_default (help_if_missing self variable
                (required_if_option self name_or_flags variable
                   (default_from_class self variable kwargs))) = Some d.
Proof.
  intros Hd. unfold help_if_missing, required_if_option, default_from_class.
  repeat case_match; simpl; by rewrite ?Hd.
Qed.

Lemma prepare_required self name_or_flags variable kwargs b :
  kw_required kwargs = Some b ->
  kw_required (help_if_missing self variable
                 (required_if_option self name_or_flags variable
                    (default_from_class self variable kwargs))) = Some b.
Proof.
  intros Hb. unfold help_if_missing, required_if_option, default_from_class.
  repeat case_match; simpl; by rewrite ?Hb.
Qed.

Lemma prepare_help self name_or_flags variable kwargs h :
  kw_help kwargs = Some h ->
  kw_help (help_if_missing self variable
             (required_if_option self name_or_flags variable
                (default_from_class self variable kwargs))) = Some h.
Proof.
  intros Hh. unfold help_if_missing.
  assert (Hsame : kw_help (required_if_option self name_or_flags variable
                             (default_from_class self variable kwargs)) = Some h).
  { unfold required_if_option, default_from_class. by repeat case_match. }
  by rewrite Hsame.
Qed.

Lemma resolve_shape_frame self variable var_type kwargs f kwargs' :
  resolve_shape self variable var_type kwargs = Ok (f, kwargs') ->
  kw_help kwargs' = kw_help kwargs /\ kw_dest kwargs' = kw_dest kwargs
  /\ kw_type kwargs' = kw_type kwargs.
Proof.
  unfold resolve_shape, raise_unsupported, mbind, result_bind.
  intros Hr. repeat case_match; simplify_eq; done.
Qed.

Lemma unbox_frame f kwargs f' kwargs' :
  unbox f kwargs = (f', kwargs') ->
  kw_help kwargs' = kw_help kwargs /\ kw_dest kwargs' = kw_dest kwargs
  /\ kw_type kwargs' = kw_type kwargs.
Proof. unfold unbox. intros Hu. repeat case_match; simplify_eq; done. Qed.

Lemma set_type_or_action_frame self f kwargs kwargs' :
  set_type_or_action self f kwargs = Ok kwargs' ->
  kw_help kwargs' = kw_help kwargs /\ kw_dest kwargs' = kw_dest kwargs
  /\ (forall a, kw_action kwargs = Some a -> kw_action kwargs' = Some a).
Proof.
  unfold set_type_or_action, mbind, result_bind.
  intros Hs.
  repeat case_match; simplify_eq; simpl; (split; [done|]; split; [done|]);
    intros a' Ha'; by rewrite ?Ha'.
Qed.

(** What the annotation never changes: the help, the destination, an
    action and a type that are there already. *)
Lemma from_annotation_frame self variable kwargs kwargs' :
  from_annotation self variable kwargs = Ok kwargs' ->
  kw_help kwargs' = kw_help kwargs /\ kw_dest kwargs' = kw_dest kwargs
  /\ (forall a, kw_action kwargs = Some a -> kw_action kwargs' = Some a)
  /\ (forall f, kw_type kwargs = Some f -> kw_type kwargs' = Some f).
Proof.
  unfold from_annotation, mbind, result_bind.
  destruct (Dict.get (_annotations self) variable) as [var_type|]; [|by intros [= <-]].
  destruct (kw_type kwargs) eqn:Htype.
  { intros [= <-]. split; [done|]. split; [done|]. split; [done|].
    intros f0 Hf0. congruence. }
  destruct (resolve_shape self variable var_type kwargs) as [[f k1]|] eqn:Hr; [|done].
  destruct (unbox f k1) as [f2 k2] eqn:Hu. intros Hs.
  pose proof (resolve_shape_keeps _ _ _ _ _ _ Hr) as (_ & _ & Ha1).
  pose proof (unbox_keeps _ _ _ _ Hu) as (_ & _ & Ha2).
  apply resolve_shape_frame in Hr as (Hh1 & Hd1 & _).
  apply unbox_frame in Hu as (Hh2 & Hd2 & _).
  apply set_type_or_action_frame in Hs as (Hh3 & Hd3 & Ha3).
  split; [congruence|]. split; [congruence|]. split.
  - intros a Ha. apply Ha3. congruence.
  - intros f0 Hf0. congruence.
Qed.
End synthesizer_more.

(** X1: when the caller gives [type=], or when the destination has no
    annotation, [_add_argument] makes up nothing from the annotation: the
    keyword arguments are computed without an exception, whatever the
    annotation is, and the type, the choices, the arity and the action are
    the ones that the caller gave. *)
Theorem X1_given_type_skips_synthesis
    `{Classes} `{Utils} `{Backend} (self : Tap) (name_or_flags : list string)
    (kwargs : keywords) :
  Dict.get (_annotations self) (get_dest name_or_flags kwargs) = None
  \/ is_Some (kw_type kwargs) ->
  exists kwargs',
    _add_argument_kwargs self name_or_flags kwargs = Ok kwargs'
    /\ kw_type kwargs' = kw_type kwargs /\ kw_choices kwargs' = kw_choices kwargs
    /\ kw_nargs kwargs' = kw_nargs kwargs /\ kw_action kwargs' = kw_action kwargs.
Proof.
  intros Hcase. unfold _add_argument_kwargs, from_annotation.
  pose proof (prepare_keeps self name_or_flags (get_dest name_or_flags kwargs) kwargs)
    as (Ht & Hc & Hn & Ha & _).
  destruct Hcase as [-> | [f Hf]].
  - eexists. split; [reflexivity|]. by repeat split.
  - rewrite Ht, Hf.
    destruct (Dict.get (_annotations self) _);
      (eexists; split; [reflexivity|]; repeat split; congruence).
Qed.

(** X2: what the caller gives as [default=], [required=], [help=],
    [action=], [type=] and [dest=] is what [_add_argument] hands to the
    super class: these keyword arguments are only filled in when absent. *)
Theorem X2_given_keywords_are_kept
    `{Classes} `{Utils} `{Backend} (self : Tap) (name_or_flags : list string)
    (kwargs kwargs' : keywords) :
  _add_argument_kwargs self name_or_flags kwargs = Ok kwargs' ->
  (forall d, kw_default kwargs = Some d -> kw_default kwargs' = Some d)
  /\ (forall b, kw_required kwargs = Some b -> kw_required kwargs' = Some b)
  /\ (forall h, kw_help kwargs = Some h -> kw_help kwargs' = Some h)
  /\ (forall a, kw_action kwargs = Some a -> kw_action kwargs' = Some a)
  /\ (forall f, kw_type kwargs = Some f -> kw_type kwargs' = Some f)
  /\ kw_dest kwargs' = kw_dest kwargs.
Proof.
  unfold _add_argument_kwargs. intros Hk.
  pose proof (prepare_keeps self name_or_flags (get_dest name_or_flags kwargs) kwargs)
    as (Ht & _ & _ & Ha & Hd).
  pose proof (from_annotation_keeps _ _ _ _ Hk) as (Hreq & Hdef).
  apply from_annotation_frame in Hk as (Hhelp & Hdest & Hact & Htype).
  split; [|split; [|split; [|split; [|split]]]].
  - intros d Hgiven. rewrite Hdef. by apply prepare_default.
  - intros b Hgiven. rewrite Hreq. by apply prepare_required.
  - intros h Hgiven. rewrite Hhelp. by apply prepare_help.
  - intros a Hgiven. apply Hact. by rewrite Ha.
  - intros f Hgiven. apply Htype. by rewrite Ht.
  - by rewrite Hdest.
Qed.

(** X3: [required] is only made up for an option that is not the help
    flag: for a positional argument and for the destination [help] the
    keyword argument stays as the caller gave it, absent if it was. *)
Theorem X3_required_only_for_options
    `{Classes} `{Utils} `{Backend} (self : Tap) (name_or_flags : list string)
    (kwargs kwargs' : keywords) :
  is_option_arg name_or_flags = false \/ get_dest name_or_flags kwargs = "help" ->
  _add_argument_kwargs self name_or_flags kwargs = Ok kwargs' ->
  kw_required kwargs' = kw_required kwargs.
Proof.
  intros Hcase. unfold _add_argument_kwargs. intros Hk.
  apply from_annotation_keeps in Hk as [-> _].
  destruct (help_if_missing_keeps self (get_dest name_or_flags kwargs)
    (required_if_option self name_or_flags (get_dest name_or_flags kwargs)
       (default_from_class self (get_dest name_or_flags kwargs) kwargs))) as [-> _].
  unfold required_if_option.
  destruct Hcase as [-> | ->]; simpl.
  - apply default_from_class_required.
  - rewrite andb_false_r. apply default_from_class_required.
Qed.

(** X4: for an annotation among the boxed types supported by default
    ([Optional[t]], [List[t]], [Set[t]] for a base type [t], and the bare
    [Optional], [List], [Set] and [Tuple]) and no [type=] from the caller,
    the converter is the one of the element: [boolean_type] for [bool],
    [str] for a bare annotation, the element type otherwise, with or
    without [explicit_bool]. The arity is ['*'] for the collections unless
    the caller gave one, and untouched for the optional types; the action
    and the choices are untouched. *)
Theorem X4_boxed_types_take_the_element_converter
    `{Classes} `{Utils} `{Backend} (self : Tap) (name_or_flags : list string)
    (kwargs : keywords) (boxed : ann) :
  boxed ∈ SUPPORTED_DEFAULT_BOXED_TYPES ->
  Dict.get (_annotations self) (get_dest name_or_flags kwargs) = Some boxed ->
  kw_type kwargs = None ->
  exists kwargs',
    _add_argument_kwargs self name_or_flags kwargs = Ok kwargs'
    /\ kw_type kwargs'
       = Some (match get_args boxed with
               | TBool :: _ => Cboolean_type
               | TInt :: _ => CType TInt
               | TFloat :: _ => CType TFloat
               | _ => CType TStr
               end)
    /\ kw_nargs kwargs'
       = (if ann_in boxed SUPPORTED_DEFAULT_COLLECTION_TYPES
          then Some (default NargsStar (kw_nargs kwargs))
          else kw_nargs kwargs)
    /\ kw_action kwargs' = kw_action kwargs
    /\ kw_choices kwargs' = kw_choices kwargs.
Proof.
  intros Hin Hann Htype. unfold _add_argument_kwargs, from_annotation.
  rewrite Hann.
  pose proof (prepare_keeps self name_or_flags (get_dest name_or_flags kwargs) kwargs)
    as (Ht & Hc & Hn & Ha & _).
  rewrite Ht, Htype.
  cbv [SUPPORTED_DEFAULT_BOXED_TYPES SUPPORTED_DEFAULT_OPTIONAL_TYPES
       SUPPORTED_DEFAULT_COLLECTION_TYPES SUPPORTED_DEFAULT_LIST_TYPES
       SUPPORTED_DEFAULT_SET_TYPES Optional_ app] in Hin.
  repeat (apply elem_of_cons in Hin as [->|Hin]);
    try (by apply elem_of_nil in Hin);
    (eexists; split; [reflexivity|]; simpl; rewrite ?Hn; done).
Qed.

Lemma ann_in_take_drop (t : ann) (l : list ann) (n : nat) :
  ann_in t l = false -> ann_in t (take n l) = false /\ ann_in t (drop n l) = false.
Proof.
  unfold ann_in. rewrite <- (take_drop n l) at 1.
  rewrite existsb_app. by intros [? ?]%orb_false_iff.
Qed.

(** X5: for an annotation [Tuple[t1, ..., tn]] with at least one element
    type, none of them [()] or [...], and no [type=] from the caller, the
    argument takes exactly [n] tokens, whatever arity the caller gave, and
    its converter is the enforcer of the element types, in order. *)
Theorem X5_tuple_takes_one_token_per_element
    `{Classes} `{Utils} `{Backend} (self : Tap) (name_or_flags : list string)
    (kwargs : keywords) (types : list ann) :
  Dict.get (_annotations self) (get_dest name_or_flags kwargs) = Some (TTuple types) ->
  kw_type kwargs = None ->
  types <> [] ->
  ann_in TEmptyTuple types = false ->
  ann_in TEllipsis types = false ->
  exists kwargs',
    _add_argument_kwargs self name_or_flags kwargs = Ok kwargs'
    /\ kw_type kwargs' = Some (CTupleTypeEnforcer types false)
    /\ kw_nargs kwargs' = Some (NargsInt (length types))
    /\ kw_action kwargs' = kw_action kwargs
    /\ kw_choices kwargs' = kw_choices kwargs.
Proof.
  intros Hann Htype Hne Hempty Hdots. unfold _add_argument_kwargs, from_annotation.
  rewrite Hann.
  pose proof (prepare_keeps self name_or_flags (get_dest name_or_flags kwargs) kwargs)
    as (Ht & Hc & _ & Ha & _).
  rewrite Ht, Htype.
  unfold resolve_shape, is_boxed_literal, is_parametrized_tuple. simpl.
  rewrite bool_decide_eq_true_2 by (destruct types; [done|simpl; lia]).
  rewrite (proj1 (ann_in_take_drop _ _ 1 Hempty)), andb_false_r.
  rewrite (proj2 (ann_in_take_drop _ _ 1 Hdots)), andb_false_r.
  simpl. eexists. split; [reflexivity|]. by repeat split.
Qed.

(** X6: for an annotation [Tuple[t, ...]] and no [type=] from the caller,
    the argument takes any number of tokens (the arity is ['*'], whatever
    arity the caller gave) and its converter is the enforcer that applies
    [t] to every token. *)
Theorem X6_variadic_tuple_takes_any_number
    `{Classes} `{Utils} `{Backend} (self : Tap) (name_or_flags : list string)
    (kwargs : keywords) (t : ann) :
  Dict.get (_annotations self) (get_dest name_or_flags kwargs)
  = Some (TTuple [t; TEllipsis]) ->
  kw_type kwargs = None ->
  exists kwargs',
    _add_argument_kwargs self name_or_flags kwargs = Ok kwargs'
    /\ kw_type kwargs' = Some (CTupleTypeEnforcer [t] true)
    /\ kw_nargs kwargs' = Some NargsStar
    /\ kw_action kwargs' = kw_action kwargs
    /\ kw_choices kwargs' = kw_choices kwargs.
Proof.
  intros Hann Htype. unfold _add_argument_kwargs, from_annotation.
  rewrite Hann.
  pose proof (prepare_keeps self name_or_flags (get_dest name_or_flags kwargs) kwargs)
    as (Ht & Hc & _ & Ha & _).
  rewrite Ht, Htype.
  eexists. split; [reflexivity|]. by repeat split.
Qed.

(** X7: the annotation [Tuple[()]] is refused: without [type=] from the
    caller, [_add_argument] raises the [ValueError] about empty tuples,
    the backend is not called and the instance is left as it was. *)
Theorem X7_empty_tuple_is_refused
    `{Classes} `{Utils} `{Backend} (self : Tap) (name_or_flags : list string)
    (kwargs : keywords) :
  Dict.get (_annotations self) (get_dest name_or_flags kwargs)
  = Some (TTuple [TEmptyTuple]) ->
  kw_type kwargs = None ->
  _add_argument name_or_flags kwargs self = (Raise (ValueError empty_tuple), self).
Proof.
  intros Hann Htype. unfold _add_argument, _add_argument_kwargs, from_annotation.
  rewrite Hann.
  pose proof (prepare_keeps self name_or_flags (get_dest name_or_flags kwargs) kwargs)
    as (Ht & _).
  by rewrite Ht, Htype.
Qed.

(** X8: a boolean field without a default, registered under its flag
    without [explicit_bool] and with no [type=], [required=] or [action=]
    from the caller, is a required flag with the action [store_true],
    whatever default the caller gave, and gets no converter. *)
Theorem X8_required_boolean_is_store_true
    `{Classes} `{Utils} `{Backend} (self : Tap) (name_or_flags : list string)
    (kwargs : keywords) :
  is_option_arg name_or_flags = true ->
  get_dest name_or_flags kwargs <> "help" ->
  Dict.get (_annotations self) (get_dest name_or_flags kwargs) = Some TBool ->
  hasattr self (get_dest name_or_flags kwargs) = false ->
  _explicit_bool self = false ->
  kw_type kwargs = None -> kw_required kwargs = None -> kw_action kwargs = None ->
  exists kwargs',
    _add_argument_kwargs self name_or_flags kwargs = Ok kwargs'
    /\ kw_required kwargs' = Some true
    /\ kw_action kwargs' = Some "store_true"
    /\ kw_type kwargs' = None
    /\ kw_default kwargs' = kw_default kwargs.
Proof.
  intros Hopt Hne Hann Hhas Hexp Htype Hreq Hact.
  unfold _add_argument_kwargs, from_annotation. rewrite Hann.
  pose proof (prepare_keeps self name_or_flags (get_dest name_or_flags kwargs) kwargs)
    as (Ht & _ & _ & Ha & _).
  rewrite Ht, Htype.
  assert (Hr : kw_required
                 (help_if_missing self (get_dest name_or_flags kwargs)
                    (required_if_option self name_or_flags (get_dest name_or_flags kwargs)
                       (default_from_class self (get_dest name_or_flags kwargs) kwargs)))
               = Some true).
  { destruct (help_if_missing_keeps self (get_dest name_or_flags kwargs)
      (required_if_option self name_or_flags (get_dest name_or_flags kwargs)
         (default_from_class self (get_dest name_or_flags kwargs) kwargs))) as [-> _].
    rewrite required_if_option_flag by done.
    by rewrite default_from_class_required, Hreq, Hhas. }
  assert (Hd : kw_default
                 (help_if_missing self (get_dest name_or_flags kwargs)
                    (required_if_option self name_or_flags (get_dest name_or_flags kwargs)
                       (default_from_class self (get_dest name_or_flags kwargs) kwargs)))
               = kw_default kwargs).
  { unfold hasattr in Hhas.
    unfold help_if_missing, required_if_option, default_from_class.
    destruct (getattr self _); [done|]. by repeat case_match. }
  simpl. unfold set_type_or_action, store_action. simpl.
  rewrite Hexp, Hr, Ha, Hact. simpl.
  eexists. split; [reflexivity|]. simpl. by rewrite Hr, Ht, Hd.
Qed.

(** X9: without [explicit_bool], a boolean field registered as a
    positional argument with no [required=] and no [type=] cannot be
    registered: building the default of the action reads
    [kwargs["required"]], which is not there, so [_add_argument] raises
    [KeyError], even when the caller gave an action; the backend is not
    called. *)
Theorem X9_positional_boolean_raises_KeyError
    `{Classes} `{Utils} `{Backend} (self : Tap) (name_or_flags : list string)
    (kwargs : keywords) :
  is_option_arg name_or_flags = false ->
  Dict.get (_annotations self) (get_dest name_or_flags kwargs) = Some TBool ->
  _explicit_bool self = false ->
  kw_type kwargs = None -> kw_required kwargs = None ->
  _add_argument name_or_flags kwargs self = (Raise (KeyError "required"), self).
Proof.
  intros Hopt Hann Hexp Htype Hreq.
  unfold _add_argument, _add_argument_kwargs, from_annotation. rewrite Hann.
  pose proof (prepare_keeps self name_or_flags (get_dest name_or_flags kwargs) kwargs)
    as (Ht & _).
  rewrite Ht, Htype.
  assert (Hr : kw_required
                 (help_if_missing self (get_dest name_or_flags kwargs)
                    (required_if_option self name_or_flags (get_dest name_or_flags kwargs)
                       (default_from_class self (get_dest name_or_flags kwargs) kwargs)))
               = None).
  { destruct (help_if_missing_keeps self (get_dest name_or_flags kwargs)
      (required_if_option self name_or_flags (get_dest name_or_flags kwargs)
         (default_from_class self (get_dest name_or_flags kwargs) kwargs))) as [-> _].
    unfold required_if_option. rewrite Hopt. simpl.
    by rewrite default_from_class_required. }
  simpl. unfold set_type_or_action, store_action. simpl.
  by rewrite Hexp, Hr.
Qed.

(** X10: the help text that [_add_argument] makes up when the caller gave
    none agrees with what is registered: it shows the annotation of the
    destination if there is one, then [required] exactly when the argument
    is registered as required and otherwise the default that is registered
    ([None] when there is none), then the comment of the class variable if
    there is one. *)
Theorem X10_synthesized_help_agrees_with_registration
    `{Classes} `{Utils} `{Backend} (self : Tap) (name_or_flags : list string)
    (kwargs kwargs' : keywords) :
  kw_help kwargs = None ->
  _add_argument_kwargs self name_or_flags kwargs = Ok kwargs' ->
  kw_help kwargs'
  = Some (HelpSynth
            (Dict.get (_annotations self) (get_dest name_or_flags kwargs))
            (if default false (kw_required kwargs') then None
             else Some (default VNone (kw_default kwargs')))
            (Dict.get (class_variables self) (get_dest name_or_flags kwargs))).
Proof.
  intros Hhelp. unfold _add_argument_kwargs. intros Hk.
  pose proof (from_annotation_keeps _ _ _ _ Hk) as (-> & ->).
  apply from_annotation_frame in Hk as (-> & _).
  destruct (help_if_missing_keeps self (get_dest name_or_flags kwargs)
    (required_if_option self name_or_flags (get_dest name_or_flags kwargs)
       (default_from_class self (get_dest name_or_flags kwargs) kwargs)))
    as (-> & -> & _).
  unfold help_if_missing.
  assert (Hnone : kw_help (required_if_option self name_or_flags
                             (get_dest name_or_flags kwargs)
                             (default_from_class self (get_dest name_or_flags kwargs)
                                kwargs)) = None).
  { unfold required_if_option, default_from_class. by repeat case_match. }
  by rewrite Hnone.
Qed.

(** ** The buffer and the order of registration *)
Section registration_facts.
Context `{Classes} `{Utils} `{Backend}.
Implicit Types (self : Tap).

Lemma register_all_app self (l1 l2 : list (list string * keywords)) (p : parser) :
  register_all self (l1 ++ l2) p = register_all self l1 p ≫= register_all self l2.
Proof.
  revert p. induction l1 as [|c l1 IH]; intros p; simpl; [done|].
  unfold mbind, result_bind.
  destruct (_add_argument_kwargs self c.1 c.2) as [k|]; [|done].
  destruct (parser_add_argument p c.1 k) as [p1|]; [|done].
  apply IH.
Qed.

(** A loop each of whose iterations registers one argument or none
    registers the selected arguments, in the order of the list. *)
Lemma for_each_register {A : Type} (l : list A)
    (sel : A -> option (list string * keywords)) (body : A -> M unit) self :
  (forall x q,
     body x (with_super self q)
     = match sel x with
       | Some c => _add_argument c.1 c.2 (with_super self q)
       | None => (Ok tt, with_super self q)
       end) ->
  forall s p, s = with_super self p ->
    exists q,
      for_each l body s
      = ((fun _ => tt) <$> register_all self (omap sel l) p, with_super self q)
      /\ (forall p', register_all self (omap sel l) p = Ok p' -> q = p').
Proof.
  intros Hbody. induction l as [|x l IH]; intros s p ->.
  - exists p. split; [done|]. by intros p' [= <-].
  - cbn [for_each]. unfold seq. rewrite Hbody.
    change (omap sel (x :: l))
      with (match sel x with Some c => c :: omap sel l | None => omap sel l end).
    destruct (sel x) as [c|].
    + unfold _add_argument.
      change (_add_argument_kwargs (with_super self p) c.1 c.2)
        with (_add_argument_kwargs self c.1 c.2).
      cbn [register_all]. unfold mbind, result_bind.
      destruct (_add_argument_kwargs self c.1 c.2) as [k|e]; [|by exists p].
      change (super (with_super self p)) with p.
      destruct (parser_add_argument p c.1 k) as [p1|e]; [|by exists p].
      apply (IH (with_super self p1) p1 eq_refl).
    + apply IH. reflexivity.
Qed.

Lemma omap_Some_map {A B : Type} (f : A -> B) (l : list A) :
  omap (fun x => Some (f x)) l = map f l.
Proof. induction l as [|x l IH]; [done|]. simpl. by f_equal. Qed.

Lemma omap_unless_filter {A B : Type} (skip : A -> bool) (f : A -> B) (l : list A) :
  omap (fun x => if skip x then None else Some (f x)) l
  = map f (filter (fun x => negb (skip x)) l).
Proof.
  induction l as [|x l IH]; [done|].
  change (omap (fun x => if skip x then None else Some (f x)) (x :: l))
    with (match (if skip x then None else Some (f x)) with
          | Some y => y :: omap (fun x => if skip x then None else Some (f x)) l
          | None => omap (fun x => if skip x then None else Some (f x)) l
          end).
  rewrite filter_cons, IH.
  case_decide as Hd; destruct (skip x); simpl in Hd; done.
Qed.
End registration_facts.

(** X12: [_add_arguments] registers the arguments one after the other in
    this order: first one argument per class variable, in the order of
    the class variables (with the registration of the buffer when there
    is one, or else under the flag made of the name), then the arguments
    of the buffer that are not class variables, in the order of the
    buffer. It fails exactly when one of these registrations fails, with
    that exception, and otherwise changes nothing but the state of the
    super class. The constructor ends with these registrations: it
    returns the instance with them made, or fails as they do. *)
Theorem X12_arguments_are_registered_in_order
    `{Classes} `{Utils} `{Backend} (self : Tap) :
  fst (_add_arguments self)
  = (fun _ => tt) <$> register_all self (planned self) (super self)
  /\ (forall p,
        register_all self (planned self) (super self) = Ok p ->
        snd (_add_arguments self) = with_super self p)
  /\ (forall c dashes explicit hook,
        before_registration c dashes explicit hook = Ok self ->
        __init__ c dashes explicit hook
        = with_super self <$> register_all self (planned self) (super self)).
Proof.
  cut (fst (_add_arguments self)
       = (fun _ => tt) <$> register_all self (planned self) (super self)
       /\ (forall p,
             register_all self (planned self) (super self) = Ok p ->
             snd (_add_arguments self) = with_super self p)).
  { intros [Hfst Hsnd]. split; [done|]. split; [done|].
    intros c dashes explicit hook Hbefore.
    unfold __init__, mbind, result_bind. rewrite Hbefore.
    destruct (_add_arguments self) as [r s]. simpl in Hfst, Hsnd.
    destruct (register_all self (planned self) (super self)) as [p|e]; simpl in *.
    - by rewrite Hfst, (Hsnd p eq_refl).
    - by rewrite Hfst. }
  assert (Hself : self = with_super self (super self)) by (by destruct self).
  unfold _add_arguments, seq, planned.
  match goal with
  | |- context [for_each ?l ?body self] =>
      destruct (for_each_register l (fun variable => Some (registration self variable))
                  body self (fun x q => eq_refl) self (super self) Hself)
        as (q1 & -> & Hq1)
  end.
  rewrite omap_Some_map in *. rewrite register_all_app.
  destruct (register_all self (map (registration self) _) (super self))
    as [p1|e] eqn:Hfirst; simpl; [|done].
  rewrite (Hq1 p1 eq_refl).
  change (argument_buffer (with_super self p1)) with (argument_buffer self).
  match goal with
  | |- context [for_each ?l ?body (with_super self p1)] =>
      assert (Hbody : forall x q,
                body x (with_super self q)
                = match (if Dict.contains (class_variables self) x.1
                         then None else Some x.2) with
                  | Some c => _add_argument c.1 c.2 (with_super self q)
                  | None => (Ok tt, with_super self q)
                  end)
        by (intros x q;
            change (class_variables (with_super self q)) with (class_variables self);
            by destruct (Dict.contains (class_variables self) x.1));
      destruct (for_each_register l _ body self Hbody (with_super self p1) p1 eq_refl)
        as (q2 & -> & Hq2)
  end.
  rewrite omap_unless_filter in *. simpl. split; [done|].
  intros p Hp. by rewrite (Hq2 p Hp).
Qed.

(** X13: an instance that the constructor returns, with a hook
    [add_arguments] that only registers arguments, is unparsed: [as_dict]
    raises the not-parsed error. Its annotations are the merged
    annotations of its class, without a repeated name. The attributes
    bound on it are the ones that the constructors bind ([_parsed],
    [extra_args], ..., then the ones of the super class) and no other:
    reading one of these names gives what the constructor bound, and
    reading any other name gives what the class defines, or
    [AttributeError]. *)
Theorem X13_constructor_gives_unparsed_instance
    `{Classes} `{Utils} `{Backend} (c : class) (dashes explicit : bool)
    (hook : M unit) (self : Tap) :
  keeps_fields hook ->
  __init__ c dashes explicit hook = Ok self ->
  cls self = c /\ _parsed self = false
  /\ as_dict self = Raise (ValueError not_parsed)
  /\ _get_annotations c = Ok (_annotations self)
  /\ Dict.wf (_annotations self)
  /\ attrs self = constructor_attributes dashes explicit
  /\ (forall name v,
        Dict.get (constructor_attributes dashes explicit) name = Some v ->
        is_property (class_getattr c name) = false ->
        getattr self name = Ok v)
  /\ (forall name,
        Dict.get (constructor_attributes dashes explicit) name = None ->
        getattr self name
        = match class_getattr c name with
          | Some a => Ok (attr_to_value a)
          | None => Raise (AttributeError name)
          end).
Proof.
  intros Hhook Hinit.
  destruct (init_fresh _ _ _ _ _ Hhook Hinit) as (Hcls & Hp & Hattrs & Hann & Hwf).
  split; [done|]. split; [done|]. split; [by apply as_dict_unparsed|].
  split; [done|]. split; [done|]. split; [done|]. split.
  - intros name v Hbound Hprop. apply getattr_bound; by rewrite ?Hcls, ?Hattrs.
  - intros name Hnone. unfold getattr. rewrite Hattrs, Hcls, Hnone.
    by destruct (class_getattr c name) as [[]|].
Qed.

(** ** More on parsing *)
Section parse_more.
Context `{Classes} `{Utils} `{Backend}.
Implicit Types (self : Tap).

(** Binding the namespace changes the bound attributes and nothing else. *)
Lemma bind_namespace_only_attrs (ns : namespace) self r self' :
  bind_namespace ns self = (r, self') -> self' = with_attrs self (attrs self').
Proof.
  unfold bind_namespace, Dict.items. revert self.
  induction ns as [|[k raw] ns IH]; intros self.
  - simpl. unfold ret. intros [= <- <-]. by rewrite with_attrs_id.
  - cbn [for_each]. unfold seq at 1. cbn [fst snd].
    destruct (convert self k raw) as [v|e].
    + unfold setattr. destruct (is_property _).
      * intros [= <- <-]. by rewrite with_attrs_id.
      * intros Hrest. apply IH in Hrest. by rewrite Hrest at 1.
    + intros [= <- <-]. by rewrite with_attrs_id.
Qed.

Lemma backend_parse_only_extra_args self args known_only ns s0 :
  backend_parse self args known_only = Ok (ns, s0) ->
  s0 = with_extra_args self (extra_args s0).
Proof.
  unfold backend_parse, mbind, result_bind. destruct known_only.
  - destruct (parser_parse_known_args _ _) as [[ns' extra]|]; [|done].
    by intros [= <- <-].
  - destruct (parser_parse_args _ _); [|done]. intros [= <- <-]. by destruct self.
Qed.

(** A namespace with a value that cannot be converted cannot be bound. *)
Lemma bind_namespace_raises (ns : namespace) self k raw e0 :
  (k, raw) ∈ ns -> convert self k raw = Raise e0 ->
  exists e self', bind_namespace ns self = (Raise e, self').
Proof.
  intros Hin Hraise. unfold bind_namespace, Dict.items.
  apply (for_each_raises ns _ (fun s => _annotations s = _annotations self) (k, raw));
    [done|done| |].
  - intros [k1 raw1] s r s1. cbn [fst snd]. intros Hy Hs.
    destruct (convert s k1 raw1); [|by injection Hy as <- <-].
    unfold setattr in Hy. destruct (is_property _); by injection Hy as <- <-.
  - intros s Hs. cbn [fst snd].
    rewrite (convert_same_annotations self s) by done. rewrite Hraise. eauto.
Qed.
End parse_more.

(** X14: a call of [parse_args] that raises, be it in the backend, while
    the values are bound or in the hook [process_args] (taken not to touch
    the mark itself), leaves the parsed mark as it was: an instance that
    was unparsed is still refused by [as_dict]. When it is the backend
    that raises, the instance is exactly what it was. *)
Theorem X14_failed_parse_leaves_the_mark
    `{Classes} `{Utils} `{Backend} (hook : M unit) (args : option (list string))
    (known_only : bool) (self self' : Tap) (e : exn) :
  (forall s r s', hook s = (r, s') -> _parsed s' = _parsed s) ->
  parse_args hook args known_only self = (Raise e, self') ->
  _parsed self' = _parsed self
  /\ (_parsed self = false -> as_dict self' = Raise (ValueError not_parsed))
  /\ (forall e0, backend_parse self args known_only = Raise e0 ->
        e = e0 /\ self' = self).
Proof.
  intros Hhook Hparse.
  assert (Hmark : _parsed self' = _parsed self).
  { revert Hparse. unfold parse_args, seq.
    destruct (backend_parse self args known_only) as [[ns s0]|e0] eqn:Hb;
      [|by intros [= <- <-]].
    apply backend_parse_only_extra_args in Hb.
    destruct (bind_namespace ns s0) as [[[]|e1] s1] eqn:Hbind.
    - apply bind_namespace_only_attrs in Hbind.
      destruct (hook s1) as [[[]|e2] s2] eqn:Hh; [done|].
      intros [= <- <-]. apply Hhook in Hh. rewrite Hh, Hbind, Hb. done.
    - apply bind_namespace_only_attrs in Hbind.
      intros [= <- <-]. rewrite Hbind, Hb. done. }
  split; [done|]. split.
  - intros Hun. apply as_dict_unparsed. congruence.
  - intros e0 Hb. unfold parse_args in Hparse. rewrite Hb in Hparse.
    by injection Hparse as <- <-.
Qed.

(** X15: after a successful parse with the hook of [Tap] itself, the
    state of the super class is what it was; with [known_only] the tokens
    that the backend did not recognize are in [extra_args], and without it
    [extra_args] is what it was. *)
Theorem X15_known_only_keeps_the_unknown_tokens
    `{Classes} `{Utils} `{Backend} (args : option (list string))
    (known_only : bool) (self self' : Tap) :
  parse_args process_args args known_only self = (Ok tt, self') ->
  super self' = super self
  /\ (known_only = false -> extra_args self' = extra_args self)
  /\ (forall ns extras,
        known_only = true ->
        parser_parse_known_args (super self) args = Ok (ns, extras) ->
        extra_args self' = extras).
Proof.
  unfold parse_args, seq, process_args, ret.
  destruct (backend_parse self args known_only) as [[ns s0]|e0] eqn:Hb; [|done].
  destruct (bind_namespace ns s0) as [[[]|e1] s1] eqn:Hbind; [|done].
  intros [= <-]. apply bind_namespace_only_attrs in Hbind.
  rewrite Hbind. simpl. clear Hbind.
  unfold backend_parse, mbind, result_bind in Hb. destruct known_only.
  - destruct (parser_parse_known_args _ _) as [[ns' extra]|]; [|done].
    injection Hb as <- <-. split; [done|]. split; [done|].
    by intros ns0 extras _ [= <- <-].
  - destruct (parser_parse_args _ _); [|done]. injection Hb as <- <-.
    split; [done|]. split; [done|]. by intros ns0 extras [=].
Qed.

(** X16: after a successful parse with the hook of [Tap] itself, every
    name of the namespace that the backend returned, [_parsed] and the
    properties of the class aside, reads as the value bound to it,
    converted to a set or a tuple when the annotation of the name asks
    for one and left as it is otherwise (also for a name without
    annotation and for a value [None]); and every attribute that is
    neither a name of the namespace nor one of the two that [parse_args]
    assigns itself, [_parsed] and [extra_args], reads as it did before
    the parse. *)
Theorem X16_parse_binds_the_namespace
    `{Classes} `{Utils} `{Backend} (args : option (list string))
    (known_only : bool) (self self' : Tap) (default_namespace : namespace) :
  fst <$> backend_parse self args known_only = Ok default_namespace ->
  Dict.wf default_namespace ->
  parse_args process_args args known_only self = (Ok tt, self') ->
  (forall k raw,
     Dict.get default_namespace k = Some raw ->
     k <> "_parsed" ->
     is_property (class_getattr (cls self) k) = false ->
     exists v, convert self k raw = Ok v /\ getattr self' k = Ok v)
  /\ (forall k raw,
        Dict.get default_namespace k = Some raw ->
        k <> "_parsed" ->
        is_property (class_getattr (cls self) k) = false ->
        match Dict.get (_annotations self) k with
        | Some annotation =>
            get_origin annotation <> Some OSet /\ get_origin annotation <> Some OTuple
        | None => True
        end ->
        getattr self' k = Ok raw)
  /\ (forall k,
        k ∉ Dict.keys default_namespace ->
        k <> "_parsed" -> k <> "extra_args" ->
        getattr self' k = getattr self k).
Proof.
  intros Hback Hwf Hparse.
  destruct (backend_parse self args known_only) as [[ns s0]|] eqn:Hb; [|done].
  injection Hback as ->.
  destruct (parse_args_default_hook _ _ _ _ _ _ Hb Hparse) as (s1 & Hbind & ->).
  apply backend_parse_same in Hb as (Hcls0 & Hann0 & Hattrs0).
  apply bind_namespace_spec in Hbind as (Hcls & _ & Hout & Hin); [|done].
  assert (Hbound : forall k raw,
    Dict.get default_namespace k = Some raw ->
    exists v, convert self k raw = Ok v /\ getattr (with_parsed s1 true) k = Ok v).
  { intros k raw Hraw. apply DictFacts.get_Some_item in Hraw.
    destruct (Hin _ _ Hraw) as (Hp & v & Hv & Hget).
    exists v. split.
    - by rewrite <- (convert_same_annotations self s0).
    - rewrite getattr_with_parsed. apply getattr_bound; [by rewrite Hcls|done]. }
  split; [|split].
  - intros k raw Hraw _ _. by apply Hbound.
  - intros k raw Hraw _ _ Hshape. destruct (Hbound k raw Hraw) as (v & Hv & Hread).
    rewrite Hread. unfold convert in Hv.
    destruct (Dict.get (_annotations self) k) as [annotation|]; [|done].
    destruct Hshape as [Hset Htuple].
    by destruct (get_origin annotation) as [[]|].
  - intros k Hk _ _. rewrite getattr_with_parsed. unfold getattr.
    by rewrite Hcls, Hcls0, (Hout k Hk), Hattrs0.
Qed.

(** X17: a parse cannot bind a value that is not iterable, [None] among
    them, to a field whose annotation has the origin [Set] or [Tuple]:
    when the backend returns such a value for the field, as it does for a
    field with the default [None] that is left out of the command line,
    [parse_args] raises, whatever the hook [process_args] is. *)
Theorem X17_container_field_needs_an_iterable
    `{Classes} `{Utils} `{Backend} (hook : M unit) (args : option (list string))
    (known_only : bool) (self : Tap) (default_namespace : namespace)
    (variable : string) (raw : value) (annotation : ann) :
  fst <$> backend_parse self args known_only = Ok default_namespace ->
  Dict.get default_namespace variable = Some raw ->
  is_ok (iterate raw) = false ->
  Dict.get (_annotations self) variable = Some annotation ->
  get_origin annotation = Some OSet \/ get_origin annotation = Some OTuple ->
  exists e self', parse_args hook args known_only self = (Raise e, self').
Proof.
  intros Hback Hraw Hiter Hann Horigin.
  destruct (backend_parse self args known_only) as [[ns s0]|] eqn:Hb; [|done].
  injection Hback as ->. unfold parse_args, seq. rewrite Hb.
  apply backend_parse_same in Hb as (_ & Hann0 & _).
  apply DictFacts.get_Some_item in Hraw.
  assert (exists e0, convert s0 variable raw = Raise e0) as [e0 Hc].
  { unfold convert, py_set, py_tuple, mbind, result_bind. rewrite Hann0, Hann.
    destruct (iterate raw) as [l|e0]; [done|].
    destruct Horigin as [-> | ->]; eauto. }
  destruct (bind_namespace_raises default_namespace s0 variable raw e0 Hraw Hc)
    as (e & s1 & ->).
  eauto.
Qed.

(** ** More on the tables of a class *)
Section table_facts.
Context {V : Type}.
Implicit Types (d sd : Dict.t V).

Lemma get_absent d k : k ∉ Dict.keys d -> Dict.get d k = None.
Proof.
  intros Hk. destruct (Dict.get d k) eqn:E; [|done].
  by apply DictFacts.get_Some_key in E.
Qed.

(** Looking up a key after [{k: v for k, v in d.items() if P}]. *)
Lemma get_filter (P : string * V -> Prop) `{forall x, Decision (P x)} d k :
  Dict.wf d ->
  Dict.get (filter P (Dict.items d)) k
  = match Dict.get d k with
    | Some v => if decide (P (k, v)) then Some v else None
    | None => None
    end.
Proof.
  unfold Dict.wf, Dict.items. induction d as [|[k' v'] d IH]; [done|].
  simpl. intros [Hk' Hnd]%NoDup_cons. rewrite filter_cons.
  destruct (decide (k' = k)) as [->|Hne].
  - destruct (decide (P (k, v'))) as [HP|HP]; simpl.
    + by rewrite decide_True.
    + rewrite IH by done. by rewrite (get_absent d k).
  - destruct (decide (P (k', v'))); simpl; [rewrite decide_False by done|];
      by apply IH.
Qed.

Lemma wf_filter (P : string * V -> Prop) `{forall x, Decision (P x)} d :
  Dict.wf d -> Dict.wf (filter P (Dict.items d)).
Proof.
  unfold Dict.wf, Dict.keys, Dict.items. induction d as [|[k' v'] d IH]; [done|].
  simpl. intros [Hk' Hnd]%NoDup_cons. rewrite filter_cons.
  destruct (decide (P (k', v'))); simpl; [|by apply IH].
  apply NoDup_cons. split; [|by apply IH].
  intros ([k1 v1] & -> & [_ Hin]%list_elem_of_filter)%list_elem_of_fmap.
  apply Hk'. apply list_elem_of_fmap. by exists (k1, v1).
Qed.

(** The first loop of the merge only adds entries, at the end. *)
Lemma update_unseen_extends d sd :
  exists rest, update_unseen d sd = d ++ rest.
Proof.
  unfold update_unseen, Dict.items. revert d.
  induction sd as [|[k v] sd IH]; intros d; simpl.
  - exists []. by rewrite app_nil_r.
  - destruct (Dict.contains d k) eqn:Hc; [apply IH|].
    apply DictFacts.contains_false, DictFacts.get_None_key in Hc.
    rewrite set_absent by done.
    destruct (IH (d ++ [(k, v)])) as [rest ->].
    exists ((k, v) :: rest). by rewrite <- app_assoc.
Qed.

(** A table without repeated key is merged as it is when none of its
    keys has been seen. *)
Lemma update_unseen_fresh d sd :
  Dict.wf sd -> (forall k, k ∈ Dict.keys sd -> k ∉ Dict.keys d) ->
  update_unseen d sd = d ++ sd.
Proof.
  unfold update_unseen, Dict.items, Dict.wf. revert d.
  induction sd as [|[k v] sd IH]; intros d Hwf Hnew; simpl.
  - by rewrite app_nil_r.
  - simpl in Hwf. apply NoDup_cons in Hwf as [Hk Hwf].
    assert (Hd : k ∉ Dict.keys d) by (apply Hnew, list_elem_of_here).
    assert (Hc : Dict.contains d k = false)
      by (by apply DictFacts.contains_false, get_absent).
    rewrite Hc, set_absent by done.
    rewrite IH; [by rewrite <- app_assoc|done|].
    intros k1 Hk1. unfold Dict.keys. rewrite map_app. simpl.
    intros [Hin| ->%list_elem_of_singleton]%elem_of_app; [|done].
    revert Hin. by apply Hnew, list_elem_of_further.
Qed.
End table_facts.

Section merger_more.
Context `{Classes} {V : Type}.
Variable extract_func : class -> result (Dict.t V).
Implicit Types (st : bfs_state V).

(** The merged table only grows, at the end. *)
Lemma bfs_step_extends st st' o :
  bfs_step extract_func st = (st', o) ->
  exists rest, dictionary st' = dictionary st ++ rest.
Proof.
  unfold bfs_step. destruct (super_classes st) as [|c queue].
  - intros [= <- <-]. exists []. by rewrite app_nil_r.
  - destruct (negb _ && _); [destruct (extract_func c) as [sd|]|];
      intros [= <- <-]; simpl; try (exists []; by rewrite app_nil_r).
    rewrite update_difference_unseen. apply update_unseen_extends.
Qed.

Lemma bfs_loop_extends fuel st st' o :
  bfs_loop extract_func fuel st = Some (st', o) ->
  exists rest, dictionary st' = dictionary st ++ rest.
Proof.
  revert st. induction fuel as [|fuel IH]; intros st; simpl.
  - destruct (super_classes st); [|done]. intros [= <- <-].
    exists []. by rewrite app_nil_r.
  - destruct (super_classes st) eqn:Hq.
    { intros [= <- <-]. exists []. by rewrite app_nil_r. }
    destruct (bfs_step extract_func st) as [st1 [e1|]] eqn:Hstep.
    + intros [= <- <-]. by eapply bfs_step_extends.
    + intros Hloop. apply IH in Hloop as [l2 ->].
      apply bfs_step_extends in Hstep as [l1 ->].
      exists (l1 ++ l2). by rewrite app_assoc.
Qed.

(** The merge never raises when the extraction never does. *)
Lemma merge_total (cls : class) :
  (forall c, is_ok (extract_func c) = true) ->
  exists st,
    traverse extract_func cls = Some (st, None)
    /\ _get_from_self_and_super extract_func cls = Ok (dictionary st).
Proof.
  intros Hok. unfold _get_from_self_and_super.
  destruct (traverse_total extract_func cls) as [[st [e|]] Hrun]; rewrite Hrun.
  - apply traverse_raise in Hrun as (_ & c & _ & _ & Hc).
    specialize (Hok c). by rewrite Hc in Hok.
  - by exists st.
Qed.
End merger_more.

(** X18: [_get_class_dict] never raises, and its table is the merged
    table of the class dictionaries without the names that start with an
    underscore and without the callables and the static methods: a name is
    in it, with a value, exactly when the merged table maps the name to
    this value and the name and the value pass the three tests. No name is
    repeated, and every value is what a class of the parser family
    defines under the name. *)
Theorem X18_class_dict_holds_the_public_data `{Classes} (cls : class) :
  exists merged d,
    _get_from_self_and_super (fun super_class => Ok (class_dict super_class)) cls
    = Ok merged
    /\ _get_class_dict cls = Ok d
    /\ Dict.wf d
    /\ (forall k a,
          Dict.get d k = Some a
          <-> Dict.get merged k = Some a
              /\ is_private k = false /\ is_callable a = false
              /\ is_staticmethod a = false)
    /\ (forall k a,
          Dict.get d k = Some a ->
          exists c, issubclass c Tap_class = true
                    /\ Dict.get (class_dict c) k = Some a).
Proof.
  destruct (merge_total (fun super_class => Ok (class_dict super_class)) cls)
    as (st & Hrun & Hmerge); [done|].
  apply traverse_inv in Hrun as [[_ _ Hfam _ Hdict Hwf] _].
  exists (dictionary st). eexists. split; [done|].
  unfold _get_class_dict. rewrite Hmerge. simpl. split; [reflexivity|].
  split; [by apply wf_filter|].
  assert (Hget : forall k a,
    Dict.get (filter (fun p : string * class_attr =>
                        negb (is_private p.1 || is_callable p.2 || is_staticmethod p.2))
                     (Dict.items (dictionary st))) k = Some a
    <-> Dict.get (dictionary st) k = Some a
        /\ is_private k = false /\ is_callable a = false
        /\ is_staticmethod a = false).
  { intros k a. rewrite get_filter by done.
    destruct (Dict.get (dictionary st) k) as [a'|]; [|by split; [|intros []]].
    simpl. destruct (is_private k), (is_callable a') eqn:Hc,
      (is_staticmethod a') eqn:Hs; simpl;
      (split; [intros [= <-]|intros ([= <-] & ? & ? & ?)]; try done; congruence). }
  split; [done|].
  intros k a [Hk _]%Hget. rewrite Hdict in Hk.
  apply first_some_Some in Hk as (c & Hc & Hdecl).
  exists c. split; [by apply Hfam|done].
Qed.

Lemma class_dict_total `{Classes} (cls : class) :
  exists d, _get_class_dict cls = Ok d /\ Dict.wf d.
Proof.
  destruct (merge_total (fun super_class => Ok (class_dict super_class)) cls)
    as (st & Hrun & Hmerge); [done|].
  apply traverse_inv in Hrun as [[_ _ _ _ _ Hwf] _].
  eexists. unfold _get_class_dict. rewrite Hmerge. simpl.
  split; [reflexivity|]. by apply wf_filter.
Qed.

Lemma fold_set_fresh {V : Type} (v : V) (l : list string) (d : Dict.t V) :
  NoDup l -> (forall k, k ∈ l -> k ∉ Dict.keys d) ->
  fold_left (fun acc k => Dict.set acc k v) l d = d ++ map (fun k => (k, v)) l.
Proof.
  revert d. induction l as [|k l IH]; intros d Hnd Hnew; simpl.
  - by rewrite app_nil_r.
  - apply NoDup_cons in Hnd as [Hk Hnd].
    rewrite set_absent by (apply Hnew, list_elem_of_here).
    rewrite IH; [by rewrite <- app_assoc|done|].
    intros k1 Hk1. unfold Dict.keys. rewrite map_app. simpl.
    intros [Hin| ->%list_elem_of_singleton]%elem_of_app; [|done].
    revert Hin. by apply Hnew, list_elem_of_further.
Qed.

(** X19: when the source of a class of the family cannot be read, so that
    collecting the class variables from the source raises, the class
    variables are the names of [_get_class_dict], in its order, each with
    an empty comment: the constructor does not fail for this. *)
Theorem X19_class_variables_fall_back_to_class_dict `{Classes} (cls : class) (e : exn) :
  _get_from_self_and_super get_class_variables cls = Raise e ->
  exists d,
    _get_class_dict cls = Ok d
    /\ _get_class_variables cls = Ok (map (fun variable => (variable, "")) (Dict.keys d)).
Proof.
  intros Hraise.
  destruct (class_dict_total cls) as (d & Hd & Hwf).
  exists d. split; [done|].
  unfold _get_class_variables. rewrite Hraise, Hd. simpl.
  assert (He : exists what, e = Exception what).
  { unfold _get_from_self_and_super in Hraise.
    destruct (traverse_total get_class_variables cls) as [[st [e'|]] Hrun];
      rewrite Hrun in Hraise; [|done].
    injection Hraise as ->.
    apply traverse_raise in Hrun as (_ & c & _ & _ & Hc).
    unfold get_class_variables in Hc.
    destruct (class_table !! c) as [i|]; [destruct (source_variables i)|];
      try done; injection Hc as <-; eauto. }
  destruct He as [what ->]. f_equal.
  rewrite fold_set_fresh; [done|done|]. by intros k _ ?%elem_of_nil.
Qed.

(** X20: the merged table starts with the declarations of the class
    itself, in their order: what the ancestors add comes after them. *)
Theorem X20_own_declarations_come_first
    `{Classes} {V : Type} (extract_func : class -> result (Dict.t V))
    (cls : class) (own merged : Dict.t V) :
  issubclass cls Tap_class = true ->
  extract_func cls = Ok own ->
  Dict.wf own ->
  _get_from_self_and_super extract_func cls = Ok merged ->
  exists rest, merged = own ++ rest.
Proof.
  intros Hsub Hown Hwf. unfold _get_from_self_and_super, traverse, bfs_budget.
  cbn [bfs_loop bfs_init super_classes].
  destruct (bfs_step extract_func _) as [st1 o] eqn:Hstep.
  assert (Hfirst : dictionary st1 = own /\ o = None).
  { unfold bfs_step, bfs_init in Hstep.
    cbn [super_classes visited dictionary calls] in Hstep.
    rewrite Hsub, bool_decide_eq_false_2, Hown in Hstep by set_solver.
    cbn [negb andb] in Hstep. injection Hstep as <- <-. simpl.
    rewrite update_difference_unseen.
    by rewrite update_unseen_fresh by (done || by intros k _ ?%elem_of_nil). }
  destruct Hfirst as [Hdict ->].
  destruct (bfs_loop extract_func _ st1) as [[st [e|]]|] eqn:Hloop; try done.
  intros [= <-]. apply bfs_loop_extends in Hloop as [rest ->].
  exists rest. by rewrite Hdict.
Qed.

(** ** More on export and import *)
Section state_more.
Context `{Classes} `{Utils} `{Backend}.
Implicit Types (self : Tap) (record : Dict.t value).

(** The loop of [from_dict] warns once for every key that is a property
    of the class, in the order of the record. *)
Lemma set_attributes_warned (items : list (string * value)) (warned : list exn) self :
  set_attributes items warned self
  = (Ok (warned
         ++ map AttributeError
              (filter (fun k => is_property (class_getattr (cls self) k))
                      (map fst items))),
     with_attrs self (bind_all (cls self) items (attrs self))).
Proof.
  revert warned self. induction items as [|[k v] items IH]; intros warned self.
  - simpl. unfold ret. by rewrite app_nil_r, with_attrs_id.
  - cbn [set_attributes map fst snd]. unfold setattr. rewrite filter_cons.
    destruct (is_property (class_getattr (cls self) k)) eqn:Hp.
    + rewrite IH. rewrite decide_True by done.
      simpl. rewrite Hp. by rewrite <- app_assoc.
    + rewrite IH. rewrite decide_False by (by intros []).
      simpl. by rewrite Hp.
Qed.

Lemma from_dict_Ok record self warned self' :
  from_dict record self = (Ok warned, self') ->
  warned = map AttributeError
             (filter (fun k => is_property (class_getattr (cls self) k))
                     (Dict.keys record))
  /\ self' = with_parsed
               (with_attrs self (bind_all (cls self) (Dict.items record) (attrs self)))
               true.
Proof.
  unfold from_dict. destruct (negb _); [done|].
  unfold seq. rewrite set_attributes_warned. by intros [= <- <-].
Qed.


End state_more.

(** X21: the record of [as_dict] has exactly the names of the arguments,
    each once: the names of [_get_class_dict] and the annotated names. An
    attribute bound on the instance under another name is not exported.
    Every name comes with the value that reading the attribute gives. *)
Theorem X21_as_dict_exports_the_argument_names
    `{Classes} `{Utils} `{Backend} (self : Tap) (d : Dict.t value) :
  as_dict self = Ok d ->
  Dict.wf d
  /\ (exists class_dict,
        _get_class_dict (cls self) = Ok class_dict
        /\ forall k,
             k ∈ Dict.keys d
             <-> k ∈ Dict.keys class_dict \/ k ∈ Dict.keys (_annotations self))
  /\ (forall k v, Dict.get d k = Some v -> getattr self k = Ok v).
Proof.
  intros Hd.
  destruct (as_dict_Ok _ _ Hd) as (_ & names & Hnames & Hkeys & Hnd & Hreads).
  split; [unfold Dict.wf; by rewrite Hkeys|]. split.
  - unfold _get_argument_names, mbind, result_bind in Hnames.
    destruct (_get_class_dict (cls self)) as [class_dict|]; [|done].
    injection Hnames as <-. exists class_dict. split; [done|].
    intros k. by rewrite Hkeys, elem_of_remove_dups, elem_of_app.
  - intros k v Hk. apply DictFacts.get_Some_item in Hk.
    by apply (proj1 (Forall_forall _ _) Hreads (k, v)).
Qed.

(** X23: a successful [from_dict] warns once, with the [AttributeError],
    for every key of the record that is a property of the class (a
    property has no setter here), in the order of the record, and raises
    for none of them. Afterwards every other key of the record reads as
    the value that the record gives it, and every attribute that is a
    property of the class or is not a key of the record reads as before;
    this leaves out [_parsed], which [from_dict] assigns itself. *)
Theorem X23_from_dict_binds_and_warns
    `{Classes} `{Utils} `{Backend} (self self' : Tap) (record : Dict.t value)
    (warned : list exn) :
  Dict.wf record ->
  from_dict record self = (Ok warned, self') ->
  warned = map AttributeError
             (filter (fun k => is_property (class_getattr (cls self) k))
                     (Dict.keys record))
  /\ _parsed self' = true
  /\ (forall k v,
        Dict.get record k = Some v ->
        k <> "_parsed" ->
        is_property (class_getattr (cls self) k) = false ->
        getattr self' k = Ok v)
  /\ (forall k,
        k ∉ Dict.keys record \/ is_property (class_getattr (cls self) k) = true ->
        k <> "_parsed" ->
        getattr self' k = getattr self k).
Proof.
  intros Hwf [Hwarned ->]%from_dict_Ok. split; [done|]. split; [done|]. split.
  - intros k v Hk _ Hp. rewrite getattr_with_parsed.
    apply getattr_bound; simpl; [done|].
    apply bind_all_get; [done| |done]. by apply DictFacts.get_Some_item.
  - intros k [Hk|Hp] _; rewrite getattr_with_parsed; unfold getattr; simpl.
    + by rewrite bind_all_other.
    + by destruct (class_getattr (cls self) k) as [[]|].
Qed.


(** ** The further theorems at work on the example programs *)

(** X1 on [class Args(Tap): x: Path] registered with [type=Path]. *)
Lemma X1_witness_path_with_type :
  exists kwargs',
    @_add_argument_kwargs (Examples.single "x" (TClass "Path") None) tap_utils
      (argparse [])
      (Examples.declared (Examples.single "x" (TClass "Path") None) false)
      ["--x"] (set_type no_kwargs (CFunction "Path")) = Ok kwargs'
    /\ kw_type kwargs' = kw_type (set_type no_kwargs (CFunction "Path"))
    /\ kw_choices kwargs' = kw_choices (set_type no_kwargs (CFunction "Path"))
    /\ kw_nargs kwargs' = kw_nargs (set_type no_kwargs (CFunction "Path"))
    /\ kw_action kwargs' = kw_action (set_type no_kwargs (CFunction "Path")).
Proof.
  apply (@X1_given_type_skips_synthesis
           (Examples.single "x" (TClass "Path") None) tap_utils (argparse [])
           (Examples.declared (Examples.single "x" (TClass "Path") None) false)
           ["--x"] (set_type no_kwargs (CFunction "Path"))).
  right. simpl. eexists. reflexivity.
Defined.

(** X2 on [class Args(Tap): x: int = 5] registered with [default=7]. *)
Lemma X2_witness_given_default :
  kw_default
    {| kw_default := Some (VInt 7); kw_required := Some false;
       kw_help := Some (HelpSynth (Some TInt) (Some (VInt 7)) (Some ""));
       kw_type := Some (CType TInt); kw_choices := None; kw_nargs := None;
       kw_action := None; kw_dest := None |}
  = Some (VInt 7).
Proof.
  apply (@X2_given_keywords_are_kept
           (Examples.single "x" TInt (Some (VInt 5))) tap_utils (argparse [])
           (Examples.declared (Examples.single "x" TInt (Some (VInt 5))) false)
           ["--x"] (set_default no_kwargs (VInt 7))).
  - vm_compute. reflexivity.
  - reflexivity.
Defined.

(** X3 on the same class with [x] registered as a positional argument. *)
Lemma X3_witness_positional :
  kw_required
    {| kw_default := Some (VInt 5); kw_required := None;
       kw_help := Some (HelpSynth (Some TInt) (Some (VInt 5)) (Some ""));
       kw_type := Some (CType TInt); kw_choices := None; kw_nargs := None;
       kw_action := None; kw_dest := None |}
  = kw_required no_kwargs.
Proof.
  apply (@X3_required_only_for_options
           (Examples.single "x" TInt (Some (VInt 5))) tap_utils (argparse [])
           (Examples.declared (Examples.single "x" TInt (Some (VInt 5))) false)
           ["x"] no_kwargs).
  - left. reflexivity.
  - vm_compute. reflexivity.
Defined.

(** X4 on [class Args(Tap): x: List[bool]]. *)
Lemma X4_witness_list_of_bool :
  exists kwargs',
    @_add_argument_kwargs (Examples.single "x" (TList [TBool]) None) tap_utils
      (argparse [])
      (Examples.declared (Examples.single "x" (TList [TBool]) None) false)
      ["--x"] no_kwargs = Ok kwargs'
    /\ kw_type kwargs' = Some Cboolean_type
    /\ kw_nargs kwargs' = Some NargsStar
    /\ kw_action kwargs' = None
    /\ kw_choices kwargs' = None.
Proof.
  apply (@X4_boxed_types_take_the_element_converter
           (Examples.single "x" (TList [TBool]) None) tap_utils (argparse [])
           (Examples.declared (Examples.single "x" (TList [TBool]) None) false)
           ["--x"] no_kwargs (TList [TBool])).
  - vm_compute. repeat constructor.
  - vm_compute. reflexivity.
  - reflexivity.
Defined.

(** X5 on [class Args(Tap): x: Tuple[int, str]]. *)
Lemma X5_witness_pair :
  exists kwargs',
    @_add_argument_kwargs (Examples.single "x" (TTuple [TInt; TStr]) None) tap_utils
      (argparse [])
      (Examples.declared (Examples.single "x" (TTuple [TInt; TStr]) None) false)
      ["--x"] no_kwargs = Ok kwargs'
    /\ kw_type kwargs' = Some (CTupleTypeEnforcer [TInt; TStr] false)
    /\ kw_nargs kwargs' = Some (NargsInt 2)
    /\ kw_action kwargs' = None
    /\ kw_choices kwargs' = None.
Proof.
  apply (@X5_tuple_takes_one_token_per_element
           (Examples.single "x" (TTuple [TInt; TStr]) None) tap_utils (argparse [])
           (Examples.declared (Examples.single "x" (TTuple [TInt; TStr]) None) false)
           ["--x"] no_kwargs [TInt; TStr]).
  - vm_compute. reflexivity.
  - reflexivity.
  - discriminate.
  - reflexivity.
  - reflexivity.
Defined.

(** X6 on [class Args(Tap): x: Tuple[int, ...]]. *)
Lemma X6_witness_variadic :
  exists kwargs',
    @_add_argument_kwargs (Examples.single "x" (TTuple [TInt; TEllipsis]) None)
      tap_utils (argparse [])
      (Examples.declared (Examples.single "x" (TTuple [TInt; TEllipsis]) None) false)
      ["--x"] no_kwargs = Ok kwargs'
    /\ kw_type kwargs' = Some (CTupleTypeEnforcer [TInt] true)
    /\ kw_nargs kwargs' = Some NargsStar
    /\ kw_action kwargs' = None
    /\ kw_choices kwargs' = None.
Proof.
  apply (@X6_variadic_tuple_takes_any_number
           (Examples.single "x" (TTuple [TInt; TEllipsis]) None) tap_utils (argparse [])
           (Examples.declared (Examples.single "x" (TTuple [TInt; TEllipsis]) None) false)
           ["--x"] no_kwargs TInt).
  - vm_compute. reflexivity.
  - reflexivity.
Defined.

(** X7 on [class Args(Tap): x: Tuple[()]]. *)
Lemma X7_witness_empty_tuple :
  @_add_argument (Examples.single "x" (TTuple [TEmptyTuple]) None) tap_utils
    (argparse []) ["--x"] no_kwargs
    (Examples.declared (Examples.single "x" (TTuple [TEmptyTuple]) None) false)
  = (Raise (ValueError empty_tuple),
     Examples.declared (Examples.single "x" (TTuple [TEmptyTuple]) None) false).
Proof.
  apply (@X7_empty_tuple_is_refused
           (Examples.single "x" (TTuple [TEmptyTuple]) None) tap_utils (argparse [])
           (Examples.declared (Examples.single "x" (TTuple [TEmptyTuple]) None) false)
           ["--x"] no_kwargs).
  - vm_compute. reflexivity.
  - reflexivity.
Defined.

(** X8 on [class Args(Tap): flag: bool]. *)
Lemma X8_witness_flag_without_default :
  exists kwargs',
    @_add_argument_kwargs (Examples.single "flag" TBool None) tap_utils (argparse [])
      (Examples.declared (Examples.single "flag" TBool None) false)
      ["--flag"] no_kwargs = Ok kwargs'
    /\ kw_required kwargs' = Some true
    /\ kw_action kwargs' = Some "store_true"
    /\ kw_type kwargs' = None
    /\ kw_default kwargs' = None.
Proof.
  apply (@X8_required_boolean_is_store_true
           (Examples.single "flag" TBool None) tap_utils (argparse [])
           (Examples.declared (Examples.single "flag" TBool None) false)
           ["--flag"] no_kwargs).
  - reflexivity.
  - vm_compute. discriminate.
  - vm_compute. reflexivity.
  - vm_compute. reflexivity.
  - vm_compute. reflexivity.
  - reflexivity.
  - reflexivity.
  - reflexivity.
Defined.

(** X9 on the same class with [flag] registered as a positional argument. *)
Lemma X9_witness_positional_flag :
  @_add_argument (Examples.single "flag" TBool None) tap_utils (argparse [])
    ["flag"] no_kwargs (Examples.declared (Examples.single "flag" TBool None) false)
  = (Raise (KeyError "required"),
     Examples.declared (Examples.single "flag" TBool None) false).
Proof.
  apply (@X9_positional_boolean_raises_KeyError
           (Examples.single "flag" TBool None) tap_utils (argparse [])
           (Examples.declared (Examples.single "flag" TBool None) false)
           ["flag"] no_kwargs).
  - reflexivity.
  - vm_compute. reflexivity.
  - vm_compute. reflexivity.
  - reflexivity.
  - reflexivity.
Defined.

(** X10 on [class Args(Tap): x: int = 5]. *)
Lemma X10_witness_help_of_int_field :
  kw_help
    {| kw_default := Some (VInt 5); kw_required := Some false;
       kw_help := Some (HelpSynth (Some TInt) (Some (VInt 5)) (Some ""));
       kw_type := Some (CType TInt); kw_choices := None; kw_nargs := None;
       kw_action := None; kw_dest := None |}
  = Some (HelpSynth
            (Dict.get
               (_annotations
                  (Examples.declared (Examples.single "x" TInt (Some (VInt 5))) false))
               (@get_dest tap_utils ["--x"] no_kwargs))
            (Some (VInt 5))
            (Dict.get
               (class_variables
                  (Examples.declared (Examples.single "x" TInt (Some (VInt 5))) false))
               (@get_dest tap_utils ["--x"] no_kwargs))).
Proof.
  apply (@X10_synthesized_help_agrees_with_registration
           (Examples.single "x" TInt (Some (VInt 5))) tap_utils (argparse [])
           (Examples.declared (Examples.single "x" TInt (Some (VInt 5))) false)
           ["--x"] no_kwargs).
  - reflexivity.
  - vm_compute. reflexivity.
Defined.

(** X13 on [class Args(Tap): x: int = 5]. *)
Lemma X13_witness_new_instance :
  cls (Examples.constructed (Examples.single "x" TInt (Some (VInt 5))) false) = "Args"
  /\ _parsed (Examples.constructed (Examples.single "x" TInt (Some (VInt 5))) false)
     = false
  /\ @as_dict (Examples.single "x" TInt (Some (VInt 5))) (argparse [])
       (Examples.constructed (Examples.single "x" TInt (Some (VInt 5))) false)
     = Raise (ValueError not_parsed)
  /\ @_get_annotations (Examples.single "x" TInt (Some (VInt 5))) "Args"
     = Ok (_annotations
             (Examples.constructed (Examples.single "x" TInt (Some (VInt 5))) false))
  /\ Dict.wf (_annotations
                (Examples.constructed (Examples.single "x" TInt (Some (VInt 5))) false))
  /\ attrs (Examples.constructed (Examples.single "x" TInt (Some (VInt 5))) false)
     = @constructor_attributes (argparse []) false false
  /\ (forall name v,
        Dict.get (@constructor_attributes (argparse []) false false) name = Some v ->
        is_property
          (@class_getattr (Examples.single "x" TInt (Some (VInt 5))) "Args" name)
        = false ->
        @getattr (Examples.single "x" TInt (Some (VInt 5))) (argparse [])
          (Examples.constructed (Examples.single "x" TInt (Some (VInt 5))) false) name
        = Ok v)
  /\ (forall name,
        Dict.get (@constructor_attributes (argparse []) false false) name = None ->
        @getattr (Examples.single "x" TInt (Some (VInt 5))) (argparse [])
          (Examples.constructed (Examples.single "x" TInt (Some (VInt 5))) false) name
        = match
            @class_getattr (Examples.single "x" TInt (Some (VInt 5))) "Args" name
          with
          | Some a => Ok (attr_to_value a)
          | None => Raise (AttributeError name)
          end).
Proof.
  apply (@X13_constructor_gives_unparsed_instance
           (Examples.single "x" TInt (Some (VInt 5))) tap_utils (argparse [])
           "Args" false false (@add_arguments (argparse []))).
  - intros s r s'. unfold add_arguments, ret. intros [= <- <-]. repeat split.
  - assert (Hok : is_ok (Examples.construct (Examples.single "x" TInt (Some (VInt 5)))
                           false) = true)
      by (vm_compute; reflexivity).
    unfold Examples.constructed, Examples.construct in *.
    by destruct (__init__ _ _ _ _).
Defined.

(** X14 on [class Args(Tap): x: int], parsed with no token. *)
Lemma X14_witness_missing_argument :
  _parsed (snd (Examples.parse (Examples.single "x" TInt None) false []))
  = _parsed (Examples.constructed (Examples.single "x" TInt None) false)
  /\ (_parsed (Examples.constructed (Examples.single "x" TInt None) false) = false ->
      @as_dict (Examples.single "x" TInt None) (argparse [])
        (snd (Examples.parse (Examples.single "x" TInt None) false []))
      = Raise (ValueError not_parsed))
  /\ (forall e0,
        @backend_parse (argparse [])
          (Examples.constructed (Examples.single "x" TInt None) false) (Some []) false
        = Raise e0 ->
        SystemExit "the following arguments are required" = e0
        /\ snd (Examples.parse (Examples.single "x" TInt None) false [])
           = Examples.constructed (Examples.single "x" TInt None) false).
Proof.
  apply (@X14_failed_parse_leaves_the_mark
           (Examples.single "x" TInt None) tap_utils (argparse [])
           (@process_args (argparse [])) (Some []) false
           (Examples.constructed (Examples.single "x" TInt None) false)
           (snd (Examples.parse (Examples.single "x" TInt None) false []))
           (SystemExit "the following arguments are required")).
  - intros s r s'. unfold process_args, ret. by intros [= <- <-].
  - assert (Hfst : fst (Examples.parse (Examples.single "x" TInt None) false [])
                   = Raise (SystemExit "the following arguments are required"))
      by (vm_compute; reflexivity).
    unfold Examples.parse in *.
    destruct (parse_args _ _ _ _) as [r s]. simpl in Hfst. by rewrite Hfst.
Defined.

(** X15 on [class Args(Tap): x: int = 5] and the tokens [--x 1 --y 2],
    parsed with [known_only]. *)
Lemma X15_witness_unknown_flag :
  super (snd (Examples.parse_known (Examples.single "x" TInt (Some (VInt 5))) false
                ["--x"; "1"; "--y"; "2"]))
  = super (Examples.constructed (Examples.single "x" TInt (Some (VInt 5))) false)
  /\ (true = false ->
      extra_args (snd (Examples.parse_known (Examples.single "x" TInt (Some (VInt 5)))
                         false ["--x"; "1"; "--y"; "2"]))
      = extra_args (Examples.constructed (Examples.single "x" TInt (Some (VInt 5)))
                      false))
  /\ (forall ns extras,
        true = true ->
        @parser_parse_known_args (argparse [])
          (super (Examples.constructed (Examples.single "x" TInt (Some (VInt 5))) false))
          (Some ["--x"; "1"; "--y"; "2"]) = Ok (ns, extras) ->
        extra_args (snd (Examples.parse_known (Examples.single "x" TInt (Some (VInt 5)))
                           false ["--x"; "1"; "--y"; "2"]))
        = extras).
Proof.
  apply (@X15_known_only_keeps_the_unknown_tokens
           (Examples.single "x" TInt (Some (VInt 5))) tap_utils (argparse [])
           (Some ["--x"; "1"; "--y"; "2"]) true
           (Examples.constructed (Examples.single "x" TInt (Some (VInt 5))) false)
           (snd (Examples.parse_known (Examples.single "x" TInt (Some (VInt 5))) false
                   ["--x"; "1"; "--y"; "2"]))).
  assert (Hfst : fst (Examples.parse_known (Examples.single "x" TInt (Some (VInt 5)))
                        false ["--x"; "1"; "--y"; "2"]) = Ok tt)
    by (vm_compute; reflexivity).
  unfold Examples.parse_known in *.
  destruct (parse_args _ _ _ _) as [r s]. simpl in Hfst. by rewrite Hfst.
Defined.

(** X16 on the same class and the tokens [--x 7]. *)
Lemma X16_witness_int_field :
  @getattr (Examples.single "x" TInt (Some (VInt 5))) (argparse [])
    (snd (Examples.parse (Examples.single "x" TInt (Some (VInt 5))) false
            ["--x"; "7"])) "x"
  = Ok (VInt 7)
  /\ @getattr (Examples.single "x" TInt (Some (VInt 5))) (argparse [])
       (snd (Examples.parse (Examples.single "x" TInt (Some (VInt 5))) false
               ["--x"; "7"])) "description"
     = @getattr (Examples.single "x" TInt (Some (VInt 5))) (argparse [])
         (Examples.constructed (Examples.single "x" TInt (Some (VInt 5))) false)
         "description".
Proof.
  destruct (@X16_parse_binds_the_namespace
              (Examples.single "x" TInt (Some (VInt 5))) tap_utils (argparse [])
              (Some ["--x"; "7"]) false
              (Examples.constructed (Examples.single "x" TInt (Some (VInt 5))) false)
              (snd (Examples.parse (Examples.single "x" TInt (Some (VInt 5))) false
                      ["--x"; "7"]))
              [("x", VInt 7)]) as (_ & Hraw & Hother).
  - vm_compute. reflexivity.
  - apply (bool_decide_unpack _). vm_compute. exact I.
  - assert (Hfst : fst (Examples.parse (Examples.single "x" TInt (Some (VInt 5))) false
                          ["--x"; "7"]) = Ok tt)
      by (vm_compute; reflexivity).
    unfold Examples.parse in *.
    destruct (parse_args _ _ _ _) as [r s]. simpl in Hfst. by rewrite Hfst.
  - split.
    + apply (Hraw "x" (VInt 7)).
      * reflexivity.
      * discriminate.
      * vm_compute. reflexivity.
      * vm_compute. split; discriminate.
    + apply (Hother "description").
      * apply (bool_decide_unpack _). vm_compute. exact I.
      * discriminate.
      * discriminate.
Defined.

(** X17 on [class Args(Tap): x: Set[int] = None], parsed with no token. *)
Lemma X17_witness_set_field_with_None :
  exists e self',
    @parse_args (Examples.single "x" (TSet [TInt]) (Some VNone)) (argparse [])
      (@process_args (argparse [])) (Some []) false
      (Examples.constructed (Examples.single "x" (TSet [TInt]) (Some VNone)) false)
    = (Raise e, self').
Proof.
  apply (@X17_container_field_needs_an_iterable
           (Examples.single "x" (TSet [TInt]) (Some VNone)) tap_utils (argparse [])
           (@process_args (argparse [])) (Some []) false
           (Examples.constructed (Examples.single "x" (TSet [TInt]) (Some VNone)) false)
           [("x", VNone)] "x" VNone (TSet [TInt])).
  - vm_compute. reflexivity.
  - reflexivity.
  - reflexivity.
  - vm_compute. reflexivity.
  - left. reflexivity.
Defined.

(** X19 on a class whose source cannot be read. *)
Lemma X19_witness_unreadable_source :
  exists d,
    @_get_class_dict Examples.unreadable "Args" = Ok d
    /\ @_get_class_variables Examples.unreadable "Args"
       = Ok (map (fun variable => (variable, "")) (Dict.keys d)).
Proof.
  apply (@X19_class_variables_fall_back_to_class_dict Examples.unreadable "Args"
           (Exception "could not get source code")).
  vm_compute. reflexivity.
Defined.

(** X20 on the diamond, for the leaf. *)
Lemma X20_witness_diamond :
  exists rest,
    [("x", attr_value (VInt 3)); ("y", attr_value (VStr "base"));
     ("add_arguments", attr_callable "Tap.add_arguments");
     ("process_args", attr_callable "Tap.process_args");
     ("get_reproducibility_info", attr_staticmethod "Tap.get_reproducibility_info")]
    = [("x", attr_value (VInt 3))] ++ rest.
Proof.
  apply (@X20_own_declarations_come_first (Examples.diamond ["Left"; "Right"]) _
           (@Examples.own_dict (Examples.diamond ["Left"; "Right"])) "Leaf").
  - vm_compute. reflexivity.
  - vm_compute. reflexivity.
  - apply (bool_decide_unpack _). vm_compute. exact I.
  - vm_compute. reflexivity.
Defined.

(** X21 on [class Args(Tap): x: int = 5], parsed with [--x 7]. *)
Lemma X21_witness_int_field :
  Dict.wf [("x", VInt 7)]
  /\ (exists class_dict,
        @_get_class_dict (Examples.single "x" TInt (Some (VInt 5)))
          (cls (Examples.parsed (Examples.single "x" TInt (Some (VInt 5))) false
                  ["--x"; "7"])) = Ok class_dict
        /\ forall k,
             k ∈ Dict.keys [("x", VInt 7)]
             <-> k ∈ Dict.keys class_dict
                 \/ k ∈ Dict.keys
                          (_annotations
                             (Examples.parsed (Examples.single "x" TInt (Some (VInt 5)))
                                false ["--x"; "7"])))
  /\ (forall k v,
        Dict.get [("x", VInt 7)] k = Some v ->
        @getattr (Examples.single "x" TInt (Some (VInt 5))) (argparse [])
          (Examples.parsed (Examples.single "x" TInt (Some (VInt 5))) false ["--x"; "7"])
          k = Ok v).
Proof.
  apply (@X21_as_dict_exports_the_argument_names
           (Examples.single "x" TInt (Some (VInt 5))) tap_utils (argparse [])
           (Examples.parsed (Examples.single "x" TInt (Some (VInt 5))) false ["--x"; "7"])
           [("x", VInt 7)]).
  vm_compute. reflexivity.
Defined.

(** X23 on [class Args(Tap): x: int = 5] with the property [total], and a
    record that gives both. *)
Lemma X23_witness_property_key :
  [AttributeError "total"]
  = map AttributeError
      (filter
         (fun k =>
            is_property
              (@class_getattr Examples.propertied
                 (cls (Examples.constructed Examples.propertied false)) k))
         (Dict.keys [("x", VInt 9); ("total", VInt 1)]))
  /\ _parsed (snd (Examples.import Examples.propertied
                     [("x", VInt 9); ("total", VInt 1)]
                     (Examples.constructed Examples.propertied false))) = true.
Proof.
  destruct (@X23_from_dict_binds_and_warns Examples.propertied tap_utils (argparse [])
              (Examples.constructed Examples.propertied false)
              (snd (Examples.import Examples.propertied
                      [("x", VInt 9); ("total", VInt 1)]
                      (Examples.constructed Examples.propertied false)))
              [("x", VInt 9); ("total", VInt 1)] [AttributeError "total"])
    as (Hwarned & Hmark & _).
  - apply (bool_decide_unpack _). vm_compute. exact I.
  - assert (Hfst : fst (Examples.import Examples.propertied
                          [("x", VInt 9); ("total", VInt 1)]
                          (Examples.constructed Examples.propertied false))
                   = Ok [AttributeError "total"])
      by (vm_compute; reflexivity).
    unfold Examples.import in *.
    destruct (from_dict _ _) as [r s]. simpl in Hfst. by rewrite Hfst.
  - split; [exact Hwarned|exact Hmark].
Defined.

